(** * Margsathi routing backend: provider selection, fallback and route synthesis

    A shallow embedding of [backend/config.py], the provider clients and the
    geocoder of [backend/services], [backend/services/router_manager.py],
    [backend/routes/routing.py] and [backend/routes/events.py], followed by
    the properties of the provider-orchestration layer.

    Conventions of the embedding:
    - Python [float] is IEEE binary64, modelled by Rocq's primitive floats; decimal
      literals denote the nearest binary64 value, as in Python.
    - Python [str] is modelled by [string] on ASCII text, one character per
      code point. [lower], [strip] and [title] are the string methods on such
      text; they leave characters above 127 alone, which the Unicode-aware
      methods of Python do not, so a statement that depends on them for an
      arbitrary string carries the hypothesis [is_ascii].
    - [Optional[str]] read from the environment is [option string]; [bool(x)] on it
      is [truthy_str].
    - remote services are oracles threaded through an abstract [World]. *)

From Stdlib Require Import ZArith String Ascii List Bool Lia.
From Stdlib Require Import Floats.PrimFloat Floats.SpecFloat Floats.FloatOps Floats.FloatAxioms.
Import ListNotations.

Set Warnings "-inexact-float,-register-all".
Open Scope string_scope.

(* ===================================================================== *)
(** ** Python values, exceptions and string helpers *)
(* ===================================================================== *)

Module Py.

(** Exceptions raised by the modelled code; every one is a subclass of
    Python's [Exception]. [TransportError] stands for what the HTTP client
    raises (timeouts, connection errors), [ValidationError] for what a
    response model raises on a keyword argument that does not fit its field,
    [OtherError] for anything else. *)
Inductive exn : Type :=
| NameError (name : string)
| KeyError
| IndexError
| TypeError
| ValueError
| AttributeError
| OverflowError
| TransportError
| ValidationError
| OtherError (msg : string).

Inductive result (A : Type) : Type :=
| Ok (a : A)
| Raise (e : exn).
Arguments Ok {A} a.
Arguments Raise {A} e.

Definition rbind {A B} (r : result A) (k : A -> result B) : result B :=
  match r with
  | Ok a => k a
  | Raise e => Raise e
  end.

(** JSON-shaped Python values, as returned by [resp.json()]. [PNone] is both
    Python's [None] and JSON [null]. Dictionaries keep insertion order. *)
Inductive pyval : Type :=
| PNone
| PBool (b : bool)
| PInt (z : Z)
| PFloat (f : float)
| PStr (s : string)
| PList (l : list pyval)
| PDict (d : list (string * pyval)).

(** [bool(v)] *)
Definition truthy (v : pyval) : bool :=
  match v with
  | PNone => false
  | PBool b => b
  | PInt z => negb (Z.eqb z 0)
  | PFloat f => negb (PrimFloat.eqb f 0%float)
  | PStr s => negb (String.eqb s "")
  | PList l => match l with [] => false | _ => true end
  | PDict d => match d with [] => false | _ => true end
  end.

(** [bool(s)] for an [Optional[str]]. *)
Definition truthy_str (s : option string) : bool :=
  match s with
  | Some s => negb (String.eqb s "")
  | None => false
  end.

Fixpoint dict_lookup {V} (k : string) (d : list (string * V)) : option V :=
  match d with
  | [] => None
  | (k', v) :: d' => if String.eqb k k' then Some v else dict_lookup k d'
  end.

(** [d[k] = v]: overwrite in place when the key exists, else append. *)
Fixpoint dict_set {V} (k : string) (v : V) (d : list (string * V)) : list (string * V) :=
  match d with
  | [] => [(k, v)]
  | (k', v') :: d' =>
      if String.eqb k k' then (k', v) :: d' else (k', v') :: dict_set k v d'
  end.

(** [v.get(k, default)]: only dictionaries have the method. *)
Definition py_get (v : pyval) (k : string) (default : pyval) : result pyval :=
  match v with
  | PDict d => Ok (match dict_lookup k d with Some x => x | None => default end)
  | _ => Raise AttributeError
  end.

(** [v[k]] with a string key. *)
Definition py_getitem_key (v : pyval) (k : string) : result pyval :=
  match v with
  | PDict d => match dict_lookup k d with Some x => Ok x | None => Raise KeyError end
  | _ => Raise TypeError
  end.

(** [v[0]]. JSON dictionaries have string keys only, so [d[0]] is a [KeyError]. *)
Definition py_getitem_0 (v : pyval) : result pyval :=
  match v with
  | PList (x :: _) => Ok x
  | PList [] => Raise IndexError
  | PStr (String c _) => Ok (PStr (String c EmptyString))
  | PStr EmptyString => Raise IndexError
  | PDict _ => Raise KeyError
  | _ => Raise TypeError
  end.

Fixpoint chars (s : string) : list pyval :=
  match s with
  | EmptyString => []
  | String c s' => PStr (String c EmptyString) :: chars s'
  end.

(** [iter(v)]: the elements a [for] loop or [list.extend] draws from [v]. *)
Definition py_iter (v : pyval) : result (list pyval) :=
  match v with
  | PList l => Ok l
  | PStr s => Ok (chars s)
  | PDict d => Ok (map (fun kv => PStr (fst kv)) d)
  | _ => Raise TypeError
  end.

(** [float(z)] for a Python [int]: nearest binary64, [OverflowError] beyond range. *)
Definition float_of_Z (z : Z) : result float :=
  let f := SF2Prim (binary_normalize 53 1024 z 0 false) in
  if PrimFloat.is_infinity f then Raise OverflowError else Ok f.

(** A Python number among the JSON values: an [int] (a [bool] is one) or a
    [float]. *)
Inductive number : Type :=
| NInt (z : Z)
| NFloat (f : float).

Definition as_number (v : pyval) : option number :=
  match v with
  | PInt z => Some (NInt z)
  | PBool b => Some (NInt (if b then 1 else 0)%Z)
  | PFloat f => Some (NFloat f)
  | _ => None
  end.

(** [a - b]: exact on two integers; an integer facing a float is converted
    first. *)
Definition py_sub (a b : pyval) : result pyval :=
  match as_number a, as_number b with
  | Some (NInt x), Some (NInt y) => Ok (PInt (x - y))
  | Some (NFloat x), Some (NFloat y) => Ok (PFloat (PrimFloat.sub x y))
  | Some (NInt x), Some (NFloat y) =>
      rbind (float_of_Z x) (fun x' => Ok (PFloat (PrimFloat.sub x' y)))
  | Some (NFloat x), Some (NInt y) =>
      rbind (float_of_Z y) (fun y' => Ok (PFloat (PrimFloat.sub x y')))
  | _, _ => Raise TypeError
  end.

(** The argument of a [math] function: a number, converted to [float]. *)
Definition math_arg (v : pyval) : result float :=
  match as_number v with
  | Some (NFloat f) => Ok f
  | Some (NInt z) => float_of_Z z
  | None => Raise TypeError
  end.

(** A method of [str] called on a value: no other JSON value has it. *)
Definition str_of (v : pyval) : result string :=
  match v with
  | PStr s => Ok s
  | _ => Raise AttributeError
  end.

(** *** Strings

    The methods of [str] on ASCII text. *)

(** Every character is below 128. *)
Definition is_ascii (s : string) : bool :=
  forallb (fun c => Nat.ltb (nat_of_ascii c) 128) (list_ascii_of_string s).

Definition ascii_lower (c : ascii) : ascii :=
  let n := nat_of_ascii c in
  if ((65 <=? n) && (n <=? 90))%nat then ascii_of_nat (n + 32) else c.

Definition ascii_upper (c : ascii) : ascii :=
  let n := nat_of_ascii c in
  if ((97 <=? n) && (n <=? 122))%nat then ascii_of_nat (n - 32) else c.

Definition is_cased (c : ascii) : bool :=
  let n := nat_of_ascii c in
  (((65 <=? n) && (n <=? 90)) || ((97 <=? n) && (n <=? 122)))%nat.

(** [str.isspace] on one ASCII character. *)
Definition is_space (c : ascii) : bool :=
  let n := nat_of_ascii c in
  (((9 <=? n) && (n <=? 13)) || ((28 <=? n) && (n <=? 32)))%nat.

(** [s.lower()], for ASCII [s] *)
Fixpoint lower (s : string) : string :=
  match s with
  | EmptyString => EmptyString
  | String c s' => String (ascii_lower c) (lower s')
  end.

Fixpoint lstrip (s : string) : string :=
  match s with
  | EmptyString => EmptyString
  | String c s' => if is_space c then lstrip s' else s
  end.

Fixpoint rstrip (s : string) : string :=
  match s with
  | EmptyString => EmptyString
  | String c s' =>
      match rstrip s' with
      | EmptyString => if is_space c then EmptyString else String c EmptyString
      | r => String c r
      end
  end.

(** [s.strip()], for ASCII [s] *)
Definition strip (s : string) : string := rstrip (lstrip s).

(** [needle in hay] *)
Fixpoint contains (needle hay : string) : bool :=
  String.prefix needle hay
  || match hay with
     | EmptyString => false
     | String _ hay' => contains needle hay'
     end.

Fixpoint title_from (prev_cased : bool) (s : string) : string :=
  match s with
  | EmptyString => EmptyString
  | String c s' =>
      String (if prev_cased then ascii_lower c else ascii_upper c)
             (title_from (is_cased c) s')
  end.

(** [s.title()], for ASCII [s] *)
Definition title (s : string) : string := title_from false s.

(** [sep.join(parts)] *)
Fixpoint join (sep : string) (parts : list string) : string :=
  match parts with
  | [] => ""
  | [p] => p
  | p :: rest => p ++ sep ++ join sep rest
  end.

(** *** State and exceptions

    [SE S A] is a computation over a state [S] that returns an [A] or raises.
    The state reached when an exception is raised is kept, as in Python, where
    a [try] block does not undo the assignments made before the exception. *)

Definition SE (S A : Type) : Type := S -> result A * S.

Definition ret {S A} (a : A) : SE S A := fun s => (Ok a, s).

Definition raise {S A} (e : exn) : SE S A := fun s => (Raise e, s).

Definition bind {S A B} (m : SE S A) (k : A -> SE S B) : SE S B :=
  fun s =>
    match m s with
    | (Ok a, s') => k a s'
    | (Raise e, s') => (Raise e, s')
    end.

(** [r] computed without touching the state. *)
Definition lift {S A} (r : result A) : SE S A := fun s => (r, s).

(** [try: body except Exception as e: handler e] *)
Definition try_except {S A} (body : SE S A) (handler : exn -> SE S A) : SE S A :=
  fun s =>
    match body s with
    | (Ok a, s') => (Ok a, s')
    | (Raise e, s') => handler e s'
    end.

Definition get_state {S} : SE S S := fun s => (Ok s, s).

Definition modify {S} (f : S -> S) : SE S unit := fun s => (Ok tt, f s).

(** *** The Python runtime functions the code calls

    [math.sin], [math.cos], [math.asin] and [float.__pow__] come from the C
    library, [round] and [float(str)] from the interpreter; they are taken as
    given. The [math] functions raise [ValueError] outside their domain. *)
Record PyRuntime : Type := {
  math_sin : float -> result float;
  math_cos : float -> result float;
  math_asin : float -> result float;
  float_pow : float -> float -> result float;
  py_round : float -> Z -> float;
  float_of_str : string -> result float
}.

(** [math.sqrt] *)
Definition math_sqrt (x : float) : result float :=
  if PrimFloat.ltb x 0%float then Raise ValueError else Ok (PrimFloat.sqrt x).

(** [math.radians]: [x * (pi / 180)] *)
Definition math_radians (x : float) : float :=
  PrimFloat.mul x (PrimFloat.div 3.141592653589793%float 180%float).

(** [float(v)] *)
Definition py_float (rt : PyRuntime) (v : pyval) : result float :=
  match v with
  | PFloat f => Ok f
  | PInt z => float_of_Z z
  | PBool b => Ok (if b then 1%float else 0%float)
  | PStr s => float_of_str rt s
  | _ => Raise TypeError
  end.

(** *** Response models

    The response classes are models of the validation library: building one
    checks every keyword argument against the declared type of its field and
    raises [ValidationError] when a value does not fit. A value of the
    declared type is taken as it is, and so is an [int] for a [float] field.
    What becomes of another value depends on the release of the library
    where a conversion is conceivable (a number for a [str] field, a list of
    pairs for a dictionary field, a [bool] for a [float] field): there the
    outcome is taken as given, [None] standing for a refusal. *)
Record Coercions : Type := {
  number_as_str : pyval -> option string;
  value_as_float : pyval -> option float;
  sequence_as_dict : pyval -> option (list (string * pyval))
}.

(** A field declared [str]. *)
Definition validate_str (c : Coercions) (v : pyval) : option string :=
  match v with
  | PStr s => Some s
  | PInt _ | PFloat _ | PBool _ => number_as_str c v
  | PNone | PList _ | PDict _ => None
  end.

(** A field declared [float]. *)
Definition validate_float (c : Coercions) (v : pyval) : option float :=
  match v with
  | PFloat f => Some f
  | PInt z => match float_of_Z z with
              | Ok f => Some f
              | Raise _ => value_as_float c v
              end
  | PBool _ | PStr _ => value_as_float c v
  | PNone | PList _ | PDict _ => None
  end.

(** A field declared [Dict[str, Any]]; the keys of a JSON dictionary are
    strings. *)
Definition validate_dict (c : Coercions) (v : pyval)
  : option (list (string * pyval)) :=
  match v with
  | PDict d => Some d
  | PStr _ | PList _ => sequence_as_dict c v
  | PNone | PBool _ | PInt _ | PFloat _ => None
  end.

(** A field declared [Optional[T]]. *)
Definition validate_optional {A} (f : pyval -> option A) (v : pyval)
  : option (option A) :=
  match v with
  | PNone => Some None
  | _ => option_map Some (f v)
  end.

(** A field declared [List[T]], on the elements of a list. *)
Fixpoint validate_all {A B} (f : A -> option B) (l : list A) : option (list B) :=
  match l with
  | [] => Some []
  | x :: l' =>
      match f x, validate_all f l' with
      | Some y, Some ys => Some (y :: ys)
      | _, _ => None
      end
  end.

End Py.

Declare Scope se_scope.
Delimit Scope se_scope with se.
Notation "x <- c ;; k" := (Py.bind c (fun x => k))
  (at level 61, c at next level, right associativity) : se_scope.
Notation "c ;;; k" := (Py.bind c (fun _ => k))
  (at level 61, right associativity) : se_scope.

Notation "'let!' x ':=' c 'in' k" := (Py.rbind c (fun x => k))
  (at level 10, x name, c at level 100, k at level 200).

(* ===================================================================== *)
(** ** backend/config.py *)
(* ===================================================================== *)

Module Config.
Import Py.

(** [class RoutingProvider(str, Enum)] *)
Inductive RoutingProvider : Type :=
| MAPBOX
| GOOGLE_MAPS
| MAPMYINDIA
| OSRM.

Definition value (p : RoutingProvider) : string :=
  match p with
  | MAPBOX => "mapbox"
  | GOOGLE_MAPS => "google"
  | MAPMYINDIA => "mapmyindia"
  | OSRM => "osrm"
  end.

(** Iteration order of [for provider in RoutingProvider]: definition order. *)
Definition all_providers : list RoutingProvider :=
  [MAPBOX; GOOGLE_MAPS; MAPMYINDIA; OSRM].

Definition provider_eqb (p q : RoutingProvider) : bool :=
  match p, q with
  | MAPBOX, MAPBOX | GOOGLE_MAPS, GOOGLE_MAPS
  | MAPMYINDIA, MAPMYINDIA | OSRM, OSRM => true
  | _, _ => false
  end.

(** [RoutingProvider(v)]: lookup by value, [None] standing for [ValueError]. *)
Definition provider_of_value (v : string) : option RoutingProvider :=
  find (fun p => String.eqb (value p) v) all_providers.

(** The environment variables the backend reads. *)
Record Environ : Type := {
  MAPBOX_API_KEY : option string;
  GOOGLE_MAPS_API_KEY : option string;
  MAPMYINDIA_API_KEY : option string;
  MAPMYINDIA_CLIENT_ID : option string;
  MAPMYINDIA_CLIENT_SECRET : option string;
  OSRM_BASE_URL : option string;
  ROUTING_PROVIDER : option string
}.

Definition getenv (v : option string) (default : string) : string :=
  match v with
  | Some s => s
  | None => default
  end.

Record RoutingConfig : Type := {
  mapbox_api_key : option string;
  google_maps_api_key : option string;
  mapmyindia_api_key : option string;
  mapmyindia_client_id : option string;
  mapmyindia_client_secret : option string;
  osrm_base_url : string;
  preferred_provider : RoutingProvider
}.

(** [RoutingConfig.__init__] *)
Definition init (env : Environ) : RoutingConfig :=
  let preferred := lower (getenv (ROUTING_PROVIDER env) "osrm") in
  {| mapbox_api_key := MAPBOX_API_KEY env;
     google_maps_api_key := GOOGLE_MAPS_API_KEY env;
     mapmyindia_api_key := MAPMYINDIA_API_KEY env;
     mapmyindia_client_id := MAPMYINDIA_CLIENT_ID env;
     mapmyindia_client_secret := MAPMYINDIA_CLIENT_SECRET env;
     osrm_base_url := getenv (OSRM_BASE_URL env) "https://router.project-osrm.org";
     preferred_provider :=
       match provider_of_value preferred with
       | Some p => p
       | None => OSRM
       end |}.

Definition is_provider_configured (self : RoutingConfig) (provider : RoutingProvider) : bool :=
  match provider with
  | MAPBOX => truthy_str (mapbox_api_key self)
  | GOOGLE_MAPS => truthy_str (google_maps_api_key self)
  | MAPMYINDIA =>
      truthy_str (mapmyindia_api_key self)
      || (truthy_str (mapmyindia_client_id self)
          && truthy_str (mapmyindia_client_secret self))
  | OSRM => true
  end.

Definition get_available_providers (self : RoutingConfig) : list RoutingProvider :=
  filter (is_provider_configured self) all_providers.

(** [provider in chain] *)
Definition mem (p : RoutingProvider) (chain : list RoutingProvider) : bool :=
  existsb (provider_eqb p) chain.

(** [RoutingConfig.get_fallback_chain]: the three statements of the source in
    order; the [for] loop is the left fold over the enumeration. *)
Definition get_fallback_chain (self : RoutingConfig) : list RoutingProvider :=
  let chain := [] in
  let chain :=
    if is_provider_configured self (preferred_provider self)
    then (chain ++ [preferred_provider self])%list
    else chain in
  let chain :=
    fold_left
      (fun chain provider =>
         if negb (provider_eqb provider (preferred_provider self))
            && is_provider_configured self provider
         then (chain ++ [provider])%list
         else chain)
      all_providers chain in
  if negb (mem OSRM chain) then (chain ++ [OSRM])%list else chain.

End Config.

(* ===================================================================== *)
(** ** backend/services/router_manager.py *)
(* ===================================================================== *)

Module RouterManager.
Import Py Config.

(** The arguments every provider client's [get_route] receives. The
    coordinates are the values the caller holds: floats from a validated
    request, whatever a resolved place carries in the text handlers. *)
Record RouteQuery : Type := {
  start_lat : pyval;
  start_lon : pyval;
  end_lat : pyval;
  end_lon : pyval;
  mode : string
}.

(** Exit of one iteration of the [for] loop. *)
Inductive flow (A : Type) : Type :=
| Return (a : A)
| Next.
Arguments Return {A} a.
Arguments Next {A}.

Section WithWorld.
Context {World : Type}.

(** [client.get_route(start_lat, start_lon, end_lat, end_lon, mode)]: what the
    remote service answers in the current world, or the exception raised. *)
Definition Client : Type := RouteQuery -> World -> result pyval * World.

Record RouterManager : Type := {
  config : RoutingConfig;
  providers : list (RoutingProvider * Client);
  fallback_chain : list RoutingProvider
}.

(** [RouterManager.__init__], given the four provider clients. *)
Definition init (cfg : RoutingConfig) (mapbox google mapmyindia osrm : Client)
  : RouterManager :=
  {| config := cfg;
     providers := [(MAPBOX, mapbox); (GOOGLE_MAPS, google);
                   (MAPMYINDIA, mapmyindia); (OSRM, osrm)];
     fallback_chain := get_fallback_chain cfg |}.

(** State of one request: the world, and the providers whose [get_route] has
    been awaited so far (a record kept for the statements below). *)
Record St : Type := {
  world : World;
  invoked : list RoutingProvider
}.

(** [self.providers[provider]] *)
Fixpoint providers_lookup (provider : RoutingProvider)
  (d : list (RoutingProvider * Client)) : result Client :=
  match d with
  | [] => Raise KeyError
  | (p, c) :: d' => if provider_eqb provider p then Ok c else providers_lookup provider d'
  end.

(** [await client.get_route(...)] *)
Definition invoke (provider : RoutingProvider) (client : Client) (q : RouteQuery)
  : SE St pyval :=
  fun s =>
    let '(r, w') := client q (world s) in
    (r, {| world := w'; invoked := (invoked s ++ [provider])%list |}).

(** [if isinstance(result, dict): result["_provider_used"] = provider.value] *)
Definition stamp_provider (provider : RoutingProvider) (result : pyval) : pyval :=
  match result with
  | PDict d => PDict (dict_set "_provider_used" (PStr (value provider)) d)
  | _ => result
  end.

(** The body of the loop: the [try] block and its [except Exception]. *)
Definition attempt (self : RouterManager) (provider : RoutingProvider) (q : RouteQuery)
  : SE St (flow pyval) :=
  try_except
    (client <- lift (providers_lookup provider (providers self)) ;;
     result <- invoke provider client q ;;
     if truthy result
     then ret (Return (stamp_provider provider result))
     else ret Next)%se
    (fun _ => ret Next).

(** [for provider in provider_order: ...] followed by [return None]. *)
Fixpoint try_providers (self : RouterManager) (provider_order : list RoutingProvider)
  (q : RouteQuery) : SE St pyval :=
  match provider_order with
  | [] => ret PNone
  | provider :: rest =>
      (f <- attempt self provider q ;;
       match f with
       | Return result => ret result
       | Next => try_providers self rest q
       end)%se
  end.

(** The effective order of one request. A [RoutingProvider] is a non-empty
    string, hence truthy whenever it is given. *)
Definition provider_order (self : RouterManager)
  (preferred_provider : option RoutingProvider) : list RoutingProvider :=
  match preferred_provider with
  | Some p =>
      if is_provider_configured (config self) p
      then p :: filter (fun x => negb (provider_eqb x p)) (fallback_chain self)
      else fallback_chain self
  | None => fallback_chain self
  end.

(** [RouterManager.get_route] *)
Definition get_route (self : RouterManager) (q : RouteQuery)
  (preferred_provider : option RoutingProvider) : SE St pyval :=
  try_providers self (provider_order self preferred_provider) q.

(** One request, started in world [w]. *)
Definition run_get_route (self : RouterManager) (q : RouteQuery)
  (preferred_provider : option RoutingProvider) (w : World) : result pyval * St :=
  get_route self q preferred_provider {| world := w; invoked := [] |}.

(** [RouterManager.get_provider_status]: booleans and names only. *)
Definition get_provider_status (self : RouterManager) : pyval :=
  PDict
    [("configured_providers",
      PList (map (fun p => PStr (value p)) (get_available_providers (config self))));
     ("preferred_provider", PStr (value (preferred_provider (config self))));
     ("fallback_chain", PList (map (fun p => PStr (value p)) (fallback_chain self)));
     ("provider_details",
      PDict (map (fun p =>
                    (value p,
                     PDict [("configured", PBool (is_provider_configured (config self) p));
                            ("requires_key", PBool (negb (provider_eqb p OSRM)))]))
                 all_providers))].

End WithWorld.

Arguments Client : clear implicits.
Arguments RouterManager : clear implicits.
Arguments St : clear implicits.

End RouterManager.

(* ===================================================================== *)
(** ** backend/services/mapmyindia.py *)
(* ===================================================================== *)

Module MapMyIndia.
Import Py Config.

Record MapMyIndiaClient : Type := {
  api_key : option string;
  client_id : option string;
  client_secret : option string;
  is_configured : bool;
  token : pyval
}.

(** [MapMyIndiaClient.__init__] *)
Definition init (env : Environ) : MapMyIndiaClient :=
  {| api_key := MAPMYINDIA_API_KEY env;
     client_id := MAPMYINDIA_CLIENT_ID env;
     client_secret := MAPMYINDIA_CLIENT_SECRET env;
     is_configured :=
       truthy_str (MAPMYINDIA_API_KEY env)
       || (truthy_str (MAPMYINDIA_CLIENT_ID env)
           && truthy_str (MAPMYINDIA_CLIENT_SECRET env));
     token := PNone |}.

(** The client with [t] in its token cache. *)
Definition with_token (c : MapMyIndiaClient) (t : pyval) : MapMyIndiaClient :=
  {| api_key := api_key c;
     client_id := client_id c;
     client_secret := client_secret c;
     is_configured := is_configured c;
     token := t |}.

(** The two HTTP requests the client can issue. *)
Inductive http_request : Type :=
| TokenPost (client_id client_secret : option string)
    (* POST https://outpost.mapmyindia.com/api/security/oauth/token *)
| RouteGet (api_key : option string) (start_lon start_lat end_lon end_lat : float).
    (* GET BASE_URL/<api_key>/route_adv/driving/<lon,lat;lon,lat> *)

Definition is_routing_request (r : http_request) : bool :=
  match r with
  | RouteGet _ _ _ _ _ => true
  | TokenPost _ _ => false
  end.

Record http_response : Type := {
  status_code : Z;
  json : result pyval;   (* [resp.json()] *)
  text : string
}.

Section WithWorld.
Context {World : Type}.

(** The network: the answer to a request in the current world, or the
    exception the HTTP client raises. *)
Variable http : http_request -> World -> result http_response * World.

Record St : Type := {
  self : MapMyIndiaClient;
  world : World;
  requests : list http_request
}.

Definition send (r : http_request) : SE St http_response :=
  fun s =>
    let '(resp, w') := http r (world s) in
    (resp, {| self := self s; world := w'; requests := (requests s ++ [r])%list |}).

(** [self.token = t] *)
Definition set_token (t : pyval) : SE St unit :=
  modify (fun s =>
    {| self := with_token (self s) t;
       world := world s;
       requests := requests s |}).

(** [MapMyIndiaClient._get_token] *)
Definition _get_token : SE St pyval :=
  (s <- get_state ;;
   if truthy_str (api_key (self s)) then ret PNone
   else if negb (truthy_str (client_id (self s)))
           || negb (truthy_str (client_secret (self s))) then ret PNone
   else if truthy (token (self s)) then ret (token (self s))
   else
     r <- try_except
            (resp <- send (TokenPost (client_id (self s)) (client_secret (self s))) ;;
             if Z.eqb (status_code resp) 200
             then data <- lift (json resp) ;;
                  t <- lift (py_get data "access_token" PNone) ;;
                  set_token t ;;;
                  ret (Some t)
             else ret None)
            (fun _ => ret None) ;;
     match r with
     | Some t => ret t
     | None => ret PNone
     end)%se.

(** [MapMyIndiaClient.get_route] *)
Definition get_route (start_lat start_lon end_lat end_lon : float) (mode : string)
  : SE St pyval :=
  (s <- get_state ;;
   if negb (is_configured (self s)) then ret PNone
   else
     r <- try_except
            (if truthy_str (api_key (self s))
             then
               resp <- send (RouteGet (api_key (self s))
                                      start_lon start_lat end_lon end_lat) ;;
               if Z.eqb (status_code resp) 200
               then data <- lift (json resp) ;; ret (Some data)
               else ret None
             else
               token <- _get_token ;;
               if negb (truthy token) then ret (Some PNone)
               else ret (Some PNone))
            (fun _ => ret None) ;;
     match r with
     | Some v => ret v
     | None => ret PNone
     end)%se.

(** [MapMyIndiaClient.get_nearby_incidents] *)
Definition get_nearby_incidents (lat lon : float) (radius_km : Z) : SE St pyval :=
  (s <- get_state ;;
   if negb (is_configured (self s)) then ret PNone else ret PNone)%se.

End WithWorld.

Arguments St : clear implicits.

End MapMyIndia.

(* ===================================================================== *)
(** ** backend/services: the Mapbox, Google Maps and OSRM clients, the geocoder *)
(* ===================================================================== *)

Module Clients.
Import Py Config.

(** The HTTP requests of these services, by endpoint and parameters. The
    response is the one of [MapMyIndia]: status, parsed body, text. *)
Inductive http_request : Type :=
| MapboxDirections (profile : string) (start_lon start_lat end_lon end_lat : float)
    (access_token : option string)
    (* GET api.mapbox.com/directions/v5/mapbox/<profile>/<lon,lat;lon,lat> *)
| GoogleDirections (origin_lat origin_lon destination_lat destination_lon : float)
    (mode : string) (key : option string)
    (* GET maps.googleapis.com/maps/api/directions/json?origin=<lat,lon>&... *)
| OsrmRoute (base_url : string) (profile : string)
    (start_lon start_lat end_lon end_lat : float)
    (* GET <base_url>/<profile>/<lon,lat;lon,lat> *)
| MapboxGeocode (query : string) (country : string) (access_token : option string).
    (* GET api.mapbox.com/geocoding/v5/mapbox.places/<query>.json *)

(** [len(v)] *)
Definition py_len (v : pyval) : result nat :=
  match v with
  | PList l => Ok (List.length l)
  | PStr s => Ok (String.length s)
  | PDict d => Ok (List.length d)
  | _ => Raise TypeError
  end.

(** [v[i]] with an integer index [i >= 0]. *)
Definition py_getitem_idx (v : pyval) (i : nat) : result pyval :=
  match v with
  | PList l => match nth_error l i with Some x => Ok x | None => Raise IndexError end
  | PStr s => match String.get i s with
              | Some c => Ok (PStr (String c EmptyString))
              | None => Raise IndexError
              end
  | PDict _ => Raise KeyError
  | _ => Raise TypeError
  end.

(** [v == "s"] *)
Definition py_eq_str (v : pyval) (s : string) : bool :=
  match v with
  | PStr t => String.eqb t s
  | _ => false
  end.

(** [d.get(key, "driving")] on a mode table. *)
Definition profile_of (table : list (string * string)) (key : string) : string :=
  match dict_lookup key table with
  | Some p => p
  | None => "driving"
  end.

(** The profile [OSRMClient.get_route] determines: the default, then the two
    [if] statements on the mode as given. *)
Definition osrm_profile (mode : string) : string :=
  let profile := "driving" in
  let profile := if String.eqb mode "bike" then "bicycle" else profile in
  let profile := if String.eqb mode "walk" then "foot" else profile in
  profile.

Section WithWorld.
Context {World : Type}.
Variable http : http_request -> World -> result MapMyIndia.http_response * World.

Record St : Type := {
  world : World;
  requests : list http_request
}.

Definition send (r : http_request) : SE St MapMyIndia.http_response :=
  fun s =>
    let '(resp, w') := http r (world s) in
    (resp, {| world := w'; requests := (requests s ++ [r])%list |}).

(** *** mapbox.py *)

Record MapboxClient : Type := {
  mapbox_key : option string;
  mapbox_is_configured : bool
}.

(** [MapboxClient.__init__] *)
Definition mapbox_init (api_key : option string) : MapboxClient :=
  {| mapbox_key := api_key; mapbox_is_configured := truthy_str api_key |}.

Definition mapbox_profile_map : list (string * string) :=
  [("car", "driving"); ("driving", "driving");
   ("walk", "walking"); ("walking", "walking");
   ("bike", "cycling"); ("cycling", "cycling")].

(** [data.get("routes") and len(data["routes"]) > 0] *)
Definition has_routes (data : pyval) : result bool :=
  let! routes := py_get data "routes" PNone in
  if truthy routes
  then let! routes := py_getitem_key data "routes" in
       let! n := py_len routes in
       Ok (Nat.ltb 0 n)
  else Ok false.

(** [MapboxClient.get_route]; both [except] clauses return [None]. *)
Definition mapbox_get_route (self : MapboxClient)
  (start_lat start_lon end_lat end_lon : float) (mode : string) : SE St pyval :=
  if negb (mapbox_is_configured self) then ret PNone
  else
    try_except
      (let profile := profile_of mapbox_profile_map (lower mode) in
       response <- send (MapboxDirections profile start_lon start_lat end_lon end_lat
                                          (mapbox_key self)) ;;
       if Z.eqb (MapMyIndia.status_code response) 200
       then data <- lift (MapMyIndia.json response) ;;
            found <- lift (has_routes data) ;;
            if found then ret data else ret PNone
       else ret PNone)%se
      (fun _ => ret PNone).

(** *** google_maps.py *)

Record GoogleMapsClient : Type := {
  google_key : option string;
  google_is_configured : bool
}.

(** [GoogleMapsClient.__init__] *)
Definition google_init (api_key : option string) : GoogleMapsClient :=
  {| google_key := api_key; google_is_configured := truthy_str api_key |}.

Definition google_mode_map : list (string * string) :=
  [("car", "driving"); ("driving", "driving");
   ("walk", "walking"); ("walking", "walking");
   ("bike", "bicycling"); ("cycling", "bicycling");
   ("transit", "transit")].

(** [GoogleMapsClient.get_route]: only the status ["OK"] yields the body. *)
Definition google_get_route (self : GoogleMapsClient)
  (start_lat start_lon end_lat end_lon : float) (mode : string) : SE St pyval :=
  if negb (google_is_configured self) then ret PNone
  else
    try_except
      (let travel_mode := profile_of google_mode_map (lower mode) in
       response <- send (GoogleDirections start_lat start_lon end_lat end_lon
                                          travel_mode (google_key self)) ;;
       if Z.eqb (MapMyIndia.status_code response) 200
       then data <- lift (MapMyIndia.json response) ;;
            status <- lift (py_get data "status" PNone) ;;
            if py_eq_str status "OK" then ret data else ret PNone
       else ret PNone)%se
      (fun _ => ret PNone).

(** *** osrm.py *)

Definition OSRM_CLIENT_BASE_URL : string := "https://router.project-osrm.org/route/v1".

(** [OSRMClient.get_route]: no credentials, the class constant as base URL. *)
Definition osrm_get_route (start_lat start_lon end_lat end_lon : float) (mode : string)
  : SE St pyval :=
  let profile := osrm_profile mode in
  (r <- try_except
          (resp <- send (OsrmRoute OSRM_CLIENT_BASE_URL profile
                                   start_lon start_lat end_lon end_lat) ;;
           if Z.eqb (MapMyIndia.status_code resp) 200
           then data <- lift (MapMyIndia.json resp) ;; ret (Some data)
           else ret None)
          (fun _ => ret None) ;;
   match r with
   | Some data => ret data
   | None => ret PNone
   end)%se.

(** *** mapbox_geocoding.py *)

Record MapboxGeocoder : Type := {
  geocoder_key : option string;
  geocoder_is_configured : bool
}.

(** [MapboxGeocoder.__init__] *)
Definition geocoder_init (api_key : option string) : MapboxGeocoder :=
  {| geocoder_key := api_key; geocoder_is_configured := truthy_str api_key |}.

(** [data.get("features") and len(data["features"]) > 0] *)
Definition has_features (data : pyval) : result bool :=
  let! features := py_get data "features" PNone in
  if truthy features
  then let! features := py_getitem_key data "features" in
       let! n := py_len features in
       Ok (Nat.ltb 0 n)
  else Ok false.

(** The result dictionary built from the first feature, [None] when it has
    fewer than two coordinates. *)
Definition geocode_feature (place_name : string) (data : pyval) : result pyval :=
  let! features := py_getitem_key data "features" in
  let! feature := py_getitem_0 features in
  let! geometry := py_get feature "geometry" (PDict []) in
  let! coordinates := py_get geometry "coordinates" (PList []) in
  let! n := py_len coordinates in
  if Nat.leb 2 n
  then let! lon := py_getitem_idx coordinates 0 in
       let! lat := py_getitem_idx coordinates 1 in
       let! display_name := py_get feature "place_name" (PStr place_name) in
       let! short_name := py_get feature "text" display_name in
       Ok (PDict [("lat", lat); ("lon", lon);
                  ("display", short_name); ("full_name", display_name)])
  else Ok PNone.

(** [MapboxGeocoder.geocode] *)
Definition geocode (self : MapboxGeocoder) (place_name : string) (country : string)
  : SE St pyval :=
  if negb (geocoder_is_configured self) then ret PNone
  else
    try_except
      (let query := strip place_name in
       response <- send (MapboxGeocode query country (geocoder_key self)) ;;
       if Z.eqb (MapMyIndia.status_code response) 200
       then data <- lift (MapMyIndia.json response) ;;
            found <- lift (has_features data) ;;
            if found then lift (geocode_feature place_name data) else ret PNone
       else ret PNone)%se
      (fun _ => ret PNone).

(** [MapboxGeocoder.geocode_batch]: the places in order, a later duplicate
    overwriting the earlier entry. *)
Fixpoint geocode_batch_from (self : MapboxGeocoder) (place_names : list string)
  (results : list (string * pyval)) : SE St (list (string * pyval)) :=
  match place_names with
  | [] => ret results
  | place_name :: rest =>
      (r <- geocode self place_name "in" ;;
       geocode_batch_from self rest (dict_set place_name r results))%se
  end.

Definition geocode_batch (self : MapboxGeocoder) (place_names : list string)
  : SE St (list (string * pyval)) :=
  geocode_batch_from self place_names [].

End WithWorld.

Arguments St : clear implicits.

End Clients.

(* ===================================================================== *)
(** ** backend/routes/routing.py *)
(* ===================================================================== *)

Module Routing.
Import Py Config.
Local Open Scope float_scope.

(** [TravelMode = Literal["car", "bike", "walk", "transit"]] *)
Inductive TravelMode : Type :=
| car
| bike
| walk
| transit.

Definition mode_value (m : TravelMode) : string :=
  match m with
  | car => "car"
  | bike => "bike"
  | walk => "walk"
  | transit => "transit"
  end.

Record Coordinate : Type := {
  lat : float;
  lon : float
}.

(** The bounds the request schema puts on a [Coordinate]. *)
Definition valid_coordinate (c : Coordinate) : bool :=
  PrimFloat.leb (-90) (lat c) && PrimFloat.leb (lat c) 90
  && PrimFloat.leb (-180) (lon c) && PrimFloat.leb (lon c) 180.

Record RouteLeg : Type := {
  leg_start : Coordinate;
  leg_end : Coordinate;
  leg_distance_meters : float;
  leg_duration_seconds : float;
  leg_mode : TravelMode;
  leg_geometry : string
}.

Record RouteSummary : Type := {
  distance_meters : float;
  duration_seconds : float;
  estimated_co2_kg : float
}.

Record RouteRequest : Type := {
  origin : Coordinate;
  destination : Coordinate;
  mode : TravelMode;
  departure_time : option string
}.

Record RouteResponse : Type := {
  waypoints : list Coordinate;
  legs : list RouteLeg;
  summary : RouteSummary;
  debug : list (string * pyval)
}.

Record AlternateRouteRequest : Type := {
  base_request : RouteRequest;
  event_type : string
}.

Record AlternateRouteResponse : Type := {
  base_route : RouteResponse;
  alternate_route : RouteResponse;
  reasoning : string
}.

(** [_haversine_distance_m]. The arguments are the values the caller passes:
    the annotation [float] is not enforced, and the text handlers pass what a
    resolved place carries. *)
Definition _haversine_distance_m (rt : PyRuntime) (lat1 lon1 lat2 lon2 : pyval)
  : result float :=
  let r := 6371000 in
  let! d := py_sub lat2 lat1 in
  let! d := math_arg d in
  let d_lat := math_radians d in
  let! d := py_sub lon2 lon1 in
  let! d := math_arg d in
  let d_lon := math_radians d in
  let! s_lat := math_sin rt (d_lat / 2) in
  let! h_lat := float_pow rt s_lat 2 in
  let! x1 := math_arg lat1 in
  let! c1 := math_cos rt (math_radians x1) in
  let! x2 := math_arg lat2 in
  let! c2 := math_cos rt (math_radians x2) in
  let! s_lon := math_sin rt (d_lon / 2) in
  let! h_lon := float_pow rt s_lon 2 in
  let a := h_lat + c1 * c2 * h_lon in
  let! root := math_sqrt a in
  let! angle := math_asin rt root in
  let c := 2 * angle in
  Ok (r * c).

Definition _estimate_speed_mps (mode : TravelMode) : float :=
  match mode with
  | walk => 1.4
  | bike => 4.1
  | transit => 8.3
  | car => 13.9
  end.

Definition _estimate_co2_kg (rt : PyRuntime) (distance_m : float) (mode : TravelMode)
  : float :=
  match mode with
  | walk | bike => 0.0
  | transit => py_round rt ((distance_m / 1000.0) * 0.08) 3
  | car => py_round rt ((distance_m / 1000.0) * 0.18) 3
  end.

(** [distance_m / speed_mps if speed_mps > 0 else 0] *)
Definition duration_of (distance_m speed_mps : float) : float :=
  if PrimFloat.ltb 0 speed_mps then distance_m / speed_mps else 0.

(** *** The module's global names

    The names bound at module level in [routing.py]: its imports, its
    assignments, its classes and its functions. A name that is read and is
    neither local nor listed here (nor a builtin) raises [NameError]. *)
Definition module_globals : list string :=
  [ "radians"; "cos"; "sin"; "asin"; "sqrt";
    "List"; "Literal"; "Optional"; "Dict"; "Any";
    "APIRouter"; "HTTPException"; "BaseModel"; "Field"; "logging";
    "router_manager"; "OSRMClient"; "MapboxGeocoder"; "routing_config";
    "logger"; "osrm_client"; "mapbox_geocoder"; "router"; "TravelMode";
    "Coordinate"; "RouteLeg"; "RouteSummary"; "RouteRequest"; "RouteResponse";
    "AlternateRouteRequest"; "AlternateRouteResponse";
    "_haversine_distance_m"; "_estimate_speed_mps"; "_estimate_co2_kg";
    "plan_route"; "plan_alternate_route";
    "TextRouteRequest"; "TextRouteResponse"; "LOCATION_DB";
    "_geocode_location"; "_generate_waypoints"; "suggest_text_route";
    "recalculate_route"; "get_provider_status" ].

Definition load_global (name : string) : result unit :=
  if existsb (String.eqb name) module_globals then Ok tt else Raise (NameError name).

(** A row of [LOCATION_DB] or of [JUNCTIONS]. *)
Record Location : Type := {
  loc_lat : float;
  loc_lon : float;
  display : string
}.

(** The row as the dictionary it is in the source. *)
Definition location_dict (l : Location) : pyval :=
  PDict [("lat", PFloat (loc_lat l)); ("lon", PFloat (loc_lon l));
         ("display", PStr (display l))].

(** What the request handlers are linked against. *)
Record Services (World : Type) : Type := {
  runtime : PyRuntime;
  coercions : Coercions;
  router_manager : RouterManager.RouterManager World;
  (** the network as the module's [mapbox_geocoder] reaches it *)
  geocoder_http :
    Clients.http_request -> World -> result MapMyIndia.http_response * World;
  (** [await <name>.get_route(...)] on the object a global name is bound to *)
  global_get_route : string -> RouterManager.RouteQuery -> World -> result pyval * World
}.
Arguments runtime {World} _.
Arguments coercions {World} _.
Arguments router_manager {World} _.
Arguments geocoder_http {World} _ _ _.
Arguments global_get_route {World} _ _ _ _.

Definition LOCATION_DB : list (string * Location) :=
  [ ("btm layout", {| loc_lat := 12.9166; loc_lon := 77.6101; display := "BTM Layout" |});
    ("mg road", {| loc_lat := 12.9716; loc_lon := 77.5946; display := "MG Road" |});
    ("jp nagar", {| loc_lat := 12.9067; loc_lon := 77.5858; display := "JP Nagar" |});
    ("richmond road", {| loc_lat := 12.9500; loc_lon := 77.6000; display := "Richmond Road" |});
    ("lalbagh", {| loc_lat := 12.9507; loc_lon := 77.5848; display := "Lalbagh" |});
    ("indiranagar", {| loc_lat := 12.9784; loc_lon := 77.6408; display := "Indiranagar" |});
    ("koramangala", {| loc_lat := 12.9352; loc_lon := 77.6245; display := "Koramangala" |});
    ("whitefield", {| loc_lat := 12.9698; loc_lon := 77.7499; display := "Whitefield" |});
    ("marathahalli", {| loc_lat := 12.9592; loc_lon := 77.6974; display := "Marathahalli" |});
    ("hebbal", {| loc_lat := 13.0358; loc_lon := 77.5970; display := "Hebbal" |});
    ("electronic city", {| loc_lat := 12.8456; loc_lon := 77.6633; display := "Electronic City" |});
    ("cubbon park", {| loc_lat := 12.9716; loc_lon := 77.5946; display := "Cubbon Park" |});
    ("ulsoor", {| loc_lat := 12.9784; loc_lon := 77.6408; display := "Ulsoor" |});
    ("malleshwaram", {| loc_lat := 13.0050; loc_lon := 77.5610; display := "Malleshwaram" |});
    ("rajajinagar", {| loc_lat := 12.9784; loc_lon := 77.5510; display := "Rajajinagar" |}) ].

(** The first entry whose key contains, or is contained in, the input. *)
Definition partial_match (normalized : string) : option (string * Location) :=
  find (fun kv => contains normalized (fst kv) || contains (fst kv) normalized)
       LOCATION_DB.

Section Handlers.
Context {World : Type}.
Variable D : Services World.

(** [routing_config], the configuration the singletons were built from. *)
Definition routing_config : RoutingConfig := RouterManager.config (router_manager D).

(** [mapbox_geocoder = MapboxGeocoder(routing_config.mapbox_api_key)] *)
Definition mapbox_geocoder : Clients.MapboxGeocoder :=
  Clients.geocoder_init (mapbox_api_key routing_config).

(** [mapbox_geocoder.is_configured] *)
Definition mapbox_geocoder_is_configured : bool :=
  Clients.geocoder_is_configured mapbox_geocoder.

(** [await mapbox_geocoder.geocode(place_name, country=country)]: the answer,
    the world it leaves and the requests it sent. *)
Definition run_geocode (place_name country : string) (w : World)
  : result pyval * Clients.St World :=
  Clients.geocode (geocoder_http D) mapbox_geocoder place_name country
    {| Clients.world := w; Clients.requests := [] |}.

Definition call_geocoder (place_name country : string) : SE World pyval :=
  fun w =>
    let '(r, s) := run_geocode place_name country w in
    (r, Clients.world s).

(** The dictionary returned when nothing else resolves the name. *)
Definition default_place (location_name : string) : pyval :=
  PDict [("lat", PFloat 12.9716); ("lon", PFloat 77.5946);
         ("display", PStr (title location_name))].

(** [_geocode_location]: the dictionary of the resolved place. *)
Definition _geocode_location (location_name : string) : SE World pyval :=
  let normalized := strip (lower location_name) in
  match dict_lookup normalized LOCATION_DB with
  | Some entry => ret (location_dict entry)
  | None =>
      match partial_match normalized with
      | Some (_, value) => ret (location_dict value)
      | None =>
          (found <-
             (if mapbox_geocoder_is_configured
              then try_except
                     (result <- call_geocoder location_name "in" ;;
                      if truthy result then ret (Some result) else ret None)
                     (fun _ => ret None)
              else ret None) ;;
           match found with
           | Some result => ret result
           | None => ret (default_place location_name)
           end)%se
      end
  end.

(** [plan_route]. The request was validated by the framework: its
    coordinates are floats. Of the values handed to the response models only
    the provider's geometry can fail its field. *)
Definition haversine_fallback (payload : RouteRequest) : SE World RouteResponse :=
  (distance_m <- lift (_haversine_distance_m (runtime D)
                         (PFloat (lat (origin payload)))
                         (PFloat (lon (origin payload)))
                         (PFloat (lat (destination payload)))
                         (PFloat (lon (destination payload)))) ;;
   let speed_mps := _estimate_speed_mps (mode payload) in
   let duration_s := duration_of distance_m speed_mps in
   let leg := {| leg_start := origin payload;
                 leg_end := destination payload;
                 leg_distance_meters := py_round (runtime D) distance_m 2;
                 leg_duration_seconds := py_round (runtime D) duration_s 1;
                 leg_mode := mode payload;
                 leg_geometry := "" |} in
   let summary := {| distance_meters := leg_distance_meters leg;
                     duration_seconds := leg_duration_seconds leg;
                     estimated_co2_kg :=
                       _estimate_co2_kg (runtime D) distance_m (mode payload) |} in
   ret {| waypoints := [origin payload; destination payload];
          legs := [leg];
          summary := summary;
          debug := [("implementation", PStr "haversine_stub");
                    ("note", PStr "Fallback used (API unavailable or failed).")] |})%se.

Definition parse_mmi_response (payload : RouteRequest) (mmi_resp : pyval)
  : SE World (option RouteResponse) :=
  try_except
    (routes <- lift (py_get mmi_resp "routes" (PList [])) ;;
     if truthy routes
     then
       route <- lift (py_getitem_0 routes) ;;
       d <- lift (py_get route "distance" (PInt 0)) ;;
       distance_m <- lift (py_float (runtime D) d) ;;
       t <- lift (py_get route "duration" (PInt 0)) ;;
       duration_s <- lift (py_float (runtime D) t) ;;
       geometry <- lift (py_get route "geometry" (PStr "")) ;;
       geometry <- lift (match validate_str (coercions D) geometry with
                         | Some g => Ok g
                         | None => Raise ValidationError
                         end) ;;
       let leg := {| leg_start := origin payload;
                     leg_end := destination payload;
                     leg_distance_meters := py_round (runtime D) distance_m 2;
                     leg_duration_seconds := py_round (runtime D) duration_s 1;
                     leg_mode := mode payload;
                     leg_geometry := geometry |} in
       let summary := {| distance_meters := leg_distance_meters leg;
                         duration_seconds := leg_duration_seconds leg;
                         estimated_co2_kg :=
                           _estimate_co2_kg (runtime D) distance_m (mode payload) |} in
       ret (Some {| waypoints := [origin payload; destination payload];
                    legs := [leg];
                    summary := summary;
                    debug := [("implementation", PStr "mapmyindia_live");
                              ("note", PStr "Live traffic data used.")] |})
     else ret None)%se
    (fun _ => ret None).

Definition plan_route (payload : RouteRequest) : SE World RouteResponse :=
  (mmi_resp <-
     (lift (load_global "mmi_client") ;;;
      global_get_route D "mmi_client"
        {| RouterManager.start_lat := PFloat (lat (origin payload));
           RouterManager.start_lon := PFloat (lon (origin payload));
           RouterManager.end_lat := PFloat (lat (destination payload));
           RouterManager.end_lon := PFloat (lon (destination payload));
           RouterManager.mode := mode_value (mode payload) |}) ;;
   parsed <- (if truthy mmi_resp then parse_mmi_response payload mmi_resp
              else ret None) ;;
   match parsed with
   | Some response => ret response
   | None => haversine_fallback payload
   end)%se.

(** The multiplier and the explanation [plan_alternate_route] picks for a
    normalized event type. *)
Definition event_type_impact (normalized : string) : float * string :=
  if existsb (String.eqb normalized) ["road_closure"; "accident"; "construction"]
  then (1.3,
        "Road closures typically force a detour around the blocked segment, "
        ++ "so we assume about 30% extra distance and time.")
  else if existsb (String.eqb normalized) ["protest"; "rally"; "parade"]
  then (1.2,
        "Protests and rallies can slow traffic and partially block streets, "
        ++ "so we assume around 20% extra distance and time.")
  else if existsb (String.eqb normalized) ["concert"; "sports"; "event"]
  then (1.15,
        "Large events create localized congestion near the venue, so we "
        ++ "assume a 15% increase in distance and travel time for a smarter route.")
  else (1.05,
        "Unknown event type. We apply a small 5% buffer as a conservative "
        ++ "detour estimate while keeping the route close to the base plan.").

(** [plan_alternate_route] *)
Definition plan_alternate_route (payload : AlternateRouteRequest)
  : SE World AlternateRouteResponse :=
  (base <- plan_route (base_request payload) ;;
   let normalized := strip (lower (event_type payload)) in
   let '(factor, reason) := event_type_impact normalized in
   let alt_distance :=
     py_round (runtime D) (distance_meters (summary base) * factor) 2 in
   let alt_duration :=
     py_round (runtime D) (duration_seconds (summary base) * factor) 1 in
   let alt_summary := {| distance_meters := alt_distance;
                         duration_seconds := alt_duration;
                         estimated_co2_kg :=
                           _estimate_co2_kg (runtime D) alt_distance
                                            (mode (base_request payload)) |} in
   let alt_leg := {| leg_start := origin (base_request payload);
                     leg_end := destination (base_request payload);
                     leg_distance_meters := alt_distance;
                     leg_duration_seconds := alt_duration;
                     leg_mode := mode (base_request payload);
                     leg_geometry := "" |} in
   let alternate := {| waypoints := waypoints base;
                       legs := [alt_leg];
                       summary := alt_summary;
                       debug := [("implementation", PStr "event_type_multiplier_stub");
                                 ("event_type", PStr (event_type payload));
                                 ("multiplier", PFloat factor)] |} in
   ret {| base_route := base;
          alternate_route := alternate;
          reasoning := reason |})%se.

End Handlers.

(** *** Text-based routing *)

Record TextRouteRequest : Type := {
  source : string;
  text_destination : string;
  event : string;
  text_mode : TravelMode
}.

Record TextRouteResponse : Type := {
  recommended_route : string;
  reason : string;
  text_distance_meters : float;
  distance_km : float;
  text_duration_seconds : float;
  duration_minutes : float;
  text_estimated_co2_kg : float;
  text_waypoints : list string;
  geometry : string;
  detailed_geometry : list (list float);
  steps : list (list (string * pyval));
  start_point : option (list (string * pyval));
  end_point : option (list (string * pyval))
}.

(** [JUNCTIONS] of [_generate_waypoints] *)
Definition Silk_Board : Location :=
  {| loc_lat := 12.9176; loc_lon := 77.6233; display := "Silk Board Junction" |}.
Definition Dairy_Circle : Location :=
  {| loc_lat := 12.9385; loc_lon := 77.6015; display := "Dairy Circle" |}.
Definition Richmond_Circle : Location :=
  {| loc_lat := 12.9600; loc_lon := 77.5969; display := "Richmond Circle" |}.
Definition Sony_World : Location :=
  {| loc_lat := 12.9352; loc_lon := 77.6245; display := "Sony World Junction" |}.
Definition Tin_Factory : Location :=
  {| loc_lat := 12.9940; loc_lon := 77.6800; display := "Tin Factory" |}.

Definition JUNCTIONS : list (string * Location) :=
  [ ("Silk Board", Silk_Board); ("Dairy Circle", Dairy_Circle);
    ("Richmond Circle", Richmond_Circle); ("Sony World", Sony_World);
    ("Tin Factory", Tin_Factory) ].

(** [_generate_waypoints] *)
Definition _generate_waypoints (source destination event : string)
  : list string * string * list Location :=
  let source_norm := strip (lower source) in
  let dest_norm := strip (lower destination) in
  let event_norm := strip (lower event) in
  let waypoints := [source] in
  let '(waypoints, reason, intermediates) :=
    if contains "btm" source_norm && contains "mg road" dest_norm then
      if contains "rally" event_norm || contains "protest" event_norm
         || contains "lalbagh" event_norm
      then ((waypoints ++ ["Dairy Circle"; "Richmond Road"])%list,
            "Avoiding rally congestion near Lalbagh via Dairy Circle",
            [Dairy_Circle; Richmond_Circle])
      else ((waypoints ++ ["Richmond Road"])%list,
            "Optimal route via Richmond Circle",
            [Richmond_Circle])
    else if contains "btm" source_norm && contains "koramangala" dest_norm then
      ((waypoints ++ ["Sony World Junction"])%list,
       "Direct route via Sony World Junction",
       [Sony_World])
    else if contains "whitefield" source_norm && contains "mg road" dest_norm then
      ((waypoints ++ ["Tin Factory"; "Indiranagar"])%list,
       "Standard route via Tin Factory and Old Madras Road",
       [Tin_Factory])
    else if contains "electronic city" source_norm && contains "mg road" dest_norm then
      ((waypoints ++ ["Silk Board"; "Dairy Circle"])%list,
       "Route via Silk Board and Dairy Circle",
       [Silk_Board; Dairy_Circle])
    else if negb (String.eqb event_norm "") then
      ((waypoints ++ ["Alternate Connection"])%list,
       "Avoiding " ++ event ++ " by taking alternate route",
       [])
    else
      ((waypoints ++ ["Direct Connection"])%list,
       "Standard route recommendation",
       [])
  in
  ((waypoints ++ [destination])%list, reason, intermediates).

(** The call [_generate_waypoints(source, destination, event)] on the values
    the handler passes: the first two statements of the body call [lower] on
    [source] and on [destination]. *)
Definition call_generate_waypoints (source destination : pyval) (event : string)
  : result (list string * string * list Location) :=
  let! source := str_of source in
  let! destination := str_of destination in
  Ok (_generate_waypoints source destination event).

(** [any(x in event_norm for x in keywords)] *)
Definition any_in (keywords : list string) (event_norm : string) : bool :=
  existsb (fun x => contains x event_norm) keywords.

(** The event-based multiplier of [suggest_text_route]: the new [distance_m]
    and [reason]. *)
Definition apply_event_multiplier (event : string) (distance_m : float)
  (reason : string) : float * string :=
  if negb (String.eqb event "") then
    let event_norm := strip (lower event) in
    if any_in ["rally"; "protest"; "parade"; "political"] event_norm
    then (distance_m * 1.2, "Avoiding " ++ lower event ++ " congestion")
    else if any_in ["closure"; "accident"; "construction"] event_norm
    then (distance_m * 1.3, "Detouring around " ++ lower event)
    else if any_in ["concert"; "sports"; "event"] event_norm
    then (distance_m * 1.15, "Avoiding " ++ lower event ++ " traffic")
    else (distance_m, reason)
  else (distance_m, reason).

(** The local variables the routing [try] block of [suggest_text_route]
    reassigns. *)
Record Locals : Type := {
  l_geometry : pyval;
  l_distance_m : float;
  l_duration_s : float;
  l_steps : list pyval;
  l_provider_used : pyval
}.

Definition set_geometry (v : pyval) (l : Locals) : Locals :=
  {| l_geometry := v; l_distance_m := l_distance_m l; l_duration_s := l_duration_s l;
     l_steps := l_steps l; l_provider_used := l_provider_used l |}.
Definition set_distance_m (v : float) (l : Locals) : Locals :=
  {| l_geometry := l_geometry l; l_distance_m := v; l_duration_s := l_duration_s l;
     l_steps := l_steps l; l_provider_used := l_provider_used l |}.
Definition set_duration_s (v : float) (l : Locals) : Locals :=
  {| l_geometry := l_geometry l; l_distance_m := l_distance_m l; l_duration_s := v;
     l_steps := l_steps l; l_provider_used := l_provider_used l |}.
Definition extend_steps (v : list pyval) (l : Locals) : Locals :=
  {| l_geometry := l_geometry l; l_distance_m := l_distance_m l;
     l_duration_s := l_duration_s l;
     l_steps := (l_steps l ++ v)%list; l_provider_used := l_provider_used l |}.
Definition set_provider_used (v : pyval) (l : Locals) : Locals :=
  {| l_geometry := l_geometry l; l_distance_m := l_distance_m l;
     l_duration_s := l_duration_s l;
     l_steps := l_steps l; l_provider_used := v |}.

Fixpoint for_each {S A} (l : list A) (body : A -> SE S unit) : SE S unit :=
  match l with
  | [] => ret tt
  | x :: l' => (body x ;;; for_each l' body)%se
  end.

(** A mock step of the fallback path. *)
Definition mock_step (instruction : string) (distance duration : Z)
  (at_lon at_lat : pyval) (maneuver_instruction : string) : pyval :=
  PDict [("instruction", PStr instruction);
         ("distance", PInt distance);
         ("duration", PInt duration);
         ("maneuver", PDict [("location", PList [at_lon; at_lat]);
                             ("instruction", PStr maneuver_instruction)])].

(** [coords["lat"]] and [coords["lon"]], read in this order. *)
Definition lat_lon (coords : pyval) : result (pyval * pyval) :=
  let! at_lat := py_getitem_key coords "lat" in
  let! at_lon := py_getitem_key coords "lon" in
  Ok (at_lat, at_lon).

(** What lines 525-561 of [suggest_text_route] leave in the local variables. *)
Record Estimate : Type := {
  source_coords : pyval;
  dest_coords : pyval;
  e_waypoints : list string;
  e_reason : string;
  intermediate_points : list Location;
  e_distance_m : float;
  e_duration_s : float;
  co2_kg : float
}.

Section TextHandlers.
Context {World : Type}.
Variable D : Services World.

Definition assign (f : Locals -> Locals) : SE (World * Locals) unit :=
  modify (fun s => (fst s, f (snd s))).

(** The arguments of [router_manager.get_route(...)], read from the two
    resolved places. *)
Definition router_query (payload : TextRouteRequest) (e : Estimate)
  : result RouterManager.RouteQuery :=
  let! src := lat_lon (source_coords e) in
  let! dst := lat_lon (dest_coords e) in
  Ok {| RouterManager.start_lat := fst src;
        RouterManager.start_lon := snd src;
        RouterManager.end_lat := fst dst;
        RouterManager.end_lon := snd dst;
        RouterManager.mode := mode_value (text_mode payload) |}.

(** [await router_manager.get_route(lat, lon, lat, lon, payload.mode)] *)
Definition call_router (q : RouterManager.RouteQuery) : SE (World * Locals) pyval :=
  fun s =>
    let '(r, st) := RouterManager.run_get_route (router_manager D) q None (fst s) in
    (r, (RouterManager.world st, snd s)).

(** The end of the [try] block: the steps of every leg, then the provider tag. *)
Definition collect_steps (route route_resp : pyval) : SE (World * Locals) unit :=
  (legs <- lift (py_get route "legs" (PList [])) ;;
   legs <- lift (py_iter legs) ;;
   for_each legs (fun leg =>
     leg_steps <- lift (py_get leg "steps" (PList [])) ;;
     leg_steps <- lift (py_iter leg_steps) ;;
     assign (extend_steps leg_steps)) ;;;
   used <- lift (py_get route_resp "_provider_used" (PStr "unknown")) ;;
   assign (set_provider_used used))%se.

(** The [try] block of [suggest_text_route] with its [except Exception: pass]. *)
Definition routing_block (payload : TextRouteRequest) (e : Estimate)
  : SE (World * Locals) unit :=
  try_except
    (q <- lift (router_query payload e) ;;
     route_resp <- call_router q ;;
     routes <- (if truthy route_resp
                then lift (py_get route_resp "routes" PNone)
                else ret PNone) ;;
     if truthy route_resp && truthy routes
     then
       routes <- lift (py_getitem_key route_resp "routes") ;;
       route <- lift (py_getitem_0 routes) ;;
       g <- lift (py_get route "geometry" (PStr "")) ;;
       assign (set_geometry g) ;;;
       s <- get_state ;;
       d <- lift (py_get route "distance" (PFloat (l_distance_m (snd s)))) ;;
       d <- lift (py_float (runtime D) d) ;;
       assign (set_distance_m d) ;;;
       s <- get_state ;;
       t <- lift (py_get route "duration" (PFloat (l_duration_s (snd s)))) ;;
       t <- lift (py_float (runtime D) t) ;;
       assign (set_duration_s t) ;;;
       collect_steps route route_resp
     else ret tt)%se
    (fun _ => ret tt).

(** Lines 525-561: geocoding, waypoints and the local estimate. *)
Definition route_estimate (payload : TextRouteRequest) : SE World Estimate :=
  (source_coords <- _geocode_location D (source payload) ;;
   dest_coords <- _geocode_location D (text_destination payload) ;;
   source_name <- lift (py_get source_coords "display" (PStr (source payload))) ;;
   dest_name <- lift (py_get dest_coords "display"
                             (PStr (text_destination payload))) ;;
   generated <- lift (call_generate_waypoints source_name dest_name
                                              (event payload)) ;;
   let '(waypoints, reason, intermediate_points) := generated in
   src <- lift (lat_lon source_coords) ;;
   dst <- lift (lat_lon dest_coords) ;;
   distance_m <- lift (_haversine_distance_m (runtime D)
                         (fst src) (snd src) (fst dst) (snd dst)) ;;
   let '(distance_m, reason) :=
     apply_event_multiplier (event payload) distance_m reason in
   let speed_mps := _estimate_speed_mps (text_mode payload) in
   let duration_s := duration_of distance_m speed_mps in
   let co2_kg := _estimate_co2_kg (runtime D) distance_m (text_mode payload) in
   ret {| source_coords := source_coords;
          dest_coords := dest_coords;
          e_waypoints := waypoints;
          e_reason := reason;
          intermediate_points := intermediate_points;
          e_distance_m := distance_m;
          e_duration_s := duration_s;
          co2_kg := co2_kg |})%se.

(** Lines 599-626: the path and the mock steps built when no geometry was
    obtained; the keyword arguments [detailed_geometry] and [steps]. *)
Definition fallback_geometry (e : Estimate) (l : Locals)
  : result (list (list pyval) * list pyval) :=
  if negb (truthy (l_geometry l)) then
    let first := hd "" (e_waypoints e) in
    let final := last (e_waypoints e) "" in
    let! src := lat_lon (source_coords e) in
    let! dst := lat_lon (dest_coords e) in
    Ok (([fst src; snd src]
           :: map (fun pt => [PFloat (loc_lat pt); PFloat (loc_lon pt)])
                  (intermediate_points e))
          ++ [[fst dst; snd dst]],
        (l_steps l
           ++ [mock_step ("Start from " ++ first) 0 0 (snd src) (fst src)
                         ("Start from " ++ first)]
           ++ map (fun pt =>
                     mock_step ("Head toward " ++ display pt) 500 60
                               (PFloat (loc_lon pt)) (PFloat (loc_lat pt))
                               ("Pass through " ++ display pt))
                  (intermediate_points e)
           ++ [mock_step ("Arrive at " ++ final) 200 30 (snd dst) (fst dst)
                         ("Arrive at " ++ final)]))%list
  else Ok ([], l_steps l).

(** The locals as they stand before the routing [try] block. *)
Definition initial_locals (e : Estimate) : Locals :=
  {| l_geometry := PStr "";
     l_distance_m := e_distance_m e;
     l_duration_s := e_duration_s e;
     l_steps := [];
     l_provider_used := PStr "fallback" |}.

(** [TextRouteResponse(...)] on the keyword arguments of lines 631-645. The
    strings and floats the handler computed fit their fields; the geometry
    and the steps come from the provider, the coordinates of the path and
    the two points from the resolved places. *)
Definition build_response (e : Estimate) (l : Locals)
  (detailed : list (list pyval)) (all_steps : list pyval)
  : result TextRouteResponse :=
  let c := coercions D in
  match validate_str c (l_geometry l),
        validate_all (validate_all (validate_float c)) detailed,
        validate_all (validate_dict c) all_steps,
        validate_optional (validate_dict c) (source_coords e),
        validate_optional (validate_dict c) (dest_coords e)
  with
  | Some g, Some path, Some dicts, Some src, Some dst =>
      Ok {| recommended_route := join " → " (e_waypoints e);
            reason := e_reason e;
            text_distance_meters := py_round (runtime D) (l_distance_m l) 2;
            distance_km := py_round (runtime D) (l_distance_m l / 1000.0) 2;
            text_duration_seconds := py_round (runtime D) (l_duration_s l) 1;
            duration_minutes := py_round (runtime D) (l_duration_s l / 60.0) 1;
            text_estimated_co2_kg := co2_kg e;
            text_waypoints := e_waypoints e;
            geometry := g;
            detailed_geometry := path;
            steps := dicts;
            start_point := src;
            end_point := dst |}
  | _, _, _, _, _ => Raise ValidationError
  end.

(** Lines 599-645: the fallback path, then the response. *)
Definition text_response (e : Estimate) (l : Locals) : result TextRouteResponse :=
  let! drawn := fallback_geometry e l in
  build_response e l (fst drawn) (snd drawn).

(** Lines 563-645 of [suggest_text_route]: the routing [try] block started
    from the local estimate, then the response. *)
Definition finish_text_route (payload : TextRouteRequest) (e : Estimate)
  : SE World TextRouteResponse :=
  fun w =>
    let '(r, (w', l)) := routing_block payload e (w, initial_locals e) in
    match r with
    | Ok _ => (text_response e l, w')
    | Raise x => (Raise x, w')
    end.

(** [suggest_text_route] *)
Definition suggest_text_route (payload : TextRouteRequest)
  : SE World TextRouteResponse :=
  (e <- route_estimate payload ;;
   finish_text_route payload e)%se.

(** [recalculate_route] *)
Definition recalculate_route (payload : TextRouteRequest)
  : SE World TextRouteResponse :=
  suggest_text_route payload.

End TextHandlers.

End Routing.

(* ===================================================================== *)
(** ** backend/routes/events.py *)
(* ===================================================================== *)

Module Events.
Import Py.
Local Open Scope Z_scope.

(** A [datetime] is its number of microseconds since the epoch, a
    [timedelta] a number of microseconds. *)
Definition hours (n : Z) : Z := n * 3600000000.

Record MobilityEvent : Type := {
  id : string;
  title : string;
  category : string;
  lat : float;
  lon : float;
  starts_at : Z;
  ends_at : Z;
  description : option string;
  severity : Z
}.

Record EventsResponse : Type := {
  items : list MobilityEvent;
  count : nat;
  center_lat : float;
  center_lon : float;
  radius_km : Z
}.

Definition _mock_events (now : Z) : list MobilityEvent :=
  [ {| id := "e1";
       title := "Road maintenance near central hub";
       category := "road_closure";
       lat := 12.9716%float;
       lon := 77.5946%float;
       starts_at := now - hours 1;
       ends_at := now + hours 5;
       description := Some "One lane closed, expect moderate delays.";
       severity := 3 |};
    {| id := "e2";
       title := "Stadium football match";
       category := "sports";
       lat := 12.9352%float;
       lon := 77.6245%float;
       starts_at := now + hours 2;
       ends_at := now + hours 6;
       description := Some "High traffic expected pre- and post-match.";
       severity := 4 |} ].

(** The filter of [active_only]: ongoing, or starting within three hours.
    [total_seconds() <= 3 * 3600] compares a whole number of microseconds
    with three hours. *)
Definition is_active (now : Z) (e : MobilityEvent) : bool :=
  ((starts_at e <=? now) && (now <=? ends_at e))
  || (starts_at e - now <=? hours 3).

Fixpoint map_result {A B} (f : A -> result B) (l : list A) : result (list B) :=
  match l with
  | [] => Ok []
  | x :: l' =>
      let! y := f x in
      let! ys := map_result f l' in
      Ok (y :: ys)
  end.

Section WithWorld.
Context {World : Type}.

(** [MobilityEvent(id=str(..), title=.., category="incident", lat=.., lon=..,
    starts_at=.., ends_at=.., description=.., severity=3)]: the schema's
    validation of the fields read from an incident, given as it is. *)
Variable incident_event :
  pyval -> pyval -> pyval -> pyval -> pyval -> Z -> Z -> result MobilityEvent.

(** The [try] block mapping the incidents to events. *)
Definition parse_incidents (now : Z) (at_lat at_lon : float) (mmi_incidents : pyval)
  : result (list MobilityEvent) :=
  let! incidents := py_iter mmi_incidents in
  map_result
    (fun item =>
       let! i := py_get item "id" (PStr "approx") in
       let! t := py_get item "header" (PStr "Traffic Incident") in
       let! la := py_get item "latitude" (PFloat at_lat) in
       let! lo := py_get item "longitude" (PFloat at_lon) in
       let! d := py_get item "description" (PStr "") in
       incident_event i t la lo d now (now + hours 2))
    incidents.

(** [get_nearby_events], with [now] the value of [datetime.now(timezone.utc)];
    the state is the one of the module's [mmi_client]. *)
Definition get_nearby_events (now : Z) (at_lat at_lon : float) (radius : Z)
  (active_only : bool) : SE (MapMyIndia.St World) EventsResponse :=
  (mmi_incidents <- MapMyIndia.get_nearby_incidents at_lat at_lon radius ;;
   let events :=
     if truthy mmi_incidents
     then match parse_incidents now at_lat at_lon mmi_incidents with
          | Ok events => events
          | Raise _ => []
          end
     else [] in
   let events :=
     match events with
     | [] => _mock_events now
     | _ => events
     end in
   let events := if active_only then filter (is_active now) events else events in
   ret {| items := events;
          count := List.length events;
          center_lat := at_lat;
          center_lon := at_lon;
          radius_km := radius |})%se.

End WithWorld.

End Events.

(* ===================================================================== *)
(** ** Vocabulary for the provider clients *)
(* ===================================================================== *)

Module ClientProps.
Import Py.

(** The fields [geocode] reads from a feature: the full name defaults to the
    input, the short name to the full name. *)
Definition feature_names (place_name : string) (feature : list (string * pyval))
  : pyval * pyval :=
  let full := match dict_lookup "place_name" feature with
              | Some v => v
              | None => PStr place_name
              end in
  (match dict_lookup "text" feature with Some v => v | None => full end, full).

End ClientProps.

(* ===================================================================== *)
(** ** Properties of the fallback chain *)
(* ===================================================================== *)

Module ChainProps.
Import Py Config.

(** Position of a provider in the enumeration. *)
Definition enum_index (p : RoutingProvider) : nat :=
  match p with
  | MAPBOX => 0
  | GOOGLE_MAPS => 1
  | MAPMYINDIA => 2
  | OSRM => 3
  end.

Fixpoint index_of (p : RoutingProvider) (l : list RoutingProvider) : option nat :=
  match l with
  | [] => None
  | x :: l' =>
      if provider_eqb p x then Some 0
      else match index_of p l' with
           | Some i => Some (S i)
           | None => None
           end
  end.

(** [p] and [q] both occur in [l], and [p] occurs first. *)
Definition precedes (p q : RoutingProvider) (l : list RoutingProvider) : bool :=
  match index_of p l, index_of q l with
  | Some i, Some j => Nat.ltb i j
  | _, _ => false
  end.

Definition provider_eq_dec (p q : RoutingProvider) : {p = q} + {p <> q}.
Proof. decide equality. Defined.

(** Number of occurrences of [p] in [l]. *)
Definition occurrences (p : RoutingProvider) (l : list RoutingProvider) : nat :=
  count_occ provider_eq_dec l p.

(** The chain invariant as the data model words it: no duplicates; the
    preferred provider first iff it is configured; every other configured
    provider before the no-credential provider; the others in enumeration
    order. *)
Definition chain_invariant_as_worded (cfg : RoutingConfig) : Prop :=
  let chain := get_fallback_chain cfg in
  let preferred := preferred_provider cfg in
  NoDup chain
  /\ (hd_error chain = Some preferred <-> is_provider_configured cfg preferred = true)
  /\ (forall p, p <> preferred -> p <> OSRM -> is_provider_configured cfg p = true ->
                precedes p OSRM chain = true)
  /\ (forall p q, p <> preferred -> q <> preferred ->
                  is_provider_configured cfg p = true ->
                  is_provider_configured cfg q = true ->
                  enum_index p < enum_index q ->
                  precedes p q chain = true).

(** The environment of a deployment that sets a Mapbox key and nothing else:
    [ROUTING_PROVIDER] is unset, so the preferred provider is the default. *)
Definition mapbox_only_env : Environ :=
  {| MAPBOX_API_KEY := Some "pk.test";
     GOOGLE_MAPS_API_KEY := None;
     MAPMYINDIA_API_KEY := None;
     MAPMYINDIA_CLIENT_ID := None;
     MAPMYINDIA_CLIENT_SECRET := None;
     OSRM_BASE_URL := None;
     ROUTING_PROVIDER := None |}.

(** The same keys with Mapbox named as the preferred provider. *)
Definition mapbox_preferred_env : Environ :=
  {| MAPBOX_API_KEY := Some "pk.test";
     GOOGLE_MAPS_API_KEY := Some "AIza.test";
     MAPMYINDIA_API_KEY := None;
     MAPMYINDIA_CLIENT_ID := None;
     MAPMYINDIA_CLIENT_SECRET := None;
     OSRM_BASE_URL := None;
     ROUTING_PROVIDER := Some "Mapbox" |}.

End ChainProps.

(* ===================================================================== *)
(** ** Vocabulary for the fallback protocol *)
(* ===================================================================== *)

Module RouterProps.
Import Py Config RouterManager.

(** A provider fails when its client raises or returns a falsy value
    ([None], an empty dictionary). *)
Definition is_failure (r : result pyval) : Prop :=
  match r with
  | Raise _ => True
  | Ok v => truthy v = false
  end.

(** [fails_through self q l w w']: started in world [w], the providers of [l],
    asked in order, all fail, and leave the world [w']. *)
Inductive fails_through {World : Type} (self : RouterManager World) (q : RouteQuery)
  : list RoutingProvider -> World -> World -> Prop :=
| ft_nil (w : World) : fails_through self q [] w w
| ft_cons (p : RoutingProvider) (rest : list RoutingProvider) (client : Client World)
    (r : result pyval) (w w1 w2 : World) :
    providers_lookup p (providers self) = Ok client ->
    client q w = (r, w1) ->
    is_failure r ->
    fails_through self q rest w1 w2 ->
    fails_through self q (p :: rest) w w2.

(** The statement on the first success as worded, at one request: whenever
    the providers before [p] in the effective order fail and [p] succeeds,
    the call returns [p]'s result tagged with [p]'s name. *)
Definition first_success_always_tagged {World : Type} (self : RouterManager World)
  (q : RouteQuery) (preferred : option RoutingProvider) (w : World) : Prop :=
  forall pre post p client v w1 w2,
    provider_order self preferred = (pre ++ p :: post)%list ->
    fails_through self q pre w w1 ->
    providers_lookup p (providers self) = Ok client ->
    client q w1 = (Ok v, w2) ->
    truthy v = true ->
    exists tagged st,
      run_get_route self q preferred w = (Ok (PDict tagged), st)
      /\ dict_lookup "_provider_used" tagged = Some (PStr (value p)).

(** Three clients over a world that counts the calls made: one that is
    unconfigured and returns [None], one whose request raises, one
    that answers with a route. *)
Definition unconfigured_client : Client nat :=
  fun _ w => (Ok PNone, S w).

Definition unreachable_client : Client nat :=
  fun _ w => (Raise TransportError, S w).

Definition sample_route : list (string * pyval) :=
  [("code", PStr "Ok");
   ("routes", PList [PDict [("distance", PFloat 7421.3%float);
                            ("duration", PFloat 913.4%float);
                            ("geometry", PStr "_p~iF~ps|U")]])].

Definition answering_client : Client nat :=
  fun _ w => (Ok (PDict sample_route), S w).

(** A client whose service answers with a JSON array holding the route, not
    with an object. *)
Definition array_client : Client nat :=
  fun _ w => (Ok (PList [PDict sample_route]), S w).

Definition sample_query : RouteQuery :=
  {| start_lat := PFloat 12.9166%float; start_lon := PFloat 77.6101%float;
     end_lat := PFloat 12.9716%float; end_lon := PFloat 77.5946%float;
     mode := "car" |}.

(** What the OAuth token endpoint answers in the sample runs. *)
Definition token_endpoint
  : MapMyIndia.http_request -> nat -> result MapMyIndia.http_response * nat :=
  fun _ w =>
    (Ok {| MapMyIndia.status_code := 200;
           MapMyIndia.json := Ok (PDict [("access_token", PStr "tok-1");
                                         ("token_type", PStr "bearer")]);
           MapMyIndia.text := "" |},
     S w).

(** MapMyIndia set up with a client id and secret and no API key. *)
Definition oauth_only_env : Environ :=
  {| MAPBOX_API_KEY := None;
     GOOGLE_MAPS_API_KEY := None;
     MAPMYINDIA_API_KEY := None;
     MAPMYINDIA_CLIENT_ID := Some "client-id";
     MAPMYINDIA_CLIENT_SECRET := Some "client-secret";
     OSRM_BASE_URL := None;
     ROUTING_PROVIDER := Some "mapmyindia" |}.

(** No request of the list is a routing request. *)
Definition no_routing_request (l : list MapMyIndia.http_request) : bool :=
  forallb (fun r => negb (MapMyIndia.is_routing_request r)) l.

(** A configuration with Mapbox and Google keys, Mapbox preferred: the order
    is Mapbox, Google, OSRM. *)
Definition two_keys_config : RoutingConfig := Config.init ChainProps.mapbox_preferred_env.

End RouterProps.

(* ===================================================================== *)
(** ** Vocabulary and sample deployments for the request handlers *)
(* ===================================================================== *)

Module RoutingProps.
Import Py Config RouterManager Routing.
Local Open Scope float_scope.

(** [f] applied to the value of a result. *)
Definition result_map {A B} (f : A -> B) (r : result A) : result B :=
  match r with
  | Ok a => Ok (f a)
  | Raise e => Raise e
  end.

(** The two numbers of a text-route response the event multiplier bears on. *)
Definition distance_and_duration (r : TextRouteResponse) : float * float :=
  (text_distance_meters r, text_duration_seconds r).

(** A runtime for running the examples: the [math] functions are replaced by
    their small-angle approximations and [round] by the identity. *)
Definition small_angle_runtime : PyRuntime :=
  {| math_sin := fun x => Ok x;
     math_cos := fun x => Ok (1 - x * x / 2);
     math_asin := fun x => Ok x;
     float_pow := fun x _ => Ok (x * x);
     py_round := fun x _ => x;
     float_of_str := fun _ => Raise ValueError |}.

(** A deployment with a Google key, Google preferred. *)
Definition google_env : Environ :=
  {| MAPBOX_API_KEY := None;
     GOOGLE_MAPS_API_KEY := Some "AIza.test";
     MAPMYINDIA_API_KEY := None;
     MAPMYINDIA_CLIENT_ID := None;
     MAPMYINDIA_CLIENT_SECRET := None;
     OSRM_BASE_URL := None;
     ROUTING_PROVIDER := Some "google" |}.

(** A Directions answer in Google's schema: distance and duration sit inside
    the legs, the polyline under ["overview_polyline"]; the route has no
    ["distance"], ["duration"] or ["geometry"] entry of its own. *)
Definition google_route : pyval :=
  PDict [("summary", PStr "Hosur Rd");
         ("legs", PList [PDict [("distance", PDict [("text", PStr "7.4 km");
                                                    ("value", PInt 7421)]);
                                ("duration", PDict [("text", PStr "15 mins");
                                                    ("value", PInt 913)]);
                                ("steps", PList [])]]);
         ("overview_polyline", PDict [("points", PStr "_p~iF~ps|U")])].

Definition google_answer : list (string * pyval) :=
  [("status", PStr "OK"); ("routes", PList [google_route])].

Definition google_client : Client nat :=
  fun _ w => (Ok (PDict google_answer), S w).

Definition google_manager : RouterManager nat :=
  RouterManager.init (Config.init google_env)
    RouterProps.unconfigured_client google_client
    RouterProps.unconfigured_client RouterProps.answering_client.

(** A deployment without any key: OSRM alone, answering with a route in its
    own schema. *)
Definition no_key_env : Environ :=
  {| MAPBOX_API_KEY := None;
     GOOGLE_MAPS_API_KEY := None;
     MAPMYINDIA_API_KEY := None;
     MAPMYINDIA_CLIENT_ID := None;
     MAPMYINDIA_CLIENT_SECRET := None;
     OSRM_BASE_URL := None;
     ROUTING_PROVIDER := None |}.

Definition osrm_manager : RouterManager nat :=
  RouterManager.init (Config.init no_key_env)
    RouterProps.unconfigured_client RouterProps.unconfigured_client
    RouterProps.unconfigured_client RouterProps.answering_client.

(** A release of the validation library that converts nothing. *)
Definition no_coercions : Coercions :=
  {| number_as_str := fun _ => None;
     value_as_float := fun _ => None;
     sequence_as_dict := fun _ => None |}.

(** A geocoding service that answers every query with an empty collection. *)
Definition no_feature_http
  : Clients.http_request -> nat -> result MapMyIndia.http_response * nat :=
  fun _ w =>
    (Ok {| MapMyIndia.status_code := 200;
           MapMyIndia.json := Ok (PDict [("type", PStr "FeatureCollection");
                                         ("features", PList [])]);
           MapMyIndia.text := "" |},
     S w).

(** The handlers linked against a runtime and a manager; the remote geocoder
    finds nothing. *)
Definition services (rt : PyRuntime) (manager : RouterManager nat) : Services nat :=
  {| runtime := rt;
     coercions := no_coercions;
     router_manager := manager;
     geocoder_http := no_feature_http;
     global_get_route := fun _ _ w => (Ok PNone, S w) |}.

Definition rally_request : TextRouteRequest :=
  {| source := "BTM Layout";
     text_destination := "MG Road";
     event := "Political Rally";
     text_mode := car |}.

(** The local estimate for [rally_request] under [small_angle_runtime], with
    the 20% rally detour applied. *)
Definition rally_estimate : Estimate :=
  {| source_coords :=
       location_dict {| loc_lat := 12.9166; loc_lon := 77.6101; display := "BTM Layout" |};
     dest_coords :=
       location_dict {| loc_lat := 12.9716; loc_lon := 77.5946; display := "MG Road" |};
     e_waypoints := ["BTM Layout"; "Dairy Circle"; "Richmond Road"; "MG Road"];
     e_reason := "Avoiding political rally congestion";
     intermediate_points := [Dairy_Circle; Richmond_Circle];
     e_distance_m := 7610.582329199513;
     e_duration_s := 547.52390857550449;
     co2_kg := 1.3699048192559122 |}.

(** The value [route.get(key, estimate)] hands to [float]. *)
Definition entry_or (route : list (string * pyval)) (key : string) (estimate : float)
  : pyval :=
  match dict_lookup key route with
  | Some v => v
  | None => PFloat estimate
  end.

(** The statement on provider values as worded, at one request: whenever the
    manager returns an answer holding a route, the response carries the
    distance and duration that route gives. *)
Definition provider_values_always_returned {World : Type} (D : Services World)
  (payload : TextRouteRequest) (e : Estimate) (w : World) : Prop :=
  forall q answer st route rest,
    router_query payload e = Ok q ->
    run_get_route (router_manager D) q None w = (Ok (PDict answer), st) ->
    dict_lookup "routes" answer = Some (PList (PDict route :: rest)) ->
    exists d t d' t' resp w',
      dict_lookup "distance" route = Some d
      /\ dict_lookup "duration" route = Some t
      /\ py_float (runtime D) d = Ok d'
      /\ py_float (runtime D) t = Ok t'
      /\ finish_text_route D payload e w = (Ok resp, w')
      /\ text_distance_meters resp = py_round (runtime D) d' 2
      /\ text_duration_seconds resp = py_round (runtime D) t' 1.

(** The first route of an answer, when the answer is a dictionary whose
    ["routes"] entry is a list starting with a dictionary. *)
Definition first_route (answer : pyval) : option (list (string * pyval)) :=
  match answer with
  | PDict d =>
      match dict_lookup "routes" d with
      | Some (PList (PDict route :: _)) => Some route
      | _ => None
      end
  | _ => None
  end.

(** The value [route.get("geometry", "")] assigns. *)
Definition geometry_entry (route : list (string * pyval)) : pyval :=
  match dict_lookup "geometry" route with
  | Some v => v
  | None => PStr ""
  end.

(** What [float] makes of the route's distance, and of its duration once the
    distance was converted: the second conversion is not reached when the
    first one raises. *)
Definition distance_read (rt : PyRuntime) (route : list (string * pyval))
  (estimate : float) : result float :=
  py_float rt (entry_or route "distance" estimate).

Definition duration_read (rt : PyRuntime) (route : list (string * pyval))
  (distance_estimate duration_estimate : float) : result float :=
  let! _ := distance_read rt route distance_estimate in
  py_float rt (entry_or route "duration" duration_estimate).

Definition value_or (r : result float) (estimate : float) : float :=
  match r with
  | Ok x => x
  | Raise _ => estimate
  end.

(** The steps the loop over the legs can gather from a route: those of its
    legs in order, up to the first leg that cannot be read. *)
Fixpoint steps_of_legs (legs : list pyval) : list pyval :=
  match legs with
  | [] => []
  | leg :: rest =>
      match (let! leg_steps := py_get leg "steps" (PList []) in py_iter leg_steps) with
      | Ok leg_steps => (leg_steps ++ steps_of_legs rest)%list
      | Raise _ => []
      end
  end.

Definition gathered_steps (route : pyval) : list pyval :=
  match (let! legs := py_get route "legs" (PList []) in py_iter legs) with
  | Ok legs => steps_of_legs legs
  | Raise _ => []
  end.

Definition is_dict (v : pyval) : bool :=
  match v with
  | PDict _ => true
  | _ => false
  end.

Definition is_str (v : pyval) : bool :=
  match v with
  | PStr _ => true
  | _ => false
  end.

(** A value no release of the validation library takes for a [str] field:
    [null], a list or an object. *)
Definition never_a_str (v : pyval) : bool :=
  match v with
  | PNone | PList _ | PDict _ => true
  | _ => false
  end.

(** A route whose geometry is a GeoJSON object, as a routing service answers
    when asked for that format, and a deployment whose OSRM answers so. *)
Definition geojson_route : list (string * pyval) :=
  [("distance", PFloat 7421.3);
   ("duration", PFloat 913.4);
   ("geometry",
    PDict [("type", PStr "LineString");
           ("coordinates", PList [PList [PFloat 77.6101; PFloat 12.9166];
                                  PList [PFloat 77.5946; PFloat 12.9716]])])].

Definition geojson_client : Client nat :=
  fun _ w => (Ok (PDict [("code", PStr "Ok"); ("routes", PList [PDict geojson_route])]),
              S w).

Definition geojson_manager : RouterManager nat :=
  RouterManager.init (Config.init no_key_env)
    RouterProps.unconfigured_client RouterProps.unconfigured_client
    RouterProps.unconfigured_client geojson_client.

(** A dictionary that starts with the two coordinates. *)
Definition has_coordinates (place : pyval) : Prop :=
  exists at_lat at_lon rest, place = PDict (("lat", at_lat) :: ("lon", at_lon) :: rest).

(** A resolved place whose two coordinates are floats, as the gazetteer rows
    and the default are. *)
Definition float_place (coords : pyval) : Prop :=
  exists at_lat at_lon, lat_lon coords = Ok (PFloat at_lat, PFloat at_lon).

(** A route the response model accepts: its geometry, when present, is a
    string, and the steps of its legs are dictionaries. *)
Definition fits_schema (route : list (string * pyval)) : Prop :=
  is_str (geometry_entry route) = true
  /\ forallb is_dict (gathered_steps (PDict route)) = true.

End RoutingProps.

(* ===================================================================== *)
(** ** Vocabulary for the haversine distance *)
(* ===================================================================== *)

Module HaversineProps.
Import Py Routing RoutingProps.

(** *** Binary64 numbers *)

(** Zero or finite: neither infinite nor NaN. *)
Definition sf_finite (x : spec_float) : bool :=
  match x with
  | S754_zero _ | S754_finite _ _ _ => true
  | _ => false
  end.

Definition finite (x : float) : bool := sf_finite (Prim2SF x).

(** [shr_1] iterated [k] times. *)
Fixpoint shr_times (k : nat) (mrs : shr_record) : shr_record :=
  match k with
  | O => mrs
  | S k' => shr_times k' (shr_1 mrs)
  end.

(** The integer nearest to [m / 2^n], ties to even. *)
Definition rne (m n : Z) : Z :=
  let q := (m / 2 ^ n)%Z in
  let rem := (m mod 2 ^ n)%Z in
  if (2 ^ n <? 2 * rem)%Z then (q + 1)%Z
  else if (2 ^ n =? 2 * rem)%Z && Z.odd q then (q + 1)%Z
  else q.

(** The record [mrs] holds [M] shifted right by [k] bits: the quotient, the
    last bit shifted out and whether a lower bit was set. *)
Definition shifted (M k : Z) (mrs : shr_record) : Prop :=
  shr_m mrs = (M / 2 ^ k)%Z
  /\ shr_r mrs = (0 <? k)%Z && Z.odd (M / 2 ^ (k - 1))
  /\ shr_s mrs = (0 <? k)%Z && negb (M mod 2 ^ (k - 1) =? 0)%Z.

(** The binary64 number of sign [s] for the rounded mantissa [r] at exponent
    [F]: a mantissa of [2^53] takes the next exponent, an exponent beyond the
    format gives an infinity. *)
Definition rounded (s : bool) (r F : Z) : spec_float :=
  if (r =? 0)%Z then S754_zero s
  else if (r =? 2 ^ 53)%Z
       then (if (F + 1 <=? 971)%Z then S754_finite s (Z.to_pos (2 ^ 52)) (F + 1)
             else S754_infinity s)
       else (if (F <=? 971)%Z then S754_finite s (Z.to_pos r) F else S754_infinity s).

(** The exponent the format gives a mantissa [m] at exponent [e]. *)
Definition target_exponent (m : positive) (e : Z) : Z :=
  Z.max (Zpos (digits2_pos m) + e - 53) (-1074).

(** Zero, or finite with an exponent of at most [b]. *)
Definition exponent_le (b : Z) (x : spec_float) : bool :=
  match x with
  | S754_zero _ => true
  | S754_finite _ _ e => (e <=? b)%Z
  | _ => false
  end.

(** *** The distance between two coordinates *)

Local Open Scope float_scope.

(** [_haversine_distance_m] on the fields of two coordinates, as
    [plan_route] calls it. *)
Definition haversine (rt : PyRuntime) (p q : Coordinate) : result float :=
  _haversine_distance_m rt (PFloat (lat p)) (PFloat (lon p))
                           (PFloat (lat q)) (PFloat (lon q)).

(** The angular separation [_haversine_distance_m] computes on the way: the
    value of its local [c], the central angle in radians. *)
Definition central_angle (rt : PyRuntime) (lat1 lon1 lat2 lon2 : pyval)
  : result float :=
  let! d := py_sub lat2 lat1 in
  let! d := math_arg d in
  let d_lat := math_radians d in
  let! d := py_sub lon2 lon1 in
  let! d := math_arg d in
  let d_lon := math_radians d in
  let! s_lat := math_sin rt (d_lat / 2) in
  let! h_lat := float_pow rt s_lat 2 in
  let! x1 := math_arg lat1 in
  let! c1 := math_cos rt (math_radians x1) in
  let! x2 := math_arg lat2 in
  let! c2 := math_cos rt (math_radians x2) in
  let! s_lon := math_sin rt (d_lon / 2) in
  let! h_lon := float_pow rt s_lon 2 in
  let a := h_lat + c1 * c2 * h_lon in
  let! root := math_sqrt a in
  let! angle := math_asin rt root in
  Ok (2 * angle).

Definition angular_separation (rt : PyRuntime) (p q : Coordinate) : result float :=
  central_angle rt (PFloat (lat p)) (PFloat (lon p)) (PFloat (lat q)) (PFloat (lon q)).

(** What the properties of the distance take from the C library: the sine
    and the arc sine of zero and the square of zero are zero, the sine is odd
    and the square even, also where they raise, and the cosine of a finite
    number lies between -1 and 1. *)
Definition libm (rt : PyRuntime) : Prop :=
  math_sin rt 0 = Ok 0
  /\ (forall x, math_sin rt (- x) = result_map PrimFloat.opp (math_sin rt x))
  /\ float_pow rt 0 2 = Ok 0
  /\ (forall x, float_pow rt (- x) 2 = float_pow rt x 2)
  /\ (forall x, finite x = true ->
        exists y, math_cos rt x = Ok y /\ (-1 <=? y) = true /\ (y <=? 1) = true)
  /\ math_asin rt 0 = Ok 0.

(** A runtime with the first term of each series: [sin x = x], [cos x = 1],
    [asin x = x]; the power is the square. *)
Definition first_order_runtime : PyRuntime :=
  {| math_sin := fun x => Ok x;
     math_cos := fun _ => Ok 1;
     math_asin := fun x => Ok x;
     float_pow := fun x _ => Ok (x * x);
     py_round := fun x _ => x;
     float_of_str := fun _ => Raise ValueError |}.

Definition bengaluru : Coordinate := {| lat := 12.9716; lon := 77.5946 |}.
Definition mysuru : Coordinate := {| lat := 12.2958; lon := 76.6394 |}.
Definition hubballi : Coordinate := {| lat := 15.3647; lon := 75.124 |}.

End HaversineProps.

(* ===================================================================== *)
(** * Theorems *)
(* ===================================================================== *)

Import Py Config ChainProps RouterProps RoutingProps.

(** ** The fallback chain *)

(** The [for] loop of [get_fallback_chain] appends, in order, the providers
    that pass its test. *)
Lemma append_loop_filter (keep : RoutingProvider -> bool)
  (l chain : list RoutingProvider) :
  fold_left (fun chain provider => if keep provider then chain ++ [provider] else chain)%list
            l chain
  = (chain ++ filter keep l)%list.
Proof.
  revert chain; induction l as [|x l IH]; intros chain; simpl.
  - now rewrite app_nil_r.
  - rewrite IH. destruct (keep x); simpl; [now rewrite <- app_assoc | reflexivity].
Qed.

Lemma provider_eqb_eq (p q : RoutingProvider) : provider_eqb p q = true <-> p = q.
Proof. destruct p, q; simpl; split; intro H; try reflexivity; discriminate. Qed.

(** The no-credential provider always passes the configuration test, so the
    final [if] of [get_fallback_chain] never appends: the chain is the
    preferred provider, when configured, followed by the other configured
    providers in enumeration order. *)
Lemma get_fallback_chain_eq (cfg : RoutingConfig) :
  get_fallback_chain cfg
  = ((if is_provider_configured cfg (preferred_provider cfg)
      then [preferred_provider cfg] else [])
     ++ filter (fun p => negb (provider_eqb p (preferred_provider cfg))
                         && is_provider_configured cfg p)
               all_providers)%list.
Proof.
  unfold get_fallback_chain. rewrite append_loop_filter.
  destruct (preferred_provider cfg); simpl;
    destruct (truthy_str (mapbox_api_key cfg));
    destruct (truthy_str (google_maps_api_key cfg));
    destruct (truthy_str (mapmyindia_api_key cfg)
              || truthy_str (mapmyindia_client_id cfg)
                 && truthy_str (mapmyindia_client_secret cfg));
    reflexivity.
Qed.

(** Case analysis on everything the chain depends on: the preferred provider
    and the three credential tests. *)
Ltac chain_cases cfg :=
  rewrite ?get_fallback_chain_eq; unfold all_providers;
  destruct (preferred_provider cfg); simpl;
  destruct (truthy_str (mapbox_api_key cfg));
  destruct (truthy_str (google_maps_api_key cfg));
  destruct (truthy_str (mapmyindia_api_key cfg)
            || truthy_str (mapmyindia_client_id cfg)
               && truthy_str (mapmyindia_client_secret cfg));
  simpl.

Lemma chain_nodup (cfg : RoutingConfig) : NoDup (get_fallback_chain cfg).
Proof.
  chain_cases cfg;
    repeat (constructor; [simpl; intuition discriminate|]); constructor.
Qed.

(** The no-credential provider occurs exactly once, whatever the credentials. *)
Lemma osrm_exactly_once (cfg : RoutingConfig) :
  occurrences OSRM (get_fallback_chain cfg) = 1.
Proof. unfold occurrences. chain_cases cfg; reflexivity. Qed.

(** It is last whenever another provider is preferred. *)
Lemma osrm_last_unless_preferred (cfg : RoutingConfig) :
  preferred_provider cfg <> OSRM ->
  last (get_fallback_chain cfg) MAPBOX = OSRM.
Proof. intros H. revert H. chain_cases cfg; intros H; try reflexivity; now elim H. Qed.

(** It is first whenever it is the preferred provider. *)
Lemma osrm_first_when_preferred (cfg : RoutingConfig) :
  preferred_provider cfg = OSRM ->
  hd_error (get_fallback_chain cfg) = Some OSRM.
Proof. intros H. revert H. chain_cases cfg; intros H; try reflexivity; discriminate. Qed.

Lemma preferred_first_iff_configured (cfg : RoutingConfig) :
  hd_error (get_fallback_chain cfg) = Some (preferred_provider cfg)
  <-> is_provider_configured cfg (preferred_provider cfg) = true.
Proof.
  rewrite get_fallback_chain_eq.
  destruct (is_provider_configured cfg (preferred_provider cfg)) eqn:E.
  - simpl. tauto.
  - split; [|discriminate]. intros H. exfalso. revert E H. unfold all_providers.
    destruct (preferred_provider cfg); simpl;
      destruct (truthy_str (mapbox_api_key cfg));
      destruct (truthy_str (google_maps_api_key cfg));
      destruct (truthy_str (mapmyindia_api_key cfg)
                || truthy_str (mapmyindia_client_id cfg)
                   && truthy_str (mapmyindia_client_secret cfg));
      simpl; intros; discriminate.
Qed.

(** The chain holds exactly the configured providers. *)
Lemma chain_membership (cfg : RoutingConfig) (p : RoutingProvider) :
  In p (get_fallback_chain cfg) <-> is_provider_configured cfg p = true.
Proof.
  rewrite get_fallback_chain_eq, in_app_iff, filter_In.
  destruct (is_provider_configured cfg (preferred_provider cfg)) eqn:Epref;
    destruct (provider_eq_dec p (preferred_provider cfg)) as [->|Hne]; simpl.
  - rewrite Epref. tauto.
  - assert (provider_eqb p (preferred_provider cfg) = false) as ->
      by (destruct p, (preferred_provider cfg); try reflexivity; now elim Hne).
    simpl. split.
    + intros [[H|[]]|[_ H]]; [now elim Hne | exact H].
    + intros H. right. split; [destruct p; simpl; tauto | exact H].
  - rewrite Epref.
    assert (provider_eqb (preferred_provider cfg) (preferred_provider cfg) = true) as ->
      by (destruct (preferred_provider cfg); reflexivity).
    simpl. split; [intros [[]|[_ H]]; discriminate | discriminate].
  - assert (provider_eqb p (preferred_provider cfg) = false) as ->
      by (destruct p, (preferred_provider cfg); try reflexivity; now elim Hne).
    simpl. split.
    + intros [[]|[_ H]]; exact H.
    + intros H. right. split; [destruct p; simpl; tauto | exact H].
Qed.

(** C1 (evaluation at the failing input). With a Mapbox key set and
    [ROUTING_PROVIDER] left at its default, the preferred provider is the
    no-credential provider itself: the chain is [osrm, mapbox], so the
    no-credential provider occurs once but first, not last. *)
Theorem default_preference_puts_osrm_first :
  preferred_provider (init mapbox_only_env) = OSRM
  /\ get_fallback_chain (init mapbox_only_env) = [OSRM; MAPBOX]
  /\ occurrences OSRM (get_fallback_chain (init mapbox_only_env)) = 1
  /\ last (get_fallback_chain (init mapbox_only_env)) OSRM = MAPBOX.
Proof. repeat split; reflexivity. Qed.

(** C4 (counterexample). At the same configuration the invariant as worded
    fails: Mapbox is configured and is not the preferred provider, yet it
    comes after the no-credential provider. *)
Lemma chain_invariant_as_worded_fails :
  ~ chain_invariant_as_worded (init mapbox_only_env).
Proof.
  intros (_ & _ & H & _).
  specialize (H MAPBOX). simpl in H.
  assert (precedes MAPBOX OSRM (get_fallback_chain (init mapbox_only_env)) = true) as E
    by (apply H; [discriminate | discriminate | reflexivity]).
  vm_compute in E. discriminate.
Qed.

(** C4 (amended). For every configuration: the chain has no duplicates and
    holds exactly the configured providers; the configured providers other
    than the preferred one come in enumeration order; and, unless the
    preferred provider is the no-credential provider while another provider
    is configured, the preferred provider is first iff it is configured and
    every other configured provider comes before the no-credential provider.
    Where the no-credential provider is preferred and another provider is
    configured, its place is left open (see C1). *)
Theorem chain_invariant (cfg : RoutingConfig) :
  let chain := get_fallback_chain cfg in
  let preferred := preferred_provider cfg in
  NoDup chain
  /\ (forall p, In p chain <-> is_provider_configured cfg p = true)
  /\ (forall p q, p <> preferred -> q <> preferred ->
                  is_provider_configured cfg p = true ->
                  is_provider_configured cfg q = true ->
                  enum_index p < enum_index q ->
                  precedes p q chain = true)
  /\ (preferred <> OSRM
      \/ (forall p, p <> OSRM -> is_provider_configured cfg p = false) ->
      (hd_error chain = Some preferred <-> is_provider_configured cfg preferred = true)
      /\ (forall p, p <> OSRM -> is_provider_configured cfg p = true ->
                    precedes p OSRM chain = true)).
Proof.
  cbv zeta. split; [apply chain_nodup|].
  split; [apply chain_membership|].
  split.
  - intros p q Hp Hq Hcp Hcq Hlt. revert Hp Hq Hcp Hcq.
    unfold is_provider_configured at 1 2.
    destruct p, q; simpl in Hlt; try lia; clear Hlt;
      chain_cases cfg; intros Hp Hq Hcp Hcq;
      try reflexivity; try discriminate; try (now elim Hp); try (now elim Hq).
  - intros Hfree. split; [apply preferred_first_iff_configured|].
    intros p Hp Hc. destruct Hfree as [Hpref|Hnone].
    + revert Hpref Hc. unfold is_provider_configured at 1.
      destruct p; try (now elim Hp); clear Hp;
        chain_cases cfg; intros Hpref Hc;
        try reflexivity; try discriminate; try (now elim Hpref).
    + rewrite (Hnone p Hp) in Hc. discriminate.
Qed.

(** The amended invariant at a configuration that prefers Mapbox. *)
Lemma chain_invariant_witness :
  get_fallback_chain (init mapbox_preferred_env) = [MAPBOX; GOOGLE_MAPS; OSRM]
  /\ precedes GOOGLE_MAPS OSRM (get_fallback_chain (init mapbox_preferred_env)) = true.
Proof.
  split; [reflexivity|].
  destruct (chain_invariant (init mapbox_preferred_env)) as (_ & _ & _ & H).
  destruct H as [_ H]; [left; discriminate|].
  apply H; [discriminate | reflexivity].
Defined.

(** ** The fallback protocol of [RouterManager.get_route] *)

Section FallbackProtocol.
Context {World : Type}.
Implicit Types (self : RouterManager.RouterManager World) (q : RouterManager.RouteQuery).

(** One failing provider costs one invocation and moves to the next. *)
Lemma attempt_failure self q p client r w w1 log :
  RouterManager.providers_lookup p (RouterManager.providers self) = Ok client ->
  client q w = (r, w1) ->
  is_failure r ->
  RouterManager.attempt self p q {| RouterManager.world := w; RouterManager.invoked := log |}
  = (Ok RouterManager.Next,
     {| RouterManager.world := w1; RouterManager.invoked := (log ++ [p])%list |}).
Proof.
  intros Hl Hc Hf.
  unfold RouterManager.attempt, try_except, bind, lift, RouterManager.invoke, ret.
  rewrite Hl. simpl. rewrite Hc.
  destruct r as [v|e]; simpl in *; [rewrite Hf|]; reflexivity.
Qed.

(** One succeeding provider costs one invocation and returns its stamped answer. *)
Lemma attempt_success self q p client v w w1 log :
  RouterManager.providers_lookup p (RouterManager.providers self) = Ok client ->
  client q w = (Ok v, w1) ->
  truthy v = true ->
  RouterManager.attempt self p q {| RouterManager.world := w; RouterManager.invoked := log |}
  = (Ok (RouterManager.Return (RouterManager.stamp_provider p v)),
     {| RouterManager.world := w1; RouterManager.invoked := (log ++ [p])%list |}).
Proof.
  intros Hl Hc Ht.
  unfold RouterManager.attempt, try_except, bind, lift, RouterManager.invoke, ret.
  rewrite Hl. simpl. rewrite Hc, Ht. reflexivity.
Qed.

(** The loop skips over a failing prefix, invoking each of its providers once. *)
Lemma try_providers_skip self q pre rest w w1 log :
  fails_through self q pre w w1 ->
  RouterManager.try_providers self (pre ++ rest)%list q
    {| RouterManager.world := w; RouterManager.invoked := log |}
  = RouterManager.try_providers self rest q
    {| RouterManager.world := w1; RouterManager.invoked := (log ++ pre)%list |}.
Proof.
  intros H. revert log. induction H as [w|p pre client r w w1 w2 Hl Hc Hf _ IH]; intros log.
  - simpl. now rewrite app_nil_r.
  - simpl. unfold bind at 1.
    rewrite (attempt_failure self q p client r w w1 log Hl Hc Hf).
    rewrite IH. now rewrite <- app_assoc.
Qed.

(** [attempt] never raises: the [except] clause turns every exception into
    a move to the next provider. *)
Lemma attempt_never_raises self q p s :
  exists f s', RouterManager.attempt self p q s = (Ok f, s').
Proof.
  unfold RouterManager.attempt, try_except, bind, lift, RouterManager.invoke, ret.
  destruct (RouterManager.providers_lookup p (RouterManager.providers self)) as [c|e];
    [|eauto].
  destruct (c q (RouterManager.world s)) as [[v|e] w']; [|eauto].
  destruct (truthy v); eauto.
Qed.

Lemma try_providers_never_raises self q order s :
  exists v s', RouterManager.try_providers self order q s = (Ok v, s').
Proof.
  revert s. induction order as [|p order IH]; intros s; simpl.
  - unfold ret. eauto.
  - unfold bind. destruct (attempt_never_raises self q p s) as (f & s' & E).
    rewrite E. destruct f; [unfold ret; eauto | apply IH].
Qed.

(** Whatever the providers do, [get_route] returns a value. *)
Lemma get_route_never_raises self q preferred w :
  exists v s', RouterManager.run_get_route self q preferred w = (Ok v, s').
Proof. apply try_providers_never_raises. Qed.

End FallbackProtocol.

Lemma dict_lookup_set {V} (k : string) (v : V) (d : list (string * V)) :
  dict_lookup k (dict_set k v d) = Some v.
Proof.
  induction d as [|[k' v'] d IH]; simpl.
  - now rewrite String.eqb_refl.
  - destruct (String.eqb k k') eqn:E; simpl; rewrite E; [reflexivity | exact IH].
Qed.

(** The effective order of an initialised manager never repeats a provider. *)
Lemma provider_order_nodup {World : Type} (cfg : RoutingConfig)
  (c1 c2 c3 c4 : RouterManager.Client World) (preferred : option RoutingProvider) :
  NoDup (RouterManager.provider_order (RouterManager.init cfg c1 c2 c3 c4) preferred).
Proof.
  unfold RouterManager.provider_order. cbn [RouterManager.fallback_chain RouterManager.init RouterManager.config].
  destruct preferred as [p|]; [|apply chain_nodup].
  destruct (is_provider_configured cfg p); [|apply chain_nodup].
  constructor.
  - rewrite filter_In. intros [_ H]. destruct p; discriminate.
  - apply NoDup_filter, chain_nodup.
Qed.

Lemma nodup_app_disjoint {A} (l1 l2 : list A) (x : A) :
  NoDup (l1 ++ l2)%list -> In x l1 -> ~ In x l2.
Proof.
  induction l1 as [|a l1 IH]; simpl; intros Hnd Hin; [contradiction|].
  inversion Hnd as [|? ? Hna Hnd']; subst.
  destruct Hin as [->|Hin]; [|now apply IH].
  intros Hx. apply Hna, in_or_app. now right.
Qed.

Lemma occurrences_nodup (x : RoutingProvider) (l : list RoutingProvider) :
  NoDup l -> occurrences x l = if in_dec provider_eq_dec x l then 1 else 0.
Proof.
  intros H. unfold occurrences. destruct (in_dec provider_eq_dec x l) as [Hin|Hin].
  - apply NoDup_count_occ'; assumption.
  - apply count_occ_not_In; assumption.
Qed.

(** C2 (counterexample). Mapbox raises, Google returns nothing and OSRM
    answers with a JSON array holding the route: the answer is truthy, so
    the manager returns it, and as it is no dictionary it comes back without
    any provider tag. *)
Lemma array_answer_is_not_tagged :
  ~ first_success_always_tagged
      (RouterManager.init two_keys_config unreachable_client unconfigured_client
                          unconfigured_client array_client)
      sample_query None 0.
Proof.
  intros H.
  destruct (H [MAPBOX; GOOGLE_MAPS] [] OSRM array_client
              (PList [PDict sample_route]) 2 3)
    as (tagged & st & Hrun & _).
  - reflexivity.
  - eapply ft_cons; [reflexivity | reflexivity | exact I |].
    eapply ft_cons; [reflexivity | reflexivity | reflexivity |].
    apply ft_nil.
  - reflexivity.
  - reflexivity.
  - reflexivity.
  - vm_compute in Hrun. discriminate Hrun.
Qed.

(** C2 (amended). In an initialised manager, when the effective order is
    [pre ++ p :: post], every provider of [pre] fails (returns a falsy value
    or raises) and [p] answers with a truthy value [v], [get_route] returns
    [v], with ["_provider_used"] set to [p]'s name when [v] is a dictionary
    and as it is when [v] is anything else; the providers invoked are
    exactly [pre ++ [p]], each exactly once, and none of [post]. *)
Theorem first_success_wins {World : Type} (cfg : RoutingConfig)
  (c1 c2 c3 c4 : RouterManager.Client World)
  (q : RouterManager.RouteQuery) (preferred : option RoutingProvider)
  (pre post : list RoutingProvider) (p : RoutingProvider)
  (client : RouterManager.Client World) (v : pyval)
  (w w1 w2 : World) :
  let self := RouterManager.init cfg c1 c2 c3 c4 in
  RouterManager.provider_order self preferred = (pre ++ p :: post)%list ->
  fails_through self q pre w w1 ->
  RouterManager.providers_lookup p (RouterManager.providers self) = Ok client ->
  client q w1 = (Ok v, w2) ->
  truthy v = true ->
  exists returned,
    RouterManager.run_get_route self q preferred w
    = (Ok returned,
       {| RouterManager.world := w2; RouterManager.invoked := (pre ++ [p])%list |})
    /\ (forall d, v = PDict d ->
         returned = PDict (dict_set "_provider_used" (PStr (value p)) d)
         /\ py_get returned "_provider_used" PNone = Ok (PStr (value p)))
    /\ ((forall d, v <> PDict d) -> returned = v)
    /\ (forall x, In x (pre ++ [p])%list -> occurrences x (pre ++ [p])%list = 1)
    /\ (forall x, In x post -> occurrences x (pre ++ [p])%list = 0).
Proof.
  intros self Horder Hfail Hl Hc Ht.
  exists (RouterManager.stamp_provider p v).
  assert (NoDup (pre ++ p :: post)%list) as Hnd
    by (rewrite <- Horder; apply provider_order_nodup).
  assert (NoDup (pre ++ [p])%list) as Hnd'.
  { replace (pre ++ p :: post)%list with ((pre ++ [p]) ++ post)%list in Hnd
      by (rewrite <- app_assoc; reflexivity).
    exact (NoDup_app_remove_r _ _ Hnd). }
  split; [|split; [|split; [|split]]].
  - unfold RouterManager.run_get_route, RouterManager.get_route. rewrite Horder.
    rewrite (try_providers_skip self q pre (p :: post) w w1 [] Hfail).
    simpl. unfold bind at 1.
    rewrite (attempt_success self q p client v w1 w2 pre Hl Hc Ht).
    reflexivity.
  - intros d ->. split; [reflexivity|].
    cbn [RouterManager.stamp_provider py_get]. now rewrite dict_lookup_set.
  - intros Hnot. destruct v; try reflexivity. now elim (Hnot d).
  - intros x Hx. rewrite (occurrences_nodup x _ Hnd').
    destruct (in_dec provider_eq_dec x (pre ++ [p])%list); [reflexivity | contradiction].
  - intros x Hx. rewrite (occurrences_nodup x _ Hnd').
    destruct (in_dec provider_eq_dec x (pre ++ [p])%list) as [Hin|]; [|reflexivity].
    exfalso.
    replace (pre ++ p :: post)%list with ((pre ++ [p]) ++ post)%list in Hnd
      by (rewrite <- app_assoc; reflexivity).
    exact (nodup_app_disjoint _ _ x Hnd Hin Hx).
Qed.

(** The three-provider scenario: Mapbox raises, Google returns nothing, OSRM
    answers with a route object; OSRM's answer comes back stamped and each
    provider was asked once. *)
Lemma first_success_wins_witness :
  exists returned,
    RouterManager.run_get_route
      (RouterManager.init two_keys_config unreachable_client unconfigured_client
                          unconfigured_client answering_client)
      sample_query None 0
    = (Ok returned,
       {| RouterManager.world := 3;
          RouterManager.invoked := ([MAPBOX; GOOGLE_MAPS] ++ [OSRM])%list |})
    /\ (forall d, PDict sample_route = PDict d ->
         returned = PDict (dict_set "_provider_used" (PStr (value OSRM)) d)
         /\ py_get returned "_provider_used" PNone = Ok (PStr (value OSRM)))
    /\ ((forall d, PDict sample_route <> PDict d) -> returned = PDict sample_route)
    /\ (forall x, In x ([MAPBOX; GOOGLE_MAPS] ++ [OSRM])%list ->
                  occurrences x ([MAPBOX; GOOGLE_MAPS] ++ [OSRM])%list = 1)
    /\ (forall x, In x [] -> occurrences x ([MAPBOX; GOOGLE_MAPS] ++ [OSRM])%list = 0).
Proof.
  apply (first_success_wins two_keys_config unreachable_client unconfigured_client
           unconfigured_client answering_client sample_query None
           [MAPBOX; GOOGLE_MAPS] [] OSRM answering_client (PDict sample_route) 0 2 3).
  - reflexivity.
  - eapply ft_cons; [reflexivity | reflexivity | exact I |].
    eapply ft_cons; [reflexivity | reflexivity | reflexivity |].
    apply ft_nil.
  - reflexivity.
  - reflexivity.
  - reflexivity.
Defined.

(** C3. When every provider of the effective order fails (it is unconfigured
    and returns [None], returns no route, or raises), [get_route] returns
    [None]: it does not raise, and it has asked every provider of the order. *)
Theorem exhausted_returns_none {World : Type} (self : RouterManager.RouterManager World)
  (q : RouterManager.RouteQuery) (preferred : option RoutingProvider) (w w' : World) :
  fails_through self q (RouterManager.provider_order self preferred) w w' ->
  RouterManager.run_get_route self q preferred w
  = (Ok PNone,
     {| RouterManager.world := w';
        RouterManager.invoked := RouterManager.provider_order self preferred |}).
Proof.
  intros H. unfold RouterManager.run_get_route, RouterManager.get_route.
  rewrite <- (app_nil_r (RouterManager.provider_order self preferred)) at 1.
  rewrite (try_providers_skip self q _ [] w w' [] H). reflexivity.
Qed.

(** All three providers of the order fail: the answer is [None]. *)
Lemma exhausted_returns_none_witness :
  RouterManager.run_get_route
    (RouterManager.init two_keys_config unreachable_client unconfigured_client
                        unconfigured_client unreachable_client)
    sample_query None 0
  = (Ok PNone,
     {| RouterManager.world := 3;
        RouterManager.invoked := [MAPBOX; GOOGLE_MAPS; OSRM] |}).
Proof.
  apply (exhausted_returns_none
           (RouterManager.init two_keys_config unreachable_client unconfigured_client
                               unconfigured_client unreachable_client)
           sample_query None 0 3).
  eapply ft_cons; [reflexivity | reflexivity | exact I |].
  eapply ft_cons; [reflexivity | reflexivity | reflexivity |].
  eapply ft_cons; [reflexivity | reflexivity | exact I |].
  apply ft_nil.
Defined.

(** ** The MapMyIndia client *)

Section MapMyIndiaFacts.
Context {World : Type}.
Variable http : MapMyIndia.http_request -> World -> result MapMyIndia.http_response * World.

(** [_get_token] issues at most the token request: it adds no routing request
    to those already sent. *)
Lemma get_token_sends_no_routing_request (s : MapMyIndia.St World) :
  no_routing_request (MapMyIndia.requests (snd (MapMyIndia._get_token http s)))
  = no_routing_request (MapMyIndia.requests s).
Proof.
  unfold MapMyIndia._get_token, bind, get_state, try_except, lift, ret,
    MapMyIndia.set_token, modify, MapMyIndia.send.
  destruct (truthy_str (MapMyIndia.api_key (MapMyIndia.self s))); [reflexivity|].
  destruct (negb (truthy_str (MapMyIndia.client_id (MapMyIndia.self s)))
            || negb (truthy_str (MapMyIndia.client_secret (MapMyIndia.self s))));
    [reflexivity|].
  destruct (truthy (MapMyIndia.token (MapMyIndia.self s))); [reflexivity|].
  assert (forall l r, MapMyIndia.is_routing_request r = false ->
            no_routing_request (l ++ [r])%list = no_routing_request l) as Happ.
  { intros l r Hr. unfold no_routing_request. rewrite forallb_app. simpl.
    rewrite Hr. simpl. now rewrite andb_true_r. }
  destruct (http _ (MapMyIndia.world s)) as [[resp|e] w']; simpl;
    [|now apply Happ].
  destruct (Z.eqb (MapMyIndia.status_code resp) 200); simpl; [|now apply Happ].
  destruct (MapMyIndia.json resp) as [data|e]; simpl; [|now apply Happ].
  destruct (py_get data "access_token" PNone) as [t|e]; simpl; now apply Happ.
Qed.

End MapMyIndiaFacts.

(** C9. With no MapMyIndia API key and both a client id and a client secret
    in the environment, the provider counts as configured and is in the
    fallback chain, and the client is marked configured; yet, whatever its
    token cache holds and whatever the network answers, [get_route] returns
    [None] for every input, having sent no routing request. *)
Theorem oauth_only_mapmyindia_never_routes {World : Type} (env : Environ)
  (http : MapMyIndia.http_request -> World -> result MapMyIndia.http_response * World)
  (cached : pyval) (start_lat start_lon end_lat end_lon : float) (mode : string)
  (w : World) :
  truthy_str (MAPMYINDIA_API_KEY env) = false ->
  truthy_str (MAPMYINDIA_CLIENT_ID env) = true ->
  truthy_str (MAPMYINDIA_CLIENT_SECRET env) = true ->
  is_provider_configured (Config.init env) MAPMYINDIA = true
  /\ In MAPMYINDIA (get_fallback_chain (Config.init env))
  /\ MapMyIndia.is_configured (MapMyIndia.init env) = true
  /\ exists s',
       MapMyIndia.get_route http start_lat start_lon end_lat end_lon mode
         {| MapMyIndia.self := MapMyIndia.with_token (MapMyIndia.init env) cached;
            MapMyIndia.world := w;
            MapMyIndia.requests := [] |}
       = (Ok PNone, s')
       /\ no_routing_request (MapMyIndia.requests s') = true.
Proof.
  intros Hkey Hid Hsecret.
  assert (is_provider_configured (Config.init env) MAPMYINDIA = true) as Hconf
    by (simpl; rewrite Hkey, Hid, Hsecret; reflexivity).
  split; [exact Hconf|]. split.
  - rewrite get_fallback_chain_eq. apply in_or_app.
    destruct (provider_eq_dec (preferred_provider (Config.init env)) MAPMYINDIA) as [E|E].
    + left. rewrite E, Hconf. now left.
    + right. apply filter_In. split; [simpl; tauto|].
      rewrite Hconf, andb_true_r.
      destruct (preferred_provider (Config.init env)); try reflexivity. now elim E.
  - split; [simpl; rewrite Hkey, Hid, Hsecret; reflexivity|].
    set (s := {| MapMyIndia.self := MapMyIndia.with_token (MapMyIndia.init env) cached;
                 MapMyIndia.world := w; MapMyIndia.requests := [] |}).
    pose proof (get_token_sends_no_routing_request http s) as Htok.
    unfold MapMyIndia.get_route, bind at 1, get_state.
    replace (MapMyIndia.is_configured (MapMyIndia.self s)) with true
      by (simpl; rewrite Hkey, Hid, Hsecret; reflexivity).
    replace (truthy_str (MapMyIndia.api_key (MapMyIndia.self s))) with false
      by (simpl; now rewrite Hkey).
    cbn [negb]. unfold bind, try_except, ret.
    destruct (MapMyIndia._get_token http s) as [[t|e] s1]; simpl in Htok.
    + destruct (negb (truthy t)); exists s1; split; try reflexivity; exact Htok.
    + exists s1; split; [reflexivity | exact Htok].
Qed.

(** The run with a client id and secret only: the token endpoint is asked,
    no route is requested, and the answer is [None]. *)
Lemma oauth_only_mapmyindia_never_routes_witness :
  is_provider_configured (Config.init oauth_only_env) MAPMYINDIA = true
  /\ In MAPMYINDIA (get_fallback_chain (Config.init oauth_only_env))
  /\ MapMyIndia.is_configured (MapMyIndia.init oauth_only_env) = true
  /\ exists s',
       MapMyIndia.get_route token_endpoint
         12.9166%float 77.6101%float 12.9716%float 77.5946%float "car"
         {| MapMyIndia.self := MapMyIndia.with_token (MapMyIndia.init oauth_only_env) PNone;
            MapMyIndia.world := 0;
            MapMyIndia.requests := [] |}
       = (Ok PNone, s')
       /\ no_routing_request (MapMyIndia.requests s') = true.
Proof.
  apply (oauth_only_mapmyindia_never_routes oauth_only_env token_endpoint PNone
           12.9166%float 77.6101%float 12.9716%float 77.5946%float "car" 0);
    reflexivity.
Defined.

(** ** Location resolution *)

Import Routing.

(** The gazetteer keys are already normalized. *)
Lemma location_db_lookup (key : string) (entry : Location) :
  In (key, entry) LOCATION_DB -> dict_lookup key LOCATION_DB = Some entry.
Proof.
  unfold LOCATION_DB. intros H.
  repeat (destruct H as [H|H]; [inversion H; subst; reflexivity|]).
  destruct H.
Qed.

(** [MapboxGeocoder.geocode] never raises: every exception of its body is
    caught. *)
Lemma geocode_never_raises {World : Type}
  (http : Clients.http_request -> World -> result MapMyIndia.http_response * World)
  (self : Clients.MapboxGeocoder) (place_name country : string)
  (s : Clients.St World) :
  exists answer s', Clients.geocode http self place_name country s = (Ok answer, s').
Proof.
  unfold Clients.geocode.
  destruct (negb (Clients.geocoder_is_configured self)); [unfold ret; eauto|].
  unfold try_except.
  match goal with
  | |- context [match ?body with _ => _ end] => destruct body as [[answer|x] s']
  end; unfold ret; eauto.
Qed.

(** Every path of [_geocode_location] returns. *)
Lemma geocode_location_returns {World : Type} (D : Services World)
  (location_name : string) (w : World) :
  exists place w', _geocode_location D location_name w = (Ok place, w').
Proof.
  unfold _geocode_location.
  destruct (dict_lookup (strip (lower location_name)) LOCATION_DB) as [entry|];
    [unfold ret; eauto|].
  destruct (partial_match (strip (lower location_name))) as [[k v]|];
    [unfold ret; eauto|].
  unfold bind, try_except, ret, call_geocoder.
  destruct (mapbox_geocoder_is_configured D); [|eauto].
  destruct (run_geocode D location_name "in" w) as [[answer|x] s']; [|eauto].
  destruct (truthy answer); eauto.
Qed.



(** ** The coordinate handlers *)

(** C5 (evaluation at every input). [plan_route] reads the global name
    [mmi_client], which [routing.py] never binds: the call raises [NameError]
    before any provider is asked, for every request and every deployment. *)
Theorem plan_route_raises_name_error {World : Type} (D : Services World)
  (payload : RouteRequest) (w : World) :
  plan_route D payload w = (Raise (NameError "mmi_client"), w).
Proof. reflexivity. Qed.

(** [plan_alternate_route] starts with [plan_route] and fails the same way. *)
Lemma plan_alternate_route_raises_name_error {World : Type} (D : Services World)
  (payload : AlternateRouteRequest) (w : World) :
  plan_alternate_route D payload w = (Raise (NameError "mmi_client"), w).
Proof. reflexivity. Qed.

(** The parsing step of [plan_route] never raises: an unparsable answer
    yields no response, which sends the handler to the haversine fallback. *)
Lemma parse_mmi_response_never_raises {World : Type} (D : Services World)
  (payload : RouteRequest) (mmi_resp : pyval) (w : World) :
  exists parsed, parse_mmi_response D payload mmi_resp w = (Ok parsed, w).
Proof.
  unfold parse_mmi_response, try_except, bind, lift, ret.
  destruct (py_get mmi_resp "routes" (PList [])) as [routes|]; [|eauto].
  destruct (truthy routes); [|eauto].
  destruct (py_getitem_0 routes) as [route|]; [|eauto].
  destruct (py_get route "distance" (PInt 0)) as [d|]; [|eauto].
  destruct (py_float (runtime D) d) as [distance_m|]; [|eauto].
  destruct (py_get route "duration" (PInt 0)) as [t|]; [|eauto].
  destruct (py_float (runtime D) t) as [duration_s|]; [|eauto].
  destruct (py_get route "geometry" (PStr "")) as [g|]; [|eauto].
  destruct (validate_str (coercions D) g); eauto.
Qed.

(** ** The haversine distance *)

Section Binary64.
Import HaversineProps.
Local Open Scope Z_scope.

(** *** Digits *)

Lemma digits2_pos_bounds (p : positive) :
  2 ^ (Zpos (digits2_pos p) - 1) <= Zpos p < 2 ^ Zpos (digits2_pos p).
Proof.
  induction p as [p IH|p IH|]; cbn [digits2_pos].
  - rewrite Pos2Z.inj_succ.
    replace (Z.succ (Zpos (digits2_pos p)) - 1) with (Z.succ (Zpos (digits2_pos p) - 1)) by lia.
    rewrite !Z.pow_succ_r by lia. lia.
  - rewrite Pos2Z.inj_succ.
    replace (Z.succ (Zpos (digits2_pos p)) - 1) with (Z.succ (Zpos (digits2_pos p) - 1)) by lia.
    rewrite !Z.pow_succ_r by lia. lia.
  - cbn. lia.
Qed.

(** Two numbers between the same powers of two have as many digits. *)
Lemma digits_unique (m d : Z) :
  0 < d -> 2 ^ (d - 1) <= m < 2 ^ d ->
  forall p, m = Zpos p -> Zpos (digits2_pos p) = d.
Proof.
  intros Hd Hm p ->. pose proof (digits2_pos_bounds p) as Hp.
  set (d' := Zpos (digits2_pos p)) in *. assert (0 < d') by (subst d'; lia).
  destruct (Z.lt_trichotomy d' d) as [Hlt|[Heq|Hgt]]; [|exact Heq|].
  - assert (2 ^ d' <= 2 ^ (d - 1)) by (apply Z.pow_le_mono_r; lia). lia.
  - assert (2 ^ d <= 2 ^ (d' - 1)) by (apply Z.pow_le_mono_r; lia). lia.
Qed.

Lemma digits_le (p q : positive) :
  (p <= q)%positive -> Zpos (digits2_pos p) <= Zpos (digits2_pos q).
Proof.
  intros H. pose proof (digits2_pos_bounds p) as Hp. pose proof (digits2_pos_bounds q) as Hq.
  destruct (Z.le_gt_cases (Zpos (digits2_pos p)) (Zpos (digits2_pos q))) as [|Hgt]; [assumption|].
  assert (2 ^ Zpos (digits2_pos q) <= 2 ^ (Zpos (digits2_pos p) - 1))
    by (apply Z.pow_le_mono_r; lia).
  lia.
Qed.

Lemma digits_mul (p q : positive) :
  Zpos (digits2_pos p) + Zpos (digits2_pos q) - 1
  <= Zpos (digits2_pos (p * q))
  <= Zpos (digits2_pos p) + Zpos (digits2_pos q).
Proof.
  pose proof (digits2_pos_bounds p) as Hp. pose proof (digits2_pos_bounds q) as Hq.
  pose proof (digits2_pos_bounds (p * q)) as Hpq.
  set (a := Zpos (digits2_pos p)) in *. set (b := Zpos (digits2_pos q)) in *.
  set (c := Zpos (digits2_pos (p * q))) in *.
  assert (0 < a) by (subst a; lia). assert (0 < b) by (subst b; lia).
  assert (0 < c) by (subst c; lia).
  rewrite Pos2Z.inj_mul in Hpq.
  assert (2 ^ (a - 1) * 2 ^ (b - 1) <= Zpos p * Zpos q) by (apply Z.mul_le_mono_nonneg; lia).
  assert (Zpos p * Zpos q < 2 ^ a * 2 ^ b) by (apply Z.mul_lt_mono_nonneg; lia).
  rewrite <- Z.pow_add_r in * by lia.
  split.
  - destruct (Z.le_gt_cases (a + b - 1) c) as [|Hgt]; [assumption|].
    assert (2 ^ c <= 2 ^ (a - 1 + (b - 1))) by (apply Z.pow_le_mono_r; lia). lia.
  - destruct (Z.le_gt_cases c (a + b)) as [|Hgt]; [assumption|].
    assert (2 ^ (a + b) <= 2 ^ (c - 1)) by (apply Z.pow_le_mono_r; lia). lia.
Qed.

(** *** Shifting *)

Lemma pow2_split (k : Z) : 0 < k -> 2 ^ k = 2 ^ (k - 1) * 2.
Proof.
  intros H. replace (2 ^ k) with (2 ^ ((k - 1) + 1)) by (f_equal; lia).
  rewrite Z.pow_add_r by lia. reflexivity.
Qed.

Lemma shr_times_add (a b : nat) (mrs : shr_record) :
  shr_times (a + b) mrs = shr_times b (shr_times a mrs).
Proof. revert mrs. induction a as [|a IH]; intros mrs; simpl; [reflexivity | apply IH]. Qed.

Lemma iter_pos_shr_times (p : positive) (mrs : shr_record) :
  iter_pos shr_1 p mrs = shr_times (Pos.to_nat p) mrs.
Proof.
  revert mrs. induction p as [p IH|p IH|]; intros mrs; cbn [iter_pos].
  - rewrite Pos2Nat.inj_xI. cbn [shr_times]. rewrite !IH.
    replace (2 * Pos.to_nat p)%nat with (Pos.to_nat p + Pos.to_nat p)%nat by lia.
    now rewrite shr_times_add.
  - rewrite Pos2Nat.inj_xO. rewrite !IH.
    replace (2 * Pos.to_nat p)%nat with (Pos.to_nat p + Pos.to_nat p)%nat by lia.
    now rewrite shr_times_add.
  - reflexivity.
Qed.

Lemma shr_1_fields (mrs : shr_record) :
  0 <= shr_m mrs ->
  shr_m (shr_1 mrs) = shr_m mrs / 2
  /\ shr_r (shr_1 mrs) = Z.odd (shr_m mrs)
  /\ shr_s (shr_1 mrs) = shr_r mrs || shr_s mrs.
Proof.
  destruct mrs as [m r s]. cbn [shr_m shr_r shr_s]. intros Hm.
  destruct m as [|p|p]; [| |lia].
  - cbn. auto.
  - destruct p as [p|p|]; cbn [shr_1 shr_m shr_r shr_s].
    + split; [|auto]. rewrite Pos2Z.inj_xI. apply Z.div_unique with 1; lia.
    + split; [|auto]. rewrite Pos2Z.inj_xO. apply Z.div_unique with 0; lia.
    + cbn. auto.
Qed.

Lemma shifted_step (M k : Z) (mrs : shr_record) :
  0 <= M -> 0 <= k -> shifted M k mrs -> shifted M (k + 1) (shr_1 mrs).
Proof.
  intros HM Hk (Hm & Hr & Hs).
  assert (0 < 2 ^ k) by (apply Z.pow_pos_nonneg; lia).
  assert (0 <= shr_m mrs) as Hpos by (rewrite Hm; apply Z.div_pos; lia).
  destruct (shr_1_fields mrs Hpos) as (Hm' & Hr' & Hs').
  unfold shifted. rewrite Hm', Hr', Hs', Hm, Hr, Hs.
  replace (k + 1 - 1) with k by lia.
  replace (0 <? k + 1) with true by (symmetry; apply Z.ltb_lt; lia).
  split; [|split; [reflexivity|]].
  - rewrite Z.pow_add_r by lia. rewrite Z.div_div by lia. reflexivity.
  - cbn [andb]. destruct (Z.ltb_spec 0 k) as [Hk'|Hk'].
    + cbn [andb].
      assert (0 < 2 ^ (k - 1)) by (apply Z.pow_pos_nonneg; lia).
      assert (2 ^ k = 2 ^ (k - 1) * 2) as E by (apply pow2_split; lia).
      rewrite E. rewrite Z.rem_mul_r by lia.
      pose proof (Z.mod_pos_bound M (2 ^ (k - 1)) ltac:(lia)) as Hlow.
      rewrite Zodd_mod.
      pose proof (Z.mod_pos_bound (M / 2 ^ (k - 1)) 2 ltac:(lia)) as Hbit.
      destruct (Z.eqb_spec (M mod 2 ^ (k - 1)) 0) as [E0|E0];
        destruct (Z.eqb_spec ((M / 2 ^ (k - 1)) mod 2) 1) as [E1|E1];
        cbn [negb orb]; symmetry;
        try (apply negb_true_iff, Z.eqb_neq; nia);
        apply negb_false_iff, Z.eqb_eq; nia.
    + assert (k = 0) by lia. subst k. cbn [andb orb]. rewrite Z.mod_1_r. reflexivity.
Qed.

Lemma shifted_times (M : Z) (k : nat) (mrs : shr_record) (j : Z) :
  0 <= M -> 0 <= j -> shifted M j mrs -> shifted M (j + Z.of_nat k) (shr_times k mrs).
Proof.
  intros HM. revert mrs j. induction k as [|k IH]; intros mrs j Hj H.
  - cbn [shr_times]. now rewrite Z.add_0_r.
  - cbn [shr_times]. replace (j + Z.of_nat (S k)) with ((j + 1) + Z.of_nat k) by lia.
    apply IH; [lia|]. now apply shifted_step.
Qed.

Lemma shifted_start (M : Z) :
  shifted M 0 (shr_record_of_loc M loc_Exact).
Proof. unfold shifted. cbn. rewrite Z.div_1_r. auto. Qed.

(** What [shr] makes of an exact mantissa. *)
Lemma shr_exact (M e n : Z) :
  0 <= M ->
  shifted M (Z.max 0 n) (fst (shr (shr_record_of_loc M loc_Exact) e n))
  /\ snd (shr (shr_record_of_loc M loc_Exact) e n) = e + Z.max 0 n.
Proof.
  intros HM. unfold shr. destruct n as [|p|p]; cbn [fst snd].
  - split; [apply shifted_start | lia].
  - rewrite iter_pos_shr_times. split; [|lia].
    replace (Z.max 0 (Zpos p)) with (0 + Z.of_nat (Pos.to_nat p)) by lia.
    apply shifted_times; [lia | lia | apply shifted_start].
  - split; [apply shifted_start | lia].
Qed.

(** Rounding the shifted mantissa to nearest, ties to even. *)
Lemma round_shifted (M n : Z) (mrs : shr_record) :
  0 <= M -> 0 <= n -> shifted M n mrs ->
  round_nearest_even (shr_m mrs) (loc_of_shr_record mrs) = rne M n.
Proof.
  intros HM Hn (Hm & Hr & Hs). destruct mrs as [m r s]. cbn [shr_m shr_r shr_s] in *.
  unfold rne. subst m.
  destruct (Z.ltb_spec 0 n) as [Hpos|Hz].
  - cbn [andb] in Hr, Hs.
    assert (0 < 2 ^ (n - 1)) by (apply Z.pow_pos_nonneg; lia).
    assert (2 ^ n = 2 ^ (n - 1) * 2) as E by (apply pow2_split; lia).
    assert (M mod 2 ^ n = M mod 2 ^ (n - 1) + 2 ^ (n - 1) * ((M / 2 ^ (n - 1)) mod 2)) as Erem
      by (rewrite E; apply Z.rem_mul_r; lia).
    pose proof (Z.mod_pos_bound M (2 ^ (n - 1)) ltac:(lia)) as Hlow.
    pose proof (Z.mod_pos_bound (M / 2 ^ (n - 1)) 2 ltac:(lia)) as Hbit.
    rewrite Zodd_mod in Hr.
    rewrite Erem. set (low := M mod 2 ^ (n - 1)) in *.
    set (bit := (M / 2 ^ (n - 1)) mod 2) in *. set (h := 2 ^ (n - 1)) in *.
    rewrite E.
    destruct (Z.eqb_spec bit 1) as [Eb|Eb]; destruct (Z.eqb_spec low 0) as [El|El];
      cbn [negb] in Hs; subst r s; cbn [loc_of_shr_record round_nearest_even].
    + replace (h * 2 <? 2 * (low + h * bit)) with false by (symmetry; apply Z.ltb_ge; nia).
      replace (h * 2 =? 2 * (low + h * bit)) with true by (symmetry; apply Z.eqb_eq; nia).
      cbn [andb]. rewrite <- Z.negb_even. destruct (Z.even (M / (h * 2))); reflexivity.
    + replace (h * 2 <? 2 * (low + h * bit)) with true by (symmetry; apply Z.ltb_lt; nia).
      reflexivity.
    + replace (h * 2 <? 2 * (low + h * bit)) with false by (symmetry; apply Z.ltb_ge; nia).
      replace (h * 2 =? 2 * (low + h * bit)) with false by (symmetry; apply Z.eqb_neq; nia).
      reflexivity.
    + replace (h * 2 <? 2 * (low + h * bit)) with false by (symmetry; apply Z.ltb_ge; nia).
      replace (h * 2 =? 2 * (low + h * bit)) with false by (symmetry; apply Z.eqb_neq; nia).
      reflexivity.
  - assert (n = 0) by lia. subst n. cbn [andb] in Hr, Hs. subst r s.
    cbn [loc_of_shr_record round_nearest_even].
    rewrite Z.pow_0_r, Z.mod_1_r, Z.div_1_r. reflexivity.
Qed.

(** *** Rounding to nearest, ties to even *)

Lemma rne_spec (M n : Z) :
  0 <= M -> 0 <= n ->
  2 * M - 2 ^ n <= 2 * rne M n * 2 ^ n <= 2 * M + 2 ^ n
  /\ (2 * rne M n * 2 ^ n = 2 * M + 2 ^ n -> Z.even (rne M n) = true)
  /\ (2 * rne M n * 2 ^ n = 2 * M - 2 ^ n -> Z.even (rne M n) = true)
  /\ M / 2 ^ n <= rne M n <= M / 2 ^ n + 1.
Proof.
  intros HM Hn. unfold rne.
  assert (0 < 2 ^ n) as HA by (apply Z.pow_pos_nonneg; lia).
  pose proof (Z.div_mod M (2 ^ n) ltac:(lia)) as E.
  pose proof (Z.mod_pos_bound M (2 ^ n) HA) as Hrem.
  set (A := 2 ^ n) in *. set (q := M / A) in *. set (rem := M mod A) in *.
  destruct (Z.ltb_spec A (2 * rem)) as [Hlt|Hge].
  - repeat split; try nia.
  - destruct (Z.eqb_spec A (2 * rem)) as [Heq|Hne]; cbn [andb].
    + destruct (Z.odd q) eqn:Hodd.
      * repeat split; try nia;
          intros _; replace (q + 1) with (Z.succ q) by lia; now rewrite Z.even_succ.
      * repeat split; try nia;
          intros _; rewrite <- Z.negb_odd, Hodd; reflexivity.
    + repeat split; try nia.
Qed.

Lemma rne_nonneg (M n : Z) : 0 <= M -> 0 <= n -> 0 <= rne M n.
Proof.
  intros HM Hn. destruct (rne_spec M n HM Hn) as (_ & _ & _ & H & _).
  assert (0 < 2 ^ n) by (apply Z.pow_pos_nonneg; lia).
  pose proof (Z.div_pos M (2 ^ n) HM ltac:(lia)). lia.
Qed.

(** Rounding keeps the order of the quotients [M1 / 2^n1 <= M2 / 2^n2]. *)
Lemma rne_mono (M1 n1 M2 n2 : Z) :
  0 <= M1 -> 0 <= n1 -> 0 <= M2 -> 0 <= n2 ->
  M1 * 2 ^ n2 <= M2 * 2 ^ n1 ->
  rne M1 n1 <= rne M2 n2.
Proof.
  intros HM1 Hn1 HM2 Hn2 Hle.
  destruct (rne_spec M1 n1 HM1 Hn1) as ((_ & Hup) & Hev1 & _ & _).
  destruct (rne_spec M2 n2 HM2 Hn2) as ((Hlow & _) & _ & Hev2 & _).
  assert (0 < 2 ^ n1) as HA by (apply Z.pow_pos_nonneg; lia).
  assert (0 < 2 ^ n2) as HB by (apply Z.pow_pos_nonneg; lia).
  set (A := 2 ^ n1) in *. set (B := 2 ^ n2) in *.
  set (r1 := rne M1 n1) in *. set (r2 := rne M2 n2) in *.
  destruct (Z.le_gt_cases r1 r2) as [|Hgt]; [assumption|exfalso].
  assert (2 * r1 * A * B <= (2 * M1 + A) * B) as P1 by (apply Z.mul_le_mono_nonneg_r; lia).
  assert ((2 * M2 - B) * A <= 2 * r2 * B * A) as P2 by (apply Z.mul_le_mono_nonneg_r; lia).
  assert (0 < A * B) as HAB by (apply Z.mul_pos_pos; lia).
  assert ((r1 - r2 - 1) * (A * B) <= 0) as P3 by nia.
  assert (r1 = r2 + 1) as Er by nia.
  assert (2 * r1 * A * B = (2 * M1 + A) * B) as Q1 by nia.
  assert ((2 * M2 - B) * A = 2 * r2 * B * A) as Q2 by nia.
  assert (2 * r1 * A = 2 * M1 + A) as T1 by nia.
  assert (2 * r2 * B = 2 * M2 - B) as T2 by nia.
  specialize (Hev1 T1). specialize (Hev2 T2).
  rewrite Er in Hev1. replace (r2 + 1) with (Z.succ r2) in Hev1 by lia.
  rewrite Z.even_succ, <- Z.negb_even, Hev2 in Hev1. discriminate.
Qed.

(** *** The rounding of an exact product *)

Lemma fexp64_eq (x : Z) : fexp prec emax x = Z.max (x - 53) (-1074).
Proof. reflexivity. Qed.

Lemma shifted_zero (M : Z) (mrs : shr_record) : shifted M 0 mrs -> shr_m mrs = M.
Proof. intros (H & _). now rewrite Z.div_1_r in H. Qed.

Lemma binary_round_aux_exact (s : bool) (m : positive) (e : Z) :
  let F := target_exponent m e in
  let r := rne (Zpos m) (F - e) in
  e <= F ->
  binary_round_aux prec emax s (Zpos m) e loc_Exact = rounded s r F.
Proof.
  intros F r HF. unfold rounded, binary_round_aux, shr_fexp. unfold target_exponent in F.
  rewrite !fexp64_eq. cbn [Zdigits2]. fold F.
  destruct (shr_exact (Zpos m) e (F - e) ltac:(lia)) as [Hsh He].
  destruct (shr (shr_record_of_loc (Zpos m) loc_Exact) e (F - e)) as [mrs' e'].
  cbn [fst snd] in Hsh, He.
  replace (Z.max 0 (F - e)) with (F - e) in Hsh, He by lia.
  rewrite (round_shifted (Zpos m) (F - e) mrs' ltac:(lia) ltac:(lia) Hsh). fold r.
  replace e' with F by lia. clear He Hsh mrs' e'.
  rewrite ?fexp64_eq.
  (* the rounded mantissa has at most 53 bits, or is 2^53 *)
  pose proof (digits2_pos_bounds m) as Hd.
  assert (0 <= r <= 2 ^ 53) as Hr.
  { destruct (rne_spec (Zpos m) (F - e) ltac:(lia) ltac:(lia)) as (_ & _ & _ & Hq).
    fold r in Hq. split; [apply rne_nonneg; lia|].
    assert (0 < 2 ^ (F - e)) by (apply Z.pow_pos_nonneg; lia).
    assert (Zpos m / 2 ^ (F - e) < 2 ^ 53); [|lia].
    apply Z.div_lt_upper_bound; [lia|].
    rewrite <- Z.pow_add_r by lia.
    assert (2 ^ Zpos (digits2_pos m) <= 2 ^ (F - e + 53))
      by (apply Z.pow_le_mono_r; lia).
    lia. }
  destruct (shr_exact r F (Z.max (Zdigits2 r + F - 53) (-1074) - F) ltac:(lia)) as [Hsh He].
  destruct (shr (shr_record_of_loc r loc_Exact) F (Z.max (Zdigits2 r + F - 53) (-1074) - F))
    as [mrs'' e''].
  cbn [fst snd] in Hsh, He.
  destruct (Z.eqb_spec r 0) as [E0|N0].
  - rewrite E0 in Hsh. cbn [Zdigits2] in Hsh.
    replace (Z.max 0 (Z.max (0 + F - 53) (-1074) - F)) with 0 in Hsh by lia.
    rewrite (shifted_zero _ _ Hsh). reflexivity.
  - destruct (Z.eqb_spec r (2 ^ 53)) as [E1|N1].
    + rewrite E1 in Hsh, He.
      change (Zdigits2 (2 ^ 53)) with 54 in Hsh, He.
      replace (Z.max 0 (Z.max (54 + F - 53) (-1074) - F)) with 1 in Hsh, He by lia.
      destruct Hsh as (Hm & _). rewrite Hm.
      change (2 ^ 53 / 2 ^ 1) with (Zpos (Z.to_pos (2 ^ 52))).
      cbv beta iota. replace e'' with (F + 1) by lia. reflexivity.
    + destruct r as [|p|p]; [lia| |lia].
      cbn [Zdigits2] in Hsh, He.
      pose proof (digits2_pos_bounds p) as Hp.
      assert (Zpos (digits2_pos p) <= 53).
      { destruct (Z.le_gt_cases (Zpos (digits2_pos p)) 53) as [|Hgt]; [assumption|].
        assert (2 ^ 53 <= 2 ^ (Zpos (digits2_pos p) - 1)) by (apply Z.pow_le_mono_r; lia).
        lia. }
      replace (Z.max 0 (Z.max (Zpos (digits2_pos p) + F - 53) (-1074) - F)) with 0
        in Hsh, He by lia.
      rewrite (shifted_zero _ _ Hsh). cbv beta iota.
      replace e'' with F by lia. reflexivity.
Qed.

(** The rounded mantissa has at most 53 bits, or is [2^53]. *)
Lemma rounded_mantissa_bounds (m : positive) (e : Z) :
  let F := target_exponent m e in
  e <= F -> 0 <= rne (Zpos m) (F - e) <= 2 ^ 53.
Proof.
  intros F HF. unfold target_exponent in F.
  pose proof (digits2_pos_bounds m) as Hd.
  destruct (rne_spec (Zpos m) (F - e) ltac:(lia) ltac:(lia)) as (_ & _ & _ & Hq).
  split; [apply rne_nonneg; lia|].
  assert (0 < 2 ^ (F - e)) by (apply Z.pow_pos_nonneg; lia).
  assert (Zpos m / 2 ^ (F - e) < 2 ^ 53); [|lia].
  apply Z.div_lt_upper_bound; [lia|].
  rewrite <- Z.pow_add_r by lia.
  assert (2 ^ Zpos (digits2_pos m) <= 2 ^ (F - e + 53))
    by (apply Z.pow_le_mono_r; lia).
  lia.
Qed.

(** *** Signs *)

Lemma binary_round_aux_sign (s : bool) (m e : Z) (l : location) :
  binary_round_aux prec emax (negb s) m e l = SFopp (binary_round_aux prec emax s m e l).
Proof.
  unfold binary_round_aux.
  destruct (shr_fexp prec emax m e l) as [mrs' e'].
  destruct (shr_fexp prec emax _ e' loc_Exact) as [mrs'' e''].
  destruct (shr_m mrs''); [reflexivity | | reflexivity].
  destruct (e'' <=? emax - prec); reflexivity.
Qed.

Lemma binary_round_sign (s : bool) (m : positive) (e : Z) :
  binary_round prec emax (negb s) m e = SFopp (binary_round prec emax s m e).
Proof.
  unfold binary_round. destruct (shl_align m e _) as [mz ez]. apply binary_round_aux_sign.
Qed.

Lemma SFopp_involutive (x : spec_float) : SFopp (SFopp x) = x.
Proof. destruct x; cbn; rewrite ?negb_involutive; reflexivity. Qed.

Lemma SFmul_opp_l (x y : spec_float) :
  SFmul prec emax (SFopp x) y = SFopp (SFmul prec emax x y).
Proof.
  destruct x as [sx|sx| |sx mx ex], y as [sy|sy| |sy my ey]; cbn [SFmul SFopp];
    try reflexivity; rewrite <- ?negb_xorb_l; try reflexivity.
  apply binary_round_aux_sign.
Qed.

Lemma SFmul_comm (x y : spec_float) : SFmul prec emax x y = SFmul prec emax y x.
Proof.
  destruct x as [sx|sx| |sx mx ex], y as [sy|sy| |sy my ey]; cbn [SFmul];
    try reflexivity; rewrite ?(xorb_comm sx sy); try reflexivity.
  now rewrite Pos.mul_comm, Z.add_comm.
Qed.

Lemma SFdiv_opp_l (x y : spec_float) :
  SFdiv prec emax (SFopp x) y = SFopp (SFdiv prec emax x y).
Proof.
  destruct x as [sx|sx| |sx mx ex], y as [sy|sy| |sy my ey]; cbn [SFdiv SFopp];
    try reflexivity; rewrite <- ?negb_xorb_l; try reflexivity.
  destruct (SFdiv_core_binary prec emax (Zpos mx) ex (Zpos my) ey) as [[mz ez] lz].
  apply binary_round_aux_sign.
Qed.

Lemma binary_normalize_opp (m e : Z) :
  m <> 0 ->
  binary_normalize prec emax (- m) e false = SFopp (binary_normalize prec emax m e false).
Proof.
  intros Hm. destruct m as [|p|p]; [congruence| |]; cbn [Z.opp binary_normalize].
  - apply (binary_round_sign false).
  - rewrite <- (SFopp_involutive (binary_round prec emax false p e)).
    f_equal. symmetry. apply (binary_round_sign false).
Qed.

(** Swapping the operands of a subtraction changes the sign of the
    difference, unless the difference is zero. *)
Lemma SFsub_swap (x y : spec_float) :
  SFsub prec emax y x = SFopp (SFsub prec emax x y)
  \/ (SFsub prec emax y x = S754_zero false /\ SFsub prec emax x y = S754_zero false).
Proof.
  destruct x as [sx|sx| |sx mx ex], y as [sy|sy| |sy my ey]; cbn [SFsub SFopp];
    try (left; reflexivity);
    try (destruct sx, sy; cbn; auto; fail).
  rewrite (Z.min_comm ey ex).
  set (ez := Z.min ex ey).
  set (A := cond_Zopp sx (Zpos (fst (shl_align mx ex ez)))).
  set (B := cond_Zopp sy (Zpos (fst (shl_align my ey ez)))).
  destruct (Z.eq_dec (A - B) 0) as [E|N].
  - right. replace (B - A) with 0 by lia. rewrite E. split; reflexivity.
  - left. replace (B - A) with (- (A - B)) by lia. now apply binary_normalize_opp.
Qed.

Lemma SFsub_diag (x : spec_float) :
  sf_finite x = true -> SFsub prec emax x x = S754_zero false.
Proof.
  destruct x as [s|s| |s m e]; cbn [sf_finite]; try discriminate; intros _; cbn [SFsub].
  - destruct s; reflexivity.
  - now rewrite Z.sub_diag.
Qed.

(** *** Validity *)

Lemma valid_finite (s : bool) (m : positive) (e : Z) :
  valid_binary (S754_finite s m e) = true ->
  target_exponent m e = e /\ -1074 <= e <= 971 /\ Zpos (digits2_pos m) <= 53.
Proof.
  cbn [SpecFloat.valid_binary]. unfold bounded, canonical_mantissa. rewrite fexp64_eq.
  intros H. apply andb_true_iff in H. destruct H as [H1 H2].
  apply Z.eqb_eq in H1. apply Z.leb_le in H2. change (emax - prec) with 971 in H2.
  unfold target_exponent. lia.
Qed.

(** A product of two numbers of the format is shifted right, never left. *)
Lemma product_exponent (m1 m2 : positive) (e1 e2 : Z) :
  target_exponent m1 e1 = e1 -> target_exponent m2 e2 = e2 ->
  e1 + e2 <= target_exponent (m1 * m2) (e1 + e2).
Proof.
  unfold target_exponent. intros H1 H2. pose proof (digits_mul m1 m2) as Hd.
  assert (0 < Zpos (digits2_pos m1)) by lia. assert (0 < Zpos (digits2_pos m2)) by lia.
  lia.
Qed.

Lemma SFmul_finite (s1 s2 : bool) (m1 m2 : positive) (e1 e2 : Z) :
  valid_binary (S754_finite s1 m1 e1) = true ->
  valid_binary (S754_finite s2 m2 e2) = true ->
  SFmul prec emax (S754_finite s1 m1 e1) (S754_finite s2 m2 e2)
  = rounded (xorb s1 s2)
      (rne (Zpos (m1 * m2)) (target_exponent (m1 * m2) (e1 + e2) - (e1 + e2)))
      (target_exponent (m1 * m2) (e1 + e2)).
Proof.
  intros V1 V2. destruct (valid_finite _ _ _ V1) as (T1 & _). destruct (valid_finite _ _ _ V2) as (T2 & _).
  cbn [SFmul]. apply binary_round_aux_exact. now apply product_exponent.
Qed.

Lemma rounded_finite (s : bool) (r F : Z) :
  F + 1 <= 971 -> sf_finite (rounded s r F) = true.
Proof.
  intros H. unfold rounded. destruct (r =? 0); [reflexivity|].
  destruct (r =? 2 ^ 53).
  - replace (F + 1 <=? 971) with true by (symmetry; apply Z.leb_le; lia). reflexivity.
  - replace (F <=? 971) with true by (symmetry; apply Z.leb_le; lia). reflexivity.
Qed.

(** A product whose exponents add up to at most 917 does not overflow. *)
Lemma SFmul_exponent_le (a b : Z) (x y : spec_float) :
  valid_binary x = true -> valid_binary y = true ->
  exponent_le a x = true -> exponent_le b y = true -> a + b <= 917 ->
  sf_finite (SFmul prec emax x y) = true.
Proof.
  intros Vx Vy Hx Hy Hab.
  destruct x as [sx|sx| |sx mx ex], y as [sy|sy| |sy my ey]; cbn [exponent_le] in Hx, Hy;
    try discriminate; try reflexivity.
  rewrite SFmul_finite by assumption. apply rounded_finite.
  apply Z.leb_le in Hx, Hy.
  destruct (valid_finite _ _ _ Vx) as (_ & _ & Dx). destruct (valid_finite _ _ _ Vy) as (_ & _ & Dy).
  pose proof (digits_mul mx my). unfold target_exponent. lia.
Qed.

(** A number between [-b] and [b] has an exponent of at most the exponent of [b]. *)
Lemma SFleb_exponent_le (mb : positive) (eb : Z) (x : spec_float) :
  SFleb (S754_finite true mb eb) x = true -> SFleb x (S754_finite false mb eb) = true ->
  exponent_le eb x = true.
Proof.
  unfold SFleb. destruct x as [s|s| |s m e]; cbn [SFcompare exponent_le].
  - reflexivity.
  - destruct s; discriminate.
  - discriminate.
  - destruct s.
    + intros H _. destruct (Z.compare_spec eb e); try discriminate; apply Z.leb_le; lia.
    + intros _ H. destruct (Z.compare_spec e eb); try discriminate; apply Z.leb_le; lia.
Qed.

(** *** Order *)

Lemma SFleb_finite_pos (a b : positive) (e e' : Z) :
  SFleb (S754_finite false a e) (S754_finite false b e') = true
  <-> e < e' \/ (e = e' /\ Zpos a <= Zpos b).
Proof.
  unfold SFleb. cbn [SFcompare]. destruct (Z.compare_spec e e') as [E|L|G].
  - change (Pos.compare_cont Eq a b) with (Pos.compare a b).
    destruct (Pos.compare_spec a b) as [Eab|Lab|Gab]; split; intros H; try discriminate;
      try reflexivity; try lia.
  - split; [intros _; lia | reflexivity].
  - split; [discriminate | lia].
Qed.

Lemma SFcompare_opp (a b : spec_float) :
  SFcompare (SFopp b) (SFopp a) = SFcompare a b.
Proof.
  destruct a as [sa|sa| |sa ma ea], b as [sb|sb| |sb mb eb]; cbn [SFopp SFcompare];
    try reflexivity; try (destruct sa; reflexivity); try (destruct sb; reflexivity);
    try (destruct sa, sb; reflexivity).
  destruct sa, sb; cbn [negb]; try reflexivity.
  - rewrite (Z.compare_antisym ea eb).
    destruct (ea ?= eb); cbn [CompOpp]; try reflexivity.
    change (Pos.compare_cont Eq mb ma) with (Pos.compare mb ma).
    change (Pos.compare_cont Eq ma mb) with (Pos.compare ma mb).
    now rewrite (Pos.compare_antisym ma mb).
  - rewrite (Z.compare_antisym ea eb).
    destruct (ea ?= eb); cbn [CompOpp]; try reflexivity.
    change (Pos.compare_cont Eq mb ma) with (Pos.compare mb ma).
    change (Pos.compare_cont Eq ma mb) with (Pos.compare ma mb).
    now rewrite (Pos.compare_antisym ma mb), CompOpp_involutive.
Qed.

Lemma SFleb_opp (a b : spec_float) : SFleb (SFopp b) (SFopp a) = SFleb a b.
Proof. unfold SFleb. now rewrite SFcompare_opp. Qed.

Lemma rounded_opp (s : bool) (r F : Z) : rounded (negb s) r F = SFopp (rounded s r F).
Proof.
  unfold rounded. destruct (r =? 0); [reflexivity|].
  destruct (r =? 2 ^ 53); [destruct (F + 1 <=? 971) | destruct (F <=? 971)]; reflexivity.
Qed.

(** The order of two rounded mantissas and their exponents is the order of
    the numbers. *)
Lemma rounded_le (r1 F1 r2 F2 : Z) :
  0 <= r1 <= 2 ^ 53 -> 0 <= r2 <= 2 ^ 53 ->
  (F1 = F2 /\ r1 <= r2) \/ (F1 < F2 /\ 2 ^ 52 <= r2) ->
  SFleb (rounded false r1 F1) (rounded false r2 F2) = true.
Proof.
  change (2 ^ 53) with 9007199254740992. change (2 ^ 52) with 4503599627370496.
  intros H1 H2 H. unfold rounded.
  change (2 ^ 53) with 9007199254740992. change (2 ^ 52) with 4503599627370496.
  destruct (Z.eqb_spec r1 0) as [Z1|N1]; destruct (Z.eqb_spec r2 0) as [Z2|N2];
    destruct (Z.eqb_spec r1 9007199254740992) as [T1|U1];
    destruct (Z.eqb_spec r2 9007199254740992) as [T2|U2];
    destruct (Z.leb_spec (F1 + 1) 971); destruct (Z.leb_spec F1 971);
    destruct (Z.leb_spec (F2 + 1) 971); destruct (Z.leb_spec F2 971);
    try lia; try reflexivity;
    apply SFleb_finite_pos; rewrite ?Z2Pos.id by lia; cbn [Z.to_pos]; lia.
Qed.

Lemma rounded_neg_le_pos (r F r' F' : Z) :
  SFleb (rounded true r F) (rounded false r' F') = true.
Proof.
  unfold rounded.
  destruct (r =? 0), (r' =? 0), (r =? 2 ^ 53), (r' =? 2 ^ 53),
    (F + 1 <=? 971), (F <=? 971), (F' + 1 <=? 971), (F' <=? 971); reflexivity.
Qed.

Lemma zero_le_rounded (s : bool) (r F : Z) :
  SFleb (S754_zero s) (rounded false r F) = true.
Proof.
  unfold rounded.
  destruct (r =? 0), (r =? 2 ^ 53), (F + 1 <=? 971), (F <=? 971); reflexivity.
Qed.

Lemma rounded_le_zero (s : bool) (r F : Z) :
  SFleb (rounded true r F) (S754_zero s) = true.
Proof.
  unfold rounded.
  destruct (r =? 0), (r =? 2 ^ 53), (F + 1 <=? 971), (F <=? 971); reflexivity.
Qed.

Lemma rounded_le_infinity (s : bool) (r F : Z) :
  SFleb (rounded s r F) (S754_infinity false) = true.
Proof.
  unfold rounded.
  destruct s, (r =? 0), (r =? 2 ^ 53), (F + 1 <=? 971), (F <=? 971); reflexivity.
Qed.

Lemma infinity_le_rounded (s : bool) (r F : Z) :
  SFleb (S754_infinity true) (rounded s r F) = true.
Proof.
  unfold rounded.
  destruct s, (r =? 0), (r =? 2 ^ 53), (F + 1 <=? 971), (F <=? 971); reflexivity.
Qed.

(** The exponent of the format follows the order of the numbers. *)
Lemma target_exponent_mono (m1 m2 : positive) (E1 E2 : Z) :
  Zpos m1 * 2 ^ (E1 - Z.min E1 E2) <= Zpos m2 * 2 ^ (E2 - Z.min E1 E2) ->
  target_exponent m1 E1 <= target_exponent m2 E2.
Proof.
  intros V. pose proof (digits2_pos_bounds m1) as D1. pose proof (digits2_pos_bounds m2) as D2.
  set (c := Z.min E1 E2) in *.
  assert (0 <= E1 - c) by (subst c; lia). assert (0 <= E2 - c) by (subst c; lia).
  assert (0 < 2 ^ (E1 - c)) by (apply Z.pow_pos_nonneg; lia).
  assert (0 < 2 ^ (E2 - c)) by (apply Z.pow_pos_nonneg; lia).
  set (d1 := Zpos (digits2_pos m1)) in *. set (d2 := Zpos (digits2_pos m2)) in *.
  assert (0 < d1) by (subst d1; lia). assert (0 < d2) by (subst d2; lia).
  assert (2 ^ (d1 - 1 + (E1 - c)) < 2 ^ (d2 + (E2 - c))) as P.
  { rewrite !Z.pow_add_r by lia.
    apply Z.le_lt_trans with (Zpos m1 * 2 ^ (E1 - c)); [apply Z.mul_le_mono_nonneg_r; lia|].
    apply Z.le_lt_trans with (Zpos m2 * 2 ^ (E2 - c)); [assumption|].
    apply Z.mul_lt_mono_pos_r; lia. }
  apply Z.pow_lt_mono_r_iff in P; [|lia|lia].
  unfold target_exponent. fold d1 d2. lia.
Qed.

(** Rounding keeps the order of two exact numbers [m1 * 2^E1 <= m2 * 2^E2]. *)
Lemma rounded_mono (m1 m2 : positive) (E1 E2 : Z) :
  E1 <= target_exponent m1 E1 -> E2 <= target_exponent m2 E2 ->
  Zpos m1 * 2 ^ (E1 - Z.min E1 E2) <= Zpos m2 * 2 ^ (E2 - Z.min E1 E2) ->
  SFleb (rounded false (rne (Zpos m1) (target_exponent m1 E1 - E1)) (target_exponent m1 E1))
        (rounded false (rne (Zpos m2) (target_exponent m2 E2 - E2)) (target_exponent m2 E2))
  = true.
Proof.
  intros H1 H2 V. pose proof (target_exponent_mono m1 m2 E1 E2 V) as HF.
  pose proof (rounded_mantissa_bounds m1 E1 H1) as B1.
  pose proof (rounded_mantissa_bounds m2 E2 H2) as B2. cbv zeta in B1, B2.
  set (F1 := target_exponent m1 E1) in *. set (F2 := target_exponent m2 E2) in *.
  apply rounded_le; [assumption | assumption |].
  destruct (Z.eq_dec F1 F2) as [E|N].
  - left. split; [assumption|]. rewrite <- E.
    apply rne_mono; try lia.
    assert (0 < 2 ^ (F1 - E1)) by (apply Z.pow_pos_nonneg; lia).
    assert (0 < 2 ^ (F1 - E2)) by (apply Z.pow_pos_nonneg; lia).
    destruct (Z.min_spec E1 E2) as [[Hlt Hc]|[Hge Hc]]; rewrite Hc in V.
    + rewrite Z.sub_diag, Z.pow_0_r, Z.mul_1_r in V.
      replace (F1 - E1) with ((F1 - E2) + (E2 - E1)) by lia.
      rewrite Z.pow_add_r by lia.
      assert (0 < 2 ^ (E2 - E1)) by (apply Z.pow_pos_nonneg; lia). nia.
    + rewrite Z.sub_diag, Z.pow_0_r, Z.mul_1_r in V.
      replace (F1 - E2) with ((F1 - E1) + (E1 - E2)) by lia.
      rewrite Z.pow_add_r by lia.
      assert (0 < 2 ^ (E1 - E2)) by (apply Z.pow_pos_nonneg; lia). nia.
  - right. split; [lia|].
    pose proof (digits2_pos_bounds m2) as D2.
    assert (F2 = Zpos (digits2_pos m2) + E2 - 53) as EF
      by (subst F1 F2; unfold target_exponent in *; lia).
    destruct (rne_spec (Zpos m2) (F2 - E2) ltac:(lia) ltac:(lia)) as (_ & _ & _ & Hq & _).
    apply Z.le_trans with (Zpos m2 / 2 ^ (F2 - E2)); [|assumption].
    assert (0 < 2 ^ (F2 - E2)) by (apply Z.pow_pos_nonneg; lia).
    apply Z.div_le_lower_bound; [lia|].
    rewrite <- Z.pow_add_r by lia.
    replace (F2 - E2 + 52) with (Zpos (digits2_pos m2) - 1) by lia. lia.
Qed.

(** Multiplying by a positive number of the format keeps the order. *)
Lemma SFmul_mono_finite (mr : positive) (er : Z) (m1 m2 : positive) (e1 e2 : Z) :
  valid_binary (S754_finite false mr er) = true ->
  valid_binary (S754_finite false m1 e1) = true ->
  valid_binary (S754_finite false m2 e2) = true ->
  SFleb (S754_finite false m1 e1) (S754_finite false m2 e2) = true ->
  SFleb (SFmul prec emax (S754_finite false mr er) (S754_finite false m1 e1))
        (SFmul prec emax (S754_finite false mr er) (S754_finite false m2 e2)) = true.
Proof.
  intros Vr V1 V2 Hle. rewrite !SFmul_finite by assumption. cbn [xorb].
  destruct (valid_finite _ _ _ Vr) as (Tr & _).
  destruct (valid_finite _ _ _ V1) as (T1 & R1 & D1).
  destruct (valid_finite _ _ _ V2) as (T2 & R2 & D2).
  apply rounded_mono; try (apply product_exponent; assumption).
  apply SFleb_finite_pos in Hle.
  replace (er + e1 - Z.min (er + e1) (er + e2)) with (e1 - Z.min e1 e2) by lia.
  replace (er + e2 - Z.min (er + e1) (er + e2)) with (e2 - Z.min e1 e2) by lia.
  rewrite !Pos2Z.inj_mul, <- !Z.mul_assoc.
  apply Z.mul_le_mono_nonneg_l; [lia|].
  destruct Hle as [Hlt|[Heq Hm]].
  - replace (Z.min e1 e2) with e1 by lia. rewrite Z.sub_diag, Z.pow_0_r, Z.mul_1_r.
    pose proof (digits2_pos_bounds m1) as B1. pose proof (digits2_pos_bounds m2) as B2.
    assert (Zpos (digits2_pos m2) = 53) as E53 by (unfold target_exponent in T2; lia).
    rewrite E53 in B2.
    assert (2 ^ Zpos (digits2_pos m1) <= 2 ^ 53) by (apply Z.pow_le_mono_r; lia).
    assert (2 ^ 1 <= 2 ^ (e2 - e1)) by (apply Z.pow_le_mono_r; lia).
    change (2 ^ (53 - 1)) with 4503599627370496 in B2.
    change (2 ^ 53) with 9007199254740992 in *. change (2 ^ 1) with 2 in *. nia.
  - subst e2. rewrite Z.min_id, Z.sub_diag, Z.pow_0_r. lia.
Qed.

Lemma SFmul_mono (mr : positive) (er : Z) (x y : spec_float) :
  valid_binary (S754_finite false mr er) = true ->
  valid_binary x = true -> valid_binary y = true ->
  SFleb x y = true ->
  SFleb (SFmul prec emax (S754_finite false mr er) x)
        (SFmul prec emax (S754_finite false mr er) y) = true.
Proof.
  intros Vr Vx Vy Hle.
  destruct x as [sx|sx| |sx mx ex], y as [sy|sy| |sy my ey];
    try discriminate Hle;
    try (destruct sx; discriminate Hle);
    try (destruct sy; discriminate Hle);
    try (destruct sx, sy; discriminate Hle).
  - (* zero, zero *) destruct sx, sy; reflexivity.
  - (* zero, infinity *) destruct sx, sy; try discriminate Hle; reflexivity.
  - (* zero, finite *)
    destruct sy; [discriminate Hle|].
    rewrite SFmul_finite by assumption. cbn [SFmul xorb]. apply zero_le_rounded.
  - (* infinity, zero *) destruct sx, sy; try discriminate Hle; reflexivity.
  - (* infinity, infinity *) destruct sx, sy; try discriminate Hle; reflexivity.
  - (* infinity, finite *)
    destruct sx; [|discriminate Hle].
    rewrite SFmul_finite by assumption. cbn [SFmul xorb]. apply infinity_le_rounded.
  - (* finite, zero *)
    destruct sx; [|discriminate Hle].
    rewrite SFmul_finite by assumption. cbn [SFmul xorb]. apply rounded_le_zero.
  - (* finite, infinity *)
    destruct sy; [destruct sx; discriminate Hle|].
    rewrite SFmul_finite by assumption. cbn [SFmul xorb]. apply rounded_le_infinity.
  - (* finite, finite *)
    destruct sx, sy.
    + change (S754_finite true mx ex) with (SFopp (S754_finite false mx ex)).
      change (S754_finite true my ey) with (SFopp (S754_finite false my ey)).
      rewrite !(SFmul_comm (S754_finite false mr er)), !SFmul_opp_l, SFleb_opp.
      rewrite <- !(SFmul_comm (S754_finite false mr er)).
      apply SFmul_mono_finite; try assumption.
      change (SFleb (SFopp (S754_finite true my ey)) (SFopp (S754_finite true mx ex)) = true).
      now rewrite SFleb_opp.
    + rewrite !SFmul_finite by assumption. cbn [xorb]. apply rounded_neg_le_pos.
    + discriminate Hle.
    + now apply SFmul_mono_finite.
Qed.

End Binary64.

(** *** Binary64 arithmetic on the primitive floats *)

Section PrimitiveFloats.
Import HaversineProps.
Local Open Scope float_scope.

Lemma sub_diag (x : float) : finite x = true -> x - x = 0.
Proof.
  intros H. apply Prim2SF_inj. rewrite sub_spec. unfold SF64sub.
  rewrite SFsub_diag by exact H. reflexivity.
Qed.

Lemma sub_swap (x y : float) :
  y - x = - (x - y) \/ (y - x = 0 /\ x - y = 0).
Proof.
  destruct (SFsub_swap (Prim2SF x) (Prim2SF y)) as [H|[H1 H2]].
  - left. apply Prim2SF_inj. rewrite opp_spec, !sub_spec. exact H.
  - right. split; apply Prim2SF_inj; rewrite sub_spec; assumption.
Qed.

Lemma mul_opp_l (x y : float) : (- x) * y = - (x * y).
Proof. apply Prim2SF_inj. rewrite opp_spec, !mul_spec, opp_spec. apply SFmul_opp_l. Qed.

Lemma mul_comm (x y : float) : x * y = y * x.
Proof. apply Prim2SF_inj. rewrite !mul_spec. apply SFmul_comm. Qed.

Lemma div_opp_l (x y : float) : (- x) / y = - (x / y).
Proof. apply Prim2SF_inj. rewrite opp_spec, !div_spec, opp_spec. apply SFdiv_opp_l. Qed.

Lemma opp_involutive (x : float) : - - x = x.
Proof. apply Prim2SF_inj. rewrite !opp_spec. apply SFopp_involutive. Qed.

Lemma exponent_le_finite (b : Z) (x : spec_float) :
  exponent_le b x = true -> sf_finite x = true.
Proof. destruct x; cbn; congruence. Qed.

Lemma finite_exponent_le (x : float) : finite x = true -> exponent_le 971 (Prim2SF x) = true.
Proof.
  unfold finite. pose proof (Prim2SF_valid x) as V.
  destruct (Prim2SF x) as [s|s| |s m e]; cbn; try congruence.
  intros _. destruct (valid_finite _ _ _ V) as (_ & R & _). apply Z.leb_le. lia.
Qed.

Lemma mul_finite (a b : Z) (x y : float) :
  exponent_le a (Prim2SF x) = true -> exponent_le b (Prim2SF y) = true ->
  (a + b <= 917)%Z -> finite (x * y) = true.
Proof.
  intros Hx Hy Hab. unfold finite. rewrite mul_spec.
  apply (SFmul_exponent_le a b); auto using Prim2SF_valid.
Qed.

(** A number between [- b] and [b] is finite, with an exponent of at most
    the exponent of [b]. *)
Lemma between_exponent_le (b x : float) (mb : positive) (eb : Z) :
  Prim2SF b = S754_finite false mb eb ->
  (- b <=? x) = true -> (x <=? b) = true ->
  exponent_le eb (Prim2SF x) = true.
Proof.
  intros Hb H1 H2. rewrite leb_spec in H1, H2. rewrite opp_spec in H1. rewrite Hb in H1, H2.
  exact (SFleb_exponent_le mb eb _ H1 H2).
Qed.

Lemma radians_finite (x : float) : finite x = true -> finite (math_radians x) = true.
Proof.
  intros H. unfold math_radians.
  apply (mul_finite 971 (-58)); [now apply finite_exponent_le | reflexivity | lia].
Qed.

Lemma radians_opp (x : float) : math_radians (- x) = - math_radians x.
Proof. apply mul_opp_l. Qed.

(** Adding a zero of either sign to [+0] gives [+0]. *)
Lemma add_zero_mul_zero (z : float) : finite z = true -> 0 + z * 0 = 0.
Proof.
  intros H. apply Prim2SF_inj. rewrite add_spec, mul_spec. unfold finite in H.
  change (Prim2SF 0) with (S754_zero false).
  destruct (Prim2SF z) as [s|s| |s m e]; try discriminate H; destruct s; reflexivity.
Qed.

Lemma mul_mono (r x y : float) (mr : positive) (er : Z) :
  Prim2SF r = S754_finite false mr er ->
  (x <=? y) = true -> (r * x <=? r * y) = true.
Proof.
  intros Hr H. rewrite leb_spec in *. rewrite !mul_spec. unfold SF64mul. rewrite Hr.
  apply SFmul_mono; auto using Prim2SF_valid.
  rewrite <- Hr. apply Prim2SF_valid.
Qed.

End PrimitiveFloats.

(** *** The distance *)

Section Haversine.
Import HaversineProps.
Local Open Scope float_scope.

Variable rt : PyRuntime.

Lemma valid_coordinate_finite (p : Coordinate) :
  valid_coordinate p = true -> finite (lat p) = true /\ finite (lon p) = true.
Proof.
  unfold valid_coordinate. intros H.
  apply andb_true_iff in H. destruct H as [H H4].
  apply andb_true_iff in H. destruct H as [H H3].
  apply andb_true_iff in H. destruct H as [H1 H2].
  split.
  - apply (exponent_le_finite (-46)).
    apply (between_exponent_le 90 (lat p) 6333186975989760 (-46)); [reflexivity| |exact H2].
    exact H1.
  - apply (exponent_le_finite (-45)).
    apply (between_exponent_le 180 (lon p) 6333186975989760 (-45)); [reflexivity| |exact H4].
    exact H3.
Qed.

(** The distance is the radius times the central angle. *)
Lemma haversine_of_angle (lat1 lon1 lat2 lon2 : pyval) :
  _haversine_distance_m rt lat1 lon1 lat2 lon2
  = result_map (fun c => 6371000 * c) (central_angle rt lat1 lon1 lat2 lon2).
Proof.
  unfold _haversine_distance_m, central_angle.
  repeat match goal with
         | |- context [rbind ?r _] =>
             match r with
             | rbind _ _ => fail 1
             | _ => destruct r; cbn [rbind result_map]; try reflexivity
             end
         end.
Qed.

Hypothesis facts : libm rt.

Lemma cos_of_latitude (x : float) :
  finite x = true ->
  exists y, math_cos rt (math_radians x) = Ok y /\ finite (y * y) = true.
Proof.
  intros H. destruct facts as (_ & _ & _ & _ & Hcos & _).
  destruct (Hcos (math_radians x) (radians_finite x H)) as (y & Hy & L & U).
  exists y. split; [exact Hy|].
  assert (exponent_le (-52) (Prim2SF y) = true) as E
    by (apply (between_exponent_le 1 y 4503599627370496 (-52)); [reflexivity|exact L|exact U]).
  apply (mul_finite (-52) (-52)); [exact E | exact E | lia].
Qed.

(** The half-angle term of a difference does not depend on the order of the
    operands. *)
Lemma half_angle_swap {B} (x y : float) (k : float -> result B) :
  rbind (math_sin rt (math_radians (y - x) / 2)) (fun s => rbind (float_pow rt s 2) k)
  = rbind (math_sin rt (math_radians (x - y) / 2)) (fun s => rbind (float_pow rt s 2) k).
Proof.
  destruct facts as (_ & Hodd & _ & Heven & _).
  destruct (sub_swap x y) as [E|[E1 E2]].
  - rewrite E, radians_opp, div_opp_l, Hodd.
    destruct (math_sin rt (math_radians (x - y) / 2)) as [s|e]; cbn [result_map rbind];
      [now rewrite Heven | reflexivity].
  - now rewrite E1, E2.
Qed.

Lemma haversine_zero (p : Coordinate) :
  valid_coordinate p = true -> haversine rt p p = Ok 0.
Proof.
  intros V. destruct (valid_coordinate_finite p V) as [Flat Flon].
  destruct facts as (Hsin & _ & Hpow & _ & _ & Hasin).
  destruct (cos_of_latitude (lat p) Flat) as (y & Hy & Fy).
  unfold haversine, _haversine_distance_m.
  cbn [py_sub as_number math_arg rbind].
  rewrite (sub_diag _ Flat), (sub_diag _ Flon).
  change (math_radians 0 / 2) with 0.
  rewrite Hsin. cbn [rbind]. rewrite Hpow. cbn [rbind]. rewrite Hy. cbn [rbind].
  rewrite (add_zero_mul_zero _ Fy).
  change (math_sqrt 0) with (Ok 0). cbn [rbind]. rewrite Hasin. reflexivity.
Qed.

Lemma haversine_symmetric (p q : Coordinate) :
  valid_coordinate p = true -> valid_coordinate q = true ->
  haversine rt p q = haversine rt q p.
Proof.
  intros Vp Vq.
  destruct (valid_coordinate_finite p Vp) as [Fp _].
  destruct (valid_coordinate_finite q Vq) as [Fq _].
  destruct (cos_of_latitude (lat p) Fp) as (yp & Hp & _).
  destruct (cos_of_latitude (lat q) Fq) as (yq & Hq & _).
  unfold haversine, _haversine_distance_m.
  cbn [py_sub as_number math_arg rbind].
  rewrite (half_angle_swap (lat p) (lat q)).
  destruct (math_sin rt (math_radians (lat p - lat q) / 2)) as [s|e]; [|reflexivity].
  cbn [rbind]. destruct (float_pow rt s 2) as [h|e]; [|reflexivity].
  cbn [rbind]. rewrite Hp, Hq. cbn [rbind].
  rewrite (half_angle_swap (lon p) (lon q)).
  rewrite (mul_comm yp yq). reflexivity.
Qed.

End Haversine.

Lemma first_order_runtime_libm : HaversineProps.libm HaversineProps.first_order_runtime.
Proof.
  unfold HaversineProps.libm, HaversineProps.first_order_runtime; cbn.
  repeat split.
  - intros x. now rewrite mul_opp_l, (mul_comm x (- x)%float), mul_opp_l, opp_involutive.
  - intros x _. exists 1%float. repeat split.
Qed.

Import HaversineProps.



(** ** Event multipliers *)

(** The multipliers of [plan_alternate_route]: 1.3, 1.2, 1.15 for the
    recognised event types and 1.05 for every other one, the empty string
    included; all of them exceed 1. *)
Lemma event_type_impact_factor (normalized : string) :
  let factor := fst (event_type_impact normalized) in
  (factor = 1.3 \/ factor = 1.2 \/ factor = 1.15 \/ factor = 1.05)%float
  /\ PrimFloat.ltb 1 factor = true.
Proof.
  unfold event_type_impact.
  destruct (existsb (String.eqb normalized) ["road_closure"; "accident"; "construction"]);
    [simpl; split; [tauto | reflexivity]|].
  destruct (existsb (String.eqb normalized) ["protest"; "rally"; "parade"]);
    [simpl; split; [tauto | reflexivity]|].
  destruct (existsb (String.eqb normalized) ["concert"; "sports"; "event"]);
    simpl; split; try tauto; reflexivity.
Qed.

(** The multiplier step of [suggest_text_route]: the distance is multiplied by
    1.2, 1.3 or 1.15 when a keyword is found, and left as it is otherwise. *)
Lemma apply_event_multiplier_cases (event : string) (distance_m : float) (reason : string) :
  let distance' := fst (apply_event_multiplier event distance_m reason) in
  (distance' = distance_m * 1.2 \/ distance' = distance_m * 1.3
   \/ distance' = distance_m * 1.15 \/ distance' = distance_m)%float.
Proof.
  unfold apply_event_multiplier.
  destruct (negb (String.eqb event "")); [|simpl; tauto].
  destruct (any_in _ _); [simpl; tauto|].
  destruct (any_in _ _); [simpl; tauto|].
  destruct (any_in _ _); simpl; tauto.
Qed.

Lemma apply_event_multiplier_no_event (distance_m : float) (reason : string) :
  apply_event_multiplier "" distance_m reason = (distance_m, reason).
Proof. reflexivity. Qed.

(** The event "festival" changes neither the intermediate points nor the two
    ends of the synthesized waypoints. *)
Lemma generate_waypoints_festival (source destination : string) :
  snd (_generate_waypoints source destination "festival")
  = snd (_generate_waypoints source destination "")
  /\ hd "" (fst (fst (_generate_waypoints source destination "festival")))
     = hd "" (fst (fst (_generate_waypoints source destination "")))
  /\ last (fst (fst (_generate_waypoints source destination "festival"))) ""
     = last (fst (fst (_generate_waypoints source destination ""))) "".
Proof.
  unfold _generate_waypoints.
  change (strip (lower "festival")) with "festival".
  change (strip (lower "")) with "".
  change (contains "rally" "festival" || contains "protest" "festival"
          || contains "lalbagh" "festival") with false.
  change (contains "rally" "" || contains "protest" ""
          || contains "lalbagh" "") with false.
  cbv iota.
  repeat match goal with
         | |- context [if ?c then _ else _] => destruct c
         end;
    cbn [app hd last fst snd]; repeat split; reflexivity.
Qed.

(** The distance and duration of the response depend on the estimate only
    through the two places, the mode, the two numbers, the intermediate
    points and the two ends of the waypoints. *)
Lemma finish_numbers_agree {World : Type} (D : Services World)
  (p1 p2 : TextRouteRequest) (e1 e2 : Estimate) (w : World) :
  text_mode p1 = text_mode p2 ->
  source_coords e1 = source_coords e2 ->
  dest_coords e1 = dest_coords e2 ->
  e_distance_m e1 = e_distance_m e2 ->
  e_duration_s e1 = e_duration_s e2 ->
  intermediate_points e1 = intermediate_points e2 ->
  hd "" (e_waypoints e1) = hd "" (e_waypoints e2) ->
  last (e_waypoints e1) "" = last (e_waypoints e2) "" ->
  result_map distance_and_duration (fst (finish_text_route D p1 e1 w))
  = result_map distance_and_duration (fst (finish_text_route D p2 e2 w)).
Proof.
  intros Hm Hs Hd Hdist Hdur Hip Hhd Hlast.
  unfold finish_text_route.
  assert (routing_block D p1 e1 (w, initial_locals e1)
          = routing_block D p2 e2 (w, initial_locals e2)) as ->.
  { unfold routing_block, router_query, initial_locals.
    now rewrite Hm, Hs, Hd, Hdist, Hdur. }
  destruct (routing_block D p2 e2 (w, initial_locals e2)) as [[u|x] [w' l]];
    [|reflexivity].
  cbn [fst]. unfold text_response, fallback_geometry.
  rewrite Hs, Hd, Hip, Hhd, Hlast.
  destruct (negb (truthy (l_geometry l)));
    [destruct (lat_lon (source_coords e2)) as [src|x]; [|reflexivity];
     destruct (lat_lon (dest_coords e2)) as [dst|x]; [|reflexivity]|];
    cbn [rbind fst snd]; unfold build_response; rewrite Hs, Hd;
    repeat match goal with
           | |- context [match ?v with Some _ => _ | None => _ end] => destruct v
           end; reflexivity.
Qed.

(** C6 (evaluation at the failing input). For the event "festival", which
    holds none of the keywords, [suggest_text_route] leaves the estimate as
    it is: the multiplier step returns the distance unchanged, and whatever
    the deployment, the endpoints and the mode, the returned distance and
    duration are those of the same request without an event. The sibling
    handler [plan_alternate_route] picks 1.05 for the same event. *)
Theorem unrecognised_event_gets_no_buffer {World : Type} (D : Services World)
  (src dst : string) (m : TravelMode) (w : World) :
  (forall distance_m reason,
      apply_event_multiplier "festival" distance_m reason = (distance_m, reason))
  /\ fst (event_type_impact (strip (lower "festival"))) = 1.05%float
  /\ result_map distance_and_duration
       (fst (suggest_text_route D
               {| source := src; text_destination := dst;
                  event := "festival"; text_mode := m |} w))
     = result_map distance_and_duration
         (fst (suggest_text_route D
                 {| source := src; text_destination := dst;
                    event := ""; text_mode := m |} w)).
Proof.
  split; [reflexivity|]. split; [reflexivity|].
  unfold suggest_text_route, route_estimate, bind.
  cbn [source text_destination event text_mode].
  destruct (_geocode_location D src w) as [[sc|x] w1]; [|reflexivity].
  destruct (_geocode_location D dst w1) as [[dc|x] w2]; [|reflexivity].
  unfold lift.
  destruct (py_get sc "display" (PStr src)) as [sn|x]; [|reflexivity].
  destruct (py_get dc "display" (PStr dst)) as [dn|x]; [|reflexivity].
  unfold call_generate_waypoints.
  destruct (str_of sn) as [s1|x]; [|reflexivity].
  destruct (str_of dn) as [d1|x]; [|reflexivity].
  cbn [rbind].
  pose proof (generate_waypoints_festival s1 d1) as (Hip & Hhd & Hlast).
  destruct (_generate_waypoints s1 d1 "festival") as [[wp1 r1] ip1].
  destruct (_generate_waypoints s1 d1 "") as [[wp2 r2] ip2].
  cbn [fst snd] in Hip, Hhd, Hlast. subst ip2.
  destruct (lat_lon sc) as [a|x]; [|reflexivity].
  destruct (lat_lon dc) as [b|x]; [|reflexivity].
  destruct (_haversine_distance_m (runtime D) (fst a) (snd a) (fst b) (snd b))
    as [distance_m|x]; [|reflexivity].
  change (apply_event_multiplier "festival" distance_m r1) with (distance_m, r1).
  change (apply_event_multiplier "" distance_m r2) with (distance_m, r2).
  cbv iota beta. unfold ret.
  apply finish_numbers_agree; try reflexivity; assumption.
Qed.

(** ** Provider values and the local estimate in [suggest_text_route] *)

Lemma validate_all_some {A B} (f : A -> option B) (l : list A) :
  (forall x, In x l -> exists y, f x = Some y) ->
  exists ys, validate_all f l = Some ys /\ length ys = length l.
Proof.
  induction l as [|x l IH]; intros H; simpl.
  - exists []. split; reflexivity.
  - destruct (H x (or_introl eq_refl)) as [y ->].
    destruct IH as (ys & -> & Hlen); [intros z Hz; apply H; now right|].
    exists (y :: ys). split; [reflexivity | simpl; now rewrite Hlen].
Qed.

Lemma validate_all_length {A B} (f : A -> option B) (l : list A) (ys : list B) :
  validate_all f l = Some ys -> length ys = length l.
Proof.
  revert ys. induction l as [|x l IH]; intros ys; simpl.
  - intros H. inversion H. reflexivity.
  - destruct (f x); [|discriminate]. destruct (validate_all f l) as [r|]; [|discriminate].
    intros H. inversion H. simpl. now rewrite (IH r eq_refl).
Qed.

Lemma extend_steps_nil (l : Locals) : extend_steps [] l = l.
Proof. destruct l. unfold extend_steps. cbn. now rewrite app_nil_r. Qed.

Lemma extend_steps_app (a b : list pyval) (l : Locals) :
  extend_steps b (extend_steps a l) = extend_steps (a ++ b) l.
Proof. destruct l. unfold extend_steps. cbn. now rewrite app_assoc. Qed.

Section ProviderValues.
Context {World : Type}.
Variable D : Services World.

(** Gathering the steps of the legs leaves the world alone and appends to
    the steps what the legs hold up to the first leg that cannot be read,
    whether it completes or raises. *)
Lemma for_each_steps_gathers (legs : list pyval) (s s' : World * Locals)
  (r : result unit) :
  for_each legs (fun leg =>
     leg_steps <- lift (py_get leg "steps" (PList [])) ;;
     leg_steps <- lift (py_iter leg_steps) ;;
     assign (extend_steps leg_steps))%se s = (r, s') ->
  s' = (fst s, extend_steps (steps_of_legs legs) (snd s)).
Proof.
  revert s. induction legs as [|leg legs IH]; intros s; simpl.
  - unfold ret. intros [= <- <-]. rewrite extend_steps_nil. now destruct s.
  - unfold bind at 1. unfold bind at 1. unfold lift at 1.
    destruct (py_get leg "steps" (PList [])) as [st|x]; cbn [rbind].
    2: { intros [= <- <-]. rewrite extend_steps_nil. now destruct s. }
    unfold bind at 1. unfold lift at 1.
    destruct (py_iter st) as [it|x].
    2: { intros [= <- <-]. rewrite extend_steps_nil. now destruct s. }
    unfold assign, modify. intros H. apply IH in H. rewrite H. cbn [fst snd].
    now rewrite extend_steps_app.
Qed.

Lemma collect_steps_gathers (route : list (string * pyval)) (answer : pyval)
  (s s' : World * Locals) (r : result unit) :
  collect_steps (PDict route) answer s = (r, s') ->
  fst s' = fst s
  /\ l_geometry (snd s') = l_geometry (snd s)
  /\ l_distance_m (snd s') = l_distance_m (snd s)
  /\ l_duration_s (snd s') = l_duration_s (snd s)
  /\ l_steps (snd s') = (l_steps (snd s) ++ gathered_steps (PDict route))%list.
Proof.
  unfold collect_steps, gathered_steps.
  unfold bind at 1. unfold lift at 1.
  destruct (py_get (PDict route) "legs" (PList [])) as [legs|x]; cbn [rbind].
  2: { intros H; inversion H. rewrite app_nil_r. auto. }
  unfold bind at 1. unfold lift at 1.
  destruct (py_iter legs) as [it|x].
  2: { intros H; inversion H. rewrite app_nil_r. auto. }
  unfold bind at 1.
  destruct (for_each it _ s) as [[u|x] s1] eqn:E;
    apply for_each_steps_gathers in E; subst s1.
  - unfold bind, lift.
    destruct (py_get answer "_provider_used" (PStr "unknown")) as [used|x];
      unfold assign, modify; intros H; inversion H; subst; cbn; auto.
  - intros H; inversion H; subst; cbn; auto.
Qed.

(** The routing [try] block never raises. *)
Lemma routing_block_returns (payload : TextRouteRequest) (e : Estimate)
  (s : World * Locals) :
  exists s', routing_block D payload e s = (Ok tt, s').
Proof.
  unfold routing_block, try_except.
  match goal with
  | |- context [match ?body with _ => _ end] => destruct body as [[[]|x] s']
  end; unfold ret; eauto.
Qed.

(** The routing [try] block when the answer holds no first route that is a
    dictionary: nothing is reassigned. *)
Lemma routing_block_no_route (payload : TextRouteRequest) (e : Estimate)
  (q : RouterManager.RouteQuery) (w : World) (l : Locals)
  (answer : pyval) (st : RouterManager.St World) :
  router_query payload e = Ok q ->
  RouterManager.run_get_route (router_manager D) q None w = (Ok answer, st) ->
  first_route answer = None ->
  routing_block D payload e (w, l) = (Ok tt, (RouterManager.world st, l)).
Proof.
  intros Hq Hrun Hnone.
  unfold routing_block, try_except.
  unfold bind at 1. unfold lift at 1. rewrite Hq.
  unfold bind at 1. unfold call_router. cbn [fst snd]. rewrite Hrun.
  destruct (truthy answer) eqn:Ht; [|reflexivity].
  unfold bind at 1. unfold lift at 1.
  destruct (py_get answer "routes" PNone) as [routes|x] eqn:Hr; [|reflexivity].
  cbn [andb]. destruct (truthy routes) eqn:Htr; [|reflexivity].
  destruct answer as [| | | | |?|d]; try discriminate Hr.
  cbn [py_get] in Hr. inversion Hr as [Hroutes]. clear Hr.
  unfold bind at 1. unfold lift at 1. cbn [py_getitem_key].
  cbn [first_route] in Hnone.
  destruct (dict_lookup "routes" d) as [v|]; [|subst routes; discriminate Htr].
  subst v.
  unfold bind at 1. unfold lift at 1.
  destruct (py_getitem_0 routes) as [route|x] eqn:H0; [|reflexivity].
  unfold bind at 1. unfold lift at 1.
  destruct route as [| | | | |?|rd]; try reflexivity.
  exfalso. destruct routes as [| | | |rs|rl|rdict]; try discriminate H0.
  - destruct rs; discriminate H0.
  - destruct rl as [|x rl]; [discriminate H0|]. cbn in H0. inversion H0. subst x.
    discriminate Hnone.
Qed.

(** The routing [try] block when the answer holds a first route: the
    geometry is the route's; the distance becomes what [float] makes of the
    route's entry, the estimate standing in for an absent entry, and stays
    as it was when [float] raises; the duration likewise, once the distance
    was converted; the steps gathered come from the legs of the route. *)
Lemma routing_block_route (payload : TextRouteRequest) (e : Estimate)
  (q : RouterManager.RouteQuery) (w : World) (l : Locals)
  (answer : pyval) (route : list (string * pyval))
  (st : RouterManager.St World) :
  router_query payload e = Ok q ->
  RouterManager.run_get_route (router_manager D) q None w = (Ok answer, st) ->
  first_route answer = Some route ->
  exists l',
    routing_block D payload e (w, l) = (Ok tt, (RouterManager.world st, l'))
    /\ l_geometry l' = geometry_entry route
    /\ l_distance_m l'
       = value_or (distance_read (runtime D) route (l_distance_m l)) (l_distance_m l)
    /\ l_duration_s l'
       = value_or (duration_read (runtime D) route (l_distance_m l) (l_duration_s l))
                  (l_duration_s l)
    /\ (l_steps l' = l_steps l
        \/ l_steps l' = (l_steps l ++ gathered_steps (PDict route))%list).
Proof.
  intros Hq Hrun Hfirst.
  destruct answer as [| | | | |?|answer]; try discriminate Hfirst.
  cbn [first_route] in Hfirst.
  destruct (dict_lookup "routes" answer) as [routes|] eqn:Hroutes;
    [|discriminate Hfirst].
  destruct routes as [| | | | |[|r0 rest]|?]; try discriminate Hfirst.
  destruct r0 as [| | | | |?|r0]; try discriminate Hfirst.
  inversion Hfirst. subst r0. clear Hfirst.
  assert (truthy (PDict answer) = true) as Htruthy
    by (destruct answer; [discriminate | reflexivity]).
  unfold routing_block, try_except.
  unfold bind at 1. unfold lift at 1. rewrite Hq.
  unfold bind at 1. unfold call_router. cbn [fst snd]. rewrite Hrun.
  rewrite Htruthy. unfold bind at 1. unfold lift at 1. unfold py_get at 1.
  rewrite Hroutes. cbn [truthy andb].
  unfold bind at 1. unfold lift at 1. unfold py_getitem_key. rewrite Hroutes.
  unfold bind at 1. unfold lift at 1. cbn [py_getitem_0].
  unfold bind at 1. unfold lift at 1. cbn [py_get].
  fold (geometry_entry route).
  unfold bind at 1. unfold assign at 1, modify at 1. cbn [fst snd].
  unfold bind at 1. unfold get_state at 1.
  unfold bind at 1. unfold lift at 1. cbn [snd set_geometry l_distance_m].
  fold (entry_or route "distance" (l_distance_m l)).
  unfold duration_read, distance_read.
  unfold bind at 1. unfold lift at 1.
  destruct (py_float (runtime D) (entry_or route "distance" (l_distance_m l)))
    as [dist|x]; cbn [rbind value_or].
  2: { eexists. split; [reflexivity|]. cbn. auto. }
  unfold bind at 1. unfold assign at 1, modify at 1. cbn [fst snd].
  unfold bind at 1. unfold get_state at 1.
  unfold bind at 1. unfold lift at 1. cbn [snd set_distance_m set_geometry l_duration_s].
  fold (entry_or route "duration" (l_duration_s l)).
  unfold bind at 1. unfold lift at 1.
  destruct (py_float (runtime D) (entry_or route "duration" (l_duration_s l)))
    as [dur|x]; cbn [value_or].
  2: { eexists. split; [reflexivity|]. cbn. auto. }
  unfold bind at 1. unfold assign at 1, modify at 1. cbn [fst snd].
  match goal with
  | |- context [collect_steps ?r ?a ?s] =>
      destruct (collect_steps r a s) as [[u|x] [w' l']] eqn:E
  end; apply collect_steps_gathers in E; cbn in E;
    destruct E as (Hw & Hg & Hd & Ht & Hs); subst w'.
  - destruct u. exists l'. split; [reflexivity|]. auto.
  - exists l'. unfold ret. split; [reflexivity|]. auto.
Qed.

End ProviderValues.

(** ** The resolved places *)

Lemma geocode_feature_shape (place_name : string) (data answer : pyval) :
  Clients.geocode_feature place_name data = Ok answer ->
  answer <> PNone ->
  exists lat lon short full,
    answer = PDict [("lat", lat); ("lon", lon); ("display", short); ("full_name", full)].
Proof.
  unfold Clients.geocode_feature, rbind.
  destruct (py_getitem_key data "features") as [features|]; [|discriminate].
  destruct (py_getitem_0 features) as [feature|]; [|discriminate].
  destruct (py_get feature "geometry" (PDict [])) as [geometry|]; [|discriminate].
  destruct (py_get geometry "coordinates" (PList [])) as [coordinates|]; [|discriminate].
  destruct (Clients.py_len coordinates) as [n|]; [|discriminate].
  destruct (Nat.leb 2 n); [|intros H Hne; inversion H; subst; now elim Hne].
  destruct (Clients.py_getitem_idx coordinates 0) as [lon|]; [|discriminate].
  destruct (Clients.py_getitem_idx coordinates 1) as [lat|]; [|discriminate].
  destruct (py_get feature "place_name" (PStr place_name)) as [full|]; [|discriminate].
  destruct (py_get feature "text" full) as [short|]; [|discriminate].
  intros H _. inversion H. eauto.
Qed.

(** [MapboxGeocoder.geocode] returns [None] or a dictionary with the four
    entries; with a key it has sent one request, for the trimmed name, and
    without a key none. *)
Lemma geocode_answer_shape {World : Type}
  (http : Clients.http_request -> World -> result MapMyIndia.http_response * World)
  (self : Clients.MapboxGeocoder) (place_name country : string)
  (s s' : Clients.St World) (r : result pyval) :
  Clients.geocode http self place_name country s = (r, s') ->
  (r = Ok PNone
   \/ exists lat lon short full,
        r = Ok (PDict [("lat", lat); ("lon", lon);
                       ("display", short); ("full_name", full)]))
  /\ (if Clients.geocoder_is_configured self
      then Clients.requests s'
           = (Clients.requests s
                ++ [Clients.MapboxGeocode (strip place_name) country
                                          (Clients.geocoder_key self)])%list
      else s' = s /\ r = Ok PNone).
Proof.
  unfold Clients.geocode.
  destruct (Clients.geocoder_is_configured self); cbn [negb];
    [|unfold ret; intros [= <- <-]; auto].
  unfold try_except, bind, Clients.send, lift, ret.
  destruct (http _ (Clients.world s)) as [[resp|x] w'];
    [|intros [= <- <-]; auto].
  destruct (Z.eqb (MapMyIndia.status_code resp) 200); [|intros [= <- <-]; auto].
  destruct (MapMyIndia.json resp) as [data|x]; [|intros [= <- <-]; auto].
  destruct (Clients.has_features data) as [[|]|x];
    [|intros [= <- <-]; auto|intros [= <- <-]; auto].
  destruct (Clients.geocode_feature place_name data) as [answer|x] eqn:Hf;
    [|intros [= <- <-]; auto].
  intros [= <- <-]. split; [|reflexivity].
  destruct answer as [| | | | | |d] eqn:Ea; try (now left);
    right;
    (destruct (geocode_feature_shape place_name data _ Hf) as (la & lo & sh & fu & E);
     [discriminate|]); try discriminate E.
  inversion E. eauto.
Qed.

(** Every place [_geocode_location] returns is a dictionary that starts with
    the two coordinates: a gazetteer row, the geocoder's answer or the
    default. *)
Lemma geocode_location_place {World : Type} (D : Services World)
  (location_name : string) (w w' : World) (r : result pyval) :
  _geocode_location D location_name w = (r, w') ->
  exists place, r = Ok place /\ has_coordinates place.
Proof.
  assert (forall l : Location, has_coordinates (location_dict l)) as Hrow
    by (intros l; unfold has_coordinates, location_dict; eauto).
  assert (has_coordinates (default_place location_name)) as Hdefault
    by (unfold has_coordinates, default_place; eauto).
  unfold _geocode_location.
  destruct (dict_lookup (strip (lower location_name)) LOCATION_DB) as [entry|];
    [unfold ret; intros [= <- <-]; eauto|].
  destruct (partial_match (strip (lower location_name))) as [[k v]|];
    [unfold ret; intros [= <- <-]; eauto|].
  unfold bind, try_except, ret, call_geocoder.
  destruct (mapbox_geocoder_is_configured D); [|intros [= <- <-]; eauto].
  destruct (run_geocode D location_name "in" w) as [answer s'] eqn:E.
  unfold run_geocode in E. apply geocode_answer_shape in E.
  destruct E as [[->|(la & lo & sh & fu & ->)] _]; cbn [truthy];
    intros [= <- <-]; [eauto|].
  eexists. split; [reflexivity|]. unfold has_coordinates. eauto.
Qed.

Lemma place_reads (c : Coercions) (place : pyval) (default : pyval) :
  has_coordinates place ->
  exists at_lat at_lon d name,
    place = PDict d
    /\ lat_lon place = Ok (at_lat, at_lon)
    /\ py_get place "display" default = Ok name
    /\ validate_optional (validate_dict c) place = Some (Some d).
Proof.
  intros (la & lo & rest & ->).
  exists la, lo, (("lat", la) :: ("lon", lo) :: rest).
  eexists. repeat split; reflexivity.
Qed.

Section TextRouteOutcome.
Context {World : Type}.
Variable D : Services World.

(** How the local estimate ends: with the estimate, with [AttributeError]
    when a display name is no string, or with the exception of the
    haversine computation. *)
Lemma route_estimate_outcome (payload : TextRouteRequest) (w : World) :
  exists src dst w1 w2 a b sn dn,
    _geocode_location D (source payload) w = (Ok src, w1)
    /\ _geocode_location D (text_destination payload) w1 = (Ok dst, w2)
    /\ has_coordinates src /\ has_coordinates dst
    /\ lat_lon src = Ok a /\ lat_lon dst = Ok b
    /\ py_get src "display" (PStr (source payload)) = Ok sn
    /\ py_get dst "display" (PStr (text_destination payload)) = Ok dn
    /\ ((route_estimate D payload w = (Raise AttributeError, w2)
         /\ (is_str sn = false \/ is_str dn = false))
        \/ (exists x,
               route_estimate D payload w = (Raise x, w2)
               /\ _haversine_distance_m (runtime D) (fst a) (snd a) (fst b) (snd b)
                  = Raise x)
        \/ (exists s d distance_m,
               sn = PStr s /\ dn = PStr d
               /\ _haversine_distance_m (runtime D) (fst a) (snd a) (fst b) (snd b)
                  = Ok distance_m
               /\ let generated := _generate_waypoints s d (event payload) in
                  let multiplied :=
                    apply_event_multiplier (event payload) distance_m
                                           (snd (fst generated)) in
                  route_estimate D payload w
                  = (Ok {| source_coords := src;
                           dest_coords := dst;
                           e_waypoints := fst (fst generated);
                           e_reason := snd multiplied;
                           intermediate_points := snd generated;
                           e_distance_m := fst multiplied;
                           e_duration_s :=
                             duration_of (fst multiplied)
                                         (_estimate_speed_mps (text_mode payload));
                           co2_kg := _estimate_co2_kg (runtime D) (fst multiplied)
                                                      (text_mode payload) |},
                     w2))).
Proof.
  destruct (_geocode_location D (source payload) w) as [rs w1] eqn:Hs.
  destruct (geocode_location_place D _ _ _ _ Hs) as (src & -> & Hsrc).
  destruct (_geocode_location D (text_destination payload) w1) as [rd w2] eqn:Hd.
  destruct (geocode_location_place D _ _ _ _ Hd) as (dst & -> & Hdst).
  destruct (place_reads (coercions D) src (PStr (source payload)) Hsrc)
    as (sla & slo & sd & sn & _ & Hsl & Hsn & _).
  destruct (place_reads (coercions D) dst (PStr (text_destination payload)) Hdst)
    as (dla & dlo & dd & dn & _ & Hdl & Hdn & _).
  exists src, dst, w1, w2, (sla, slo), (dla, dlo), sn, dn.
  repeat (split; [assumption || reflexivity|]).
  destruct (route_estimate D payload w) as [r w3] eqn:E. revert E.
  unfold route_estimate, bind at 1 2 3 4. rewrite Hs, Hd.
  unfold lift at 1 2. rewrite Hsn, Hdn.
  unfold bind at 1. unfold lift at 1. unfold call_generate_waypoints.
  destruct sn as [| | | |s| |]; cbn [str_of rbind];
    try (intros [= <- <-]; left; split; [reflexivity | left; reflexivity]).
  destruct dn as [| | | |d| |]; cbn [str_of rbind];
    try (intros [= <- <-]; left; split; [reflexivity | right; reflexivity]).
  destruct (_generate_waypoints s d (event payload)) as [[wps rsn] ips] eqn:Eg.
  unfold bind at 1. unfold lift at 1. rewrite Hsl.
  unfold bind at 1. unfold lift at 1. rewrite Hdl.
  unfold bind at 1. unfold lift at 1. cbn [fst snd].
  destruct (_haversine_distance_m (runtime D) sla slo dla dlo) as [distance_m|x].
  - destruct (apply_event_multiplier (event payload) distance_m rsn) as [dm r'] eqn:Em.
    unfold ret. intros [= <- <-].
    right. right. exists s, d, distance_m. repeat (split; [reflexivity|]).
    cbv zeta. rewrite Eg. cbn [fst snd]. rewrite Em. reflexivity.
  - intros [= <- <-]. right. left. exists x. split; reflexivity.
Qed.

End TextRouteOutcome.

(** ** The response *)

Lemma validate_all_app {A B} (f : A -> option B) (a b : list A) (r : list B) :
  validate_all f (a ++ b) = Some r ->
  exists ra rb,
    validate_all f a = Some ra /\ validate_all f b = Some rb /\ r = (ra ++ rb)%list.
Proof.
  revert r. induction a as [|x a IH]; intros r; simpl.
  - intros H. exists [], r. auto.
  - destruct (f x) as [y|]; [|discriminate].
    destruct (validate_all f (a ++ b)) as [r'|]; [|discriminate].
    intros [= <-]. destruct (IH r' eq_refl) as (ra & rb & -> & -> & ->).
    exists (y :: ra), rb. auto.
Qed.

Lemma validate_float_rows (c : Coercions) (points : list Location) :
  validate_all (validate_all (validate_float c))
    (map (fun pt => [PFloat (loc_lat pt); PFloat (loc_lon pt)]) points)
  = Some (map (fun pt => [loc_lat pt; loc_lon pt]) points).
Proof.
  induction points as [|pt points IH]; [reflexivity|].
  cbn [map validate_all validate_float]. now rewrite IH.
Qed.

Lemma lat_lon_dict (coords : pyval) (a : pyval * pyval) :
  lat_lon coords = Ok a -> exists d, coords = PDict d.
Proof.
  unfold lat_lon, py_getitem_key. destruct coords; try discriminate. eauto.
Qed.

Section Response.
Context {World : Type}.
Variable D : Services World.

(** What a response that was built holds. *)
Lemma text_response_fields (e : Estimate) (l : Locals) (resp : TextRouteResponse) :
  text_response D e l = Ok resp ->
  text_distance_meters resp = py_round (runtime D) (l_distance_m l) 2
  /\ text_duration_seconds resp = py_round (runtime D) (l_duration_s l) 1
  /\ text_estimated_co2_kg resp = co2_kg e
  /\ text_waypoints resp = e_waypoints e
  /\ reason resp = e_reason e
  /\ recommended_route resp = join " → " (e_waypoints e)
  /\ validate_str (coercions D) (l_geometry l) = Some (geometry resp).
Proof.
  unfold text_response.
  destruct (fallback_geometry e l) as [drawn|x]; [|discriminate].
  cbn [rbind]. unfold build_response.
  destruct (validate_str (coercions D) (l_geometry l)) as [g|]; [|discriminate].
  repeat match goal with
         | |- context [match ?v with Some _ => _ | None => _ end] =>
             destruct v; [|discriminate]
         end.
  intros [= <-]. cbn. repeat split; reflexivity.
Qed.

(** Once the two places hold their coordinates, the response can fail in its
    validation only. *)
Lemma text_response_raises (e : Estimate) (l : Locals) (x : exn) :
  has_coordinates (source_coords e) ->
  has_coordinates (dest_coords e) ->
  text_response D e l = Raise x ->
  x = ValidationError.
Proof.
  intros (sla & slo & srest & Hs) (dla & dlo & drest & Hd).
  unfold text_response, fallback_geometry. rewrite Hs, Hd.
  destruct (negb (truthy (l_geometry l))); cbn [lat_lon py_getitem_key dict_lookup
    String.eqb Ascii.eqb Bool.eqb rbind fst snd]; unfold build_response;
    repeat match goal with
           | |- context [match ?v with Some _ => _ | None => _ end] => destruct v
           end; congruence.
Qed.

(** The response model accepts float coordinates, a string as geometry and
    dictionaries as steps. *)
Lemma text_response_succeeds (e : Estimate) (l : Locals) :
  float_place (source_coords e) ->
  float_place (dest_coords e) ->
  is_str (l_geometry l) = true ->
  forallb is_dict (l_steps l) = true ->
  exists resp, text_response D e l = Ok resp.
Proof.
  intros (sla & slo & Hs) (dla & dlo & Hd) Hg Hsteps.
  destruct (lat_lon_dict _ _ Hs) as [sd Esd].
  destruct (lat_lon_dict _ _ Hd) as [dd Edd].
  assert (forall more,
             (forall v, In v more -> is_dict v = true) ->
             exists dicts,
               validate_all (validate_dict (coercions D)) (l_steps l ++ more)
               = Some dicts) as Hdicts.
  { intros more Hmore.
    destruct (validate_all_some (validate_dict (coercions D)) (l_steps l ++ more))
      as (dicts & E & _); [|eauto].
    intros v Hv. apply in_app_or in Hv.
    assert (is_dict v = true) as Hv'.
    { destruct Hv as [Hv|Hv]; [|now apply Hmore].
      rewrite forallb_forall in Hsteps. now apply Hsteps. }
    destruct v; try discriminate Hv'. cbn. eauto. }
  destruct (l_geometry l) as [| | | |g| |] eqn:Eg; try discriminate Hg.
  unfold text_response, fallback_geometry. rewrite Eg, Hs, Hd.
  destruct (negb (truthy (PStr g))); cbn [rbind fst snd]; unfold build_response;
    rewrite Eg, Esd, Edd; cbn [validate_str validate_optional validate_dict option_map].
  - destruct (validate_all_some (validate_all (validate_float (coercions D)))
                (([PFloat sla; PFloat slo]
                    :: map (fun pt => [PFloat (loc_lat pt); PFloat (loc_lon pt)])
                           (intermediate_points e))
                   ++ [[PFloat dla; PFloat dlo]])%list) as (path & -> & _).
    { intros row Hrow. apply in_app_or in Hrow.
      destruct Hrow as [[<-|Hrow]|[<-|[]]]; [cbn; eauto | | cbn; eauto].
      apply in_map_iff in Hrow. destruct Hrow as (pt & <- & _). cbn. eauto. }
    destruct (Hdicts
                ([mock_step ("Start from " ++ hd "" (e_waypoints e)) 0 0
                            (PFloat slo) (PFloat sla)
                            ("Start from " ++ hd "" (e_waypoints e))]
                   ++ map (fun pt =>
                             mock_step ("Head toward " ++ display pt) 500 60
                                       (PFloat (loc_lon pt)) (PFloat (loc_lat pt))
                                       ("Pass through " ++ display pt))
                          (intermediate_points e)
                   ++ [mock_step ("Arrive at " ++ last (e_waypoints e) "") 200 30
                                 (PFloat dlo) (PFloat dla)
                                 ("Arrive at " ++ last (e_waypoints e) "")])%list)
      as (dicts & ->).
    { intros v Hv. apply in_app_or in Hv. destruct Hv as [[<-|[]]|Hv]; [reflexivity|].
      apply in_app_or in Hv. destruct Hv as [Hv|[<-|[]]]; [|reflexivity].
      apply in_map_iff in Hv. destruct Hv as (pt & <- & _). reflexivity. }
    eauto.
  - destruct (Hdicts []) as (dicts & E); [intros v []|].
    rewrite app_nil_r in E. rewrite E. cbn [validate_all]. eauto.
Qed.

End Response.

(** ** Provider values and the estimate *)

(** What an estimate that was computed holds. *)
Lemma estimate_facts {World : Type} (D : Services World)
  (payload : TextRouteRequest) (w w1 : World) (e : Estimate) :
  route_estimate D payload w = (Ok e, w1) ->
  has_coordinates (source_coords e)
  /\ has_coordinates (dest_coords e)
  /\ e_duration_s e
     = duration_of (e_distance_m e) (_estimate_speed_mps (text_mode payload))
  /\ co2_kg e = _estimate_co2_kg (runtime D) (e_distance_m e) (text_mode payload).
Proof.
  intros Hest.
  destruct (route_estimate_outcome D payload w)
    as (src & dst & w1' & w2 & a & b & sn & dn & _ & _ & Hsrc & Hdst & _ & _ & _ & _
        & [[H _]|[(x & H & _)|(s & d & dm & _ & _ & _ & H)]]);
    rewrite Hest in H; try discriminate H.
  cbv zeta in H. injection H as -> _. cbn. auto.
Qed.

(** C10 (counterexample). A Google-schema answer holds a route, but the route
    has no ["distance"] entry: under no runtime does the response carry a
    distance given by the provider's route. *)
Lemma google_answer_gives_no_distance :
  ~ (exists rt,
        provider_values_always_returned (services rt google_manager)
          rally_request rally_estimate 0).
Proof.
  intros [rt H].
  destruct (H _ (dict_set "_provider_used" (PStr "google") google_answer)
              {| RouterManager.world := 1; RouterManager.invoked := [GOOGLE_MAPS] |}
              [("summary", PStr "Hosur Rd");
               ("legs", PList [PDict [("distance", PDict [("text", PStr "7.4 km");
                                                          ("value", PInt 7421)]);
                                      ("duration", PDict [("text", PStr "15 mins");
                                                          ("value", PInt 913)]);
                                      ("steps", PList [])]]);
               ("overview_polyline", PDict [("points", PStr "_p~iF~ps|U")])]
              [] eq_refl eq_refl eq_refl)
    as (d & t & d' & t' & resp & w' & Hd & _).
  discriminate Hd.
Qed.

(** C10 (amended). In [suggest_text_route], once the local estimate is
    computed and the manager has answered: when the answer holds a first
    route that is a dictionary, the distance is what [float] makes of
    [route.get("distance", estimate)], and the estimate when [float] raises;
    the duration is what [float] makes of [route.get("duration", estimate)]
    once the distance was converted, and the estimate otherwise; when the
    answer holds no such route (every provider failed, or the answer has
    another shape), both are the event-multiplied estimate. The handler
    then either returns a response with these two numbers, rounded to 2 and
    to 1 places, or raises [ValidationError]; it returns when the two places
    carry float coordinates and the route, if any, fits the response model
    (a string as geometry, dictionaries as steps). *)
Theorem provider_values_or_estimate {World : Type} (D : Services World)
  (payload : TextRouteRequest) (w w1 : World) (e : Estimate)
  (q : RouterManager.RouteQuery) (answer : pyval) (st : RouterManager.St World) :
  route_estimate D payload w = (Ok e, w1) ->
  router_query payload e = Ok q ->
  RouterManager.run_get_route (router_manager D) q None w1 = (Ok answer, st) ->
  let distance :=
    match first_route answer with
    | Some route =>
        value_or (distance_read (runtime D) route (e_distance_m e)) (e_distance_m e)
    | None => e_distance_m e
    end in
  let duration :=
    match first_route answer with
    | Some route =>
        value_or (duration_read (runtime D) route (e_distance_m e) (e_duration_s e))
                 (e_duration_s e)
    | None => e_duration_s e
    end in
  (suggest_text_route D payload w = (Raise ValidationError, RouterManager.world st)
   \/ exists resp,
        suggest_text_route D payload w = (Ok resp, RouterManager.world st)
        /\ text_distance_meters resp = py_round (runtime D) distance 2
        /\ text_duration_seconds resp = py_round (runtime D) duration 1)
  /\ (float_place (source_coords e) ->
      float_place (dest_coords e) ->
      match first_route answer with
      | Some route => fits_schema route
      | None => True
      end ->
      exists resp, suggest_text_route D payload w = (Ok resp, RouterManager.world st)).
Proof.
  intros Hest Hq Hrun distance duration.
  destruct (estimate_facts D payload w w1 e Hest) as (Hsrc & Hdst & _ & _).
  assert (exists l,
             suggest_text_route D payload w
             = (text_response D e l, RouterManager.world st)
             /\ l_distance_m l = distance
             /\ l_duration_s l = duration
             /\ (match first_route answer with
                 | Some route => fits_schema route
                 | None => True
                 end ->
                 is_str (l_geometry l) = true /\ forallb is_dict (l_steps l) = true))
    as (l & Hrun' & Hd & Ht & Hfit).
  { unfold suggest_text_route, bind. rewrite Hest. unfold finish_text_route.
    subst distance duration.
    destruct (first_route answer) as [route|] eqn:Hfirst.
    - destruct (routing_block_route D payload e q w1 (initial_locals e) answer route st
                  Hq Hrun Hfirst) as (l & -> & Hg & Hd & Ht & Hs).
      exists l. split; [reflexivity|]. split; [exact Hd|]. split; [exact Ht|].
      intros [Hstr Hdicts]. rewrite Hg. split; [exact Hstr|].
      destruct Hs as [-> | ->]; [reflexivity | exact Hdicts].
    - rewrite (routing_block_no_route D payload e q w1 _ answer st Hq Hrun Hfirst).
      exists (initial_locals e).
      split; [reflexivity|]. split; [reflexivity|]. split; [reflexivity|].
      intros _. split; reflexivity. }
  split.
  - rewrite Hrun'. destruct (text_response D e l) as [resp|x] eqn:E.
    + right. exists resp. split; [reflexivity|].
      destruct (text_response_fields D e l resp E) as (H1 & H2 & _).
      rewrite H1, H2, Hd, Ht. split; reflexivity.
    + left. now rewrite (text_response_raises D e l x Hsrc Hdst E).
  - intros Hfs Hfd Hroute. destruct (Hfit Hroute) as [Hstr Hdicts].
    destruct (text_response_succeeds D e l Hfs Hfd Hstr Hdicts) as [resp E].
    exists resp. now rewrite Hrun', E.
Qed.

(** The rally request against OSRM, whose route carries both entries: the
    response returns OSRM's 7421.3 m and 913.4 s, not the estimate. *)
Lemma provider_values_or_estimate_witness :
  exists resp,
    suggest_text_route (services small_angle_runtime osrm_manager) rally_request 0
    = (Ok resp, 1)
    /\ text_distance_meters resp = 7421.3%float
    /\ text_duration_seconds resp = 913.4%float.
Proof.
  destruct (provider_values_or_estimate
              (services small_angle_runtime osrm_manager) rally_request 0 0
              rally_estimate
              {| RouterManager.start_lat := PFloat 12.9166%float;
                 RouterManager.start_lon := PFloat 77.6101%float;
                 RouterManager.end_lat := PFloat 12.9716%float;
                 RouterManager.end_lon := PFloat 77.5946%float;
                 RouterManager.mode := "car" |}
              (PDict (dict_set "_provider_used" (PStr "osrm") sample_route))
              {| RouterManager.world := 1; RouterManager.invoked := [OSRM] |}
              eq_refl eq_refl eq_refl)
    as [[Hfail|(resp & Hrun & Hd & Ht)] _].
  - discriminate Hfail.
  - exists resp. split; [exact Hrun|]. split; [exact Hd | exact Ht].
Defined.

(* ===================================================================== *)
(** * Further properties of the configuration and the router *)
(* ===================================================================== *)

From Stdlib Require Import Sorting.Permutation.

Lemma moved_to_front (p : RoutingProvider) (l : list RoutingProvider) :
  NoDup l -> In p l ->
  Permutation (p :: filter (fun x => negb (provider_eqb x p)) l) l.
Proof.
  induction l as [|a l IH]; intros Hnd Hin; [destruct Hin|].
  inversion Hnd as [|? ? Hna Hnd']; subst. simpl.
  destruct (provider_eq_dec a p) as [->|Hne].
  - assert (provider_eqb p p = true) as -> by (destruct p; reflexivity). simpl.
    apply perm_skip.
    assert (filter (fun x => negb (provider_eqb x p)) l = l) as ->; [|reflexivity].
    clear IH Hnd Hin Hnd'. induction l as [|b l IHl]; [reflexivity|]. simpl.
    destruct (provider_eq_dec b p) as [->|Hb]; [elim Hna; now left|].
    assert (provider_eqb b p = false) as ->
      by (destruct b, p; try reflexivity; now elim Hb).
    simpl. f_equal. apply IHl. intros H. apply Hna. now right.
  - assert (provider_eqb a p = false) as ->
      by (destruct a, p; try reflexivity; now elim Hne).
    simpl. destruct Hin as [->|Hin]; [now elim Hne|].
    eapply perm_trans; [apply perm_swap|]. apply perm_skip. now apply IH.
Qed.

(** X1. The fallback chain holds exactly the configured providers: a
    provider is in the chain iff it is configured, so an unconfigured
    provider, preferred or not, never enters it; the chain is a rearrangement
    of [get_available_providers], of the same length, and OSRM is always
    available. *)
Theorem chain_holds_the_configured (cfg : RoutingConfig) :
  (forall p, In p (get_fallback_chain cfg) <-> is_provider_configured cfg p = true)
  /\ Permutation (get_fallback_chain cfg) (get_available_providers cfg)
  /\ length (get_fallback_chain cfg) = length (get_available_providers cfg)
  /\ In OSRM (get_available_providers cfg).
Proof.
  assert (Permutation (get_fallback_chain cfg) (get_available_providers cfg)) as HP.
  { apply NoDup_Permutation.
    - apply chain_nodup.
    - unfold get_available_providers. apply NoDup_filter. unfold all_providers.
      repeat (constructor; [simpl; intuition discriminate|]); constructor.
    - intros p. rewrite chain_membership.
      unfold get_available_providers. rewrite filter_In.
      split; [intros H; split; [destruct p; simpl; tauto | exact H] | tauto]. }
  split; [intros p; apply chain_membership|].
  split; [exact HP|]. split; [now apply Permutation_length|].
  unfold get_available_providers. apply filter_In. split; [simpl; tauto | reflexivity].
Qed.

(** X2. Reading the preferred provider from the environment: the setting is
    matched against the four provider names regardless of letter case; any
    other value, the empty string included, falls back to OSRM, as does an
    unset variable. *)
Theorem preferred_provider_from_environment (env : Environ) :
  let setting := lower (getenv (ROUTING_PROVIDER env) "osrm") in
  (forall p, setting = value p -> preferred_provider (Config.init env) = p)
  /\ ((forall p, setting <> value p) -> preferred_provider (Config.init env) = OSRM)
  /\ (ROUTING_PROVIDER env = None -> preferred_provider (Config.init env) = OSRM).
Proof.
  cbv zeta. split; [|split].
  - intros p H. unfold Config.init. cbn [preferred_provider]. rewrite H.
    destruct p; reflexivity.
  - intros H. unfold Config.init. cbn [preferred_provider].
    assert (forall p, String.eqb (value p)
                        (lower (getenv (ROUTING_PROVIDER env) "osrm")) = false) as Hne
      by (intros p; apply String.eqb_neq; intros E; exact (H p (eq_sym E))).
    unfold provider_of_value, all_providers. cbn [find].
    now rewrite (Hne MAPBOX), (Hne GOOGLE_MAPS), (Hne MAPMYINDIA), (Hne OSRM).
  - intros H. unfold Config.init. cbn [preferred_provider]. rewrite H. reflexivity.
Qed.

Section RouterFacts.
Context {World : Type}.
Variables (cfg : RoutingConfig) (c1 c2 c3 c4 : RouterManager.Client World).

Let self : RouterManager.RouterManager World := RouterManager.init cfg c1 c2 c3 c4.

(** Every provider has a client in an initialised manager. *)
Lemma init_has_every_client (p : RoutingProvider) :
  exists client,
    RouterManager.providers_lookup p (RouterManager.providers self) = Ok client.
Proof. destruct p; simpl; eauto. Qed.

Lemma provider_order_permutes_chain (preferred : option RoutingProvider) :
  Permutation (RouterManager.provider_order self preferred)
              (RouterManager.fallback_chain self).
Proof.
  unfold RouterManager.provider_order.
  cbn [RouterManager.config RouterManager.fallback_chain self RouterManager.init].
  destruct preferred as [p|]; [|reflexivity].
  destruct (is_provider_configured cfg p) eqn:E; [|reflexivity].
  apply moved_to_front; [apply chain_nodup|].
  rewrite get_fallback_chain_eq, in_app_iff, filter_In.
  destruct (provider_eq_dec p (preferred_provider cfg)) as [<-|Hne].
  - left. rewrite E. now left.
  - right. split; [destruct p; simpl; tauto|]. rewrite E, andb_true_r.
    destruct p, (preferred_provider cfg); try reflexivity; now elim Hne.
Qed.

(** X3. A per-request override only reorders: the effective order is a
    rearrangement of the fallback chain, it starts with the override when
    the override is configured, and an unconfigured override is ignored. *)
Theorem override_only_reorders (preferred : option RoutingProvider) :
  Permutation (RouterManager.provider_order self preferred)
              (RouterManager.fallback_chain self)
  /\ (forall p, preferred = Some p -> is_provider_configured cfg p = true ->
                hd_error (RouterManager.provider_order self preferred) = Some p)
  /\ (forall p, preferred = Some p -> is_provider_configured cfg p = false ->
                RouterManager.provider_order self preferred
                = RouterManager.fallback_chain self).
Proof.
  split; [apply provider_order_permutes_chain|].
  unfold RouterManager.provider_order.
  cbn [RouterManager.config RouterManager.fallback_chain self RouterManager.init].
  split; intros p -> E; now rewrite E.
Qed.

(** What one run of the loop leaves behind, for any clients: the providers
    invoked are a prefix of the order; the answer is [None] once the order is
    exhausted, and otherwise the stamped truthy answer of the provider
    invoked last. *)
Lemma try_providers_outcome (q : RouterManager.RouteQuery)
  (order : list RoutingProvider) (s s' : RouterManager.St World) (r : result pyval) :
  RouterManager.try_providers self order q s = (r, s') ->
  exists pre rest,
    order = (pre ++ rest)%list
    /\ RouterManager.invoked s' = (RouterManager.invoked s ++ pre)%list
    /\ ((r = Ok PNone /\ rest = [])
        \/ (exists pre' p v,
               pre = (pre' ++ [p])%list /\ truthy v = true
               /\ r = Ok (RouterManager.stamp_provider p v))).
Proof.
  revert s. induction order as [|p order IH]; intros s.
  - simpl. unfold ret. intros H. inversion H; subst.
    exists [], [].
    split; [reflexivity|]. split; [now rewrite app_nil_r|]. left. split; reflexivity.
  - simpl. unfold bind at 1.
    destruct (init_has_every_client p) as [client Hl].
    destruct s as [w log].
    destruct (client q w) as [r0 w1] eqn:Hc.
    destruct r0 as [v|e]; [destruct (truthy v) eqn:Hv|].
    + rewrite (attempt_success self q p client v w w1 log Hl Hc Hv).
      unfold ret. intros H. inversion H; subst.
      exists [p], order. simpl. split; [reflexivity|]. split; [reflexivity|].
      right. exists [], p, v. split; [reflexivity|]. split; [exact Hv | reflexivity].
    + rewrite (attempt_failure self q p client (Ok v) w w1 log Hl Hc Hv).
      intros H. apply IH in H. destruct H as (pre & rest & Ho & Hi & Hr).
      exists (p :: pre), rest. simpl in Hi |- *. rewrite <- app_assoc in Hi.
      split; [now rewrite Ho|]. split; [exact Hi|].
      destruct Hr as [Hr|(pre' & p' & v' & Hp & Ht & Hr)]; [left; exact Hr|].
      right. exists (p :: pre'), p', v'. rewrite Hp.
      split; [reflexivity|]. split; assumption.
    + rewrite (attempt_failure self q p client (Raise e) w w1 log Hl Hc I).
      intros H. apply IH in H. destruct H as (pre & rest & Ho & Hi & Hr).
      exists (p :: pre), rest. simpl in Hi |- *. rewrite <- app_assoc in Hi.
      split; [now rewrite Ho|]. split; [exact Hi|].
      destruct Hr as [Hr|(pre' & p' & v' & Hp & Ht & Hr)]; [left; exact Hr|].
      right. exists (p :: pre'), p', v'. rewrite Hp.
      split; [reflexivity|]. split; assumption.
Qed.

Lemma stamp_keeps_truthy (p : RoutingProvider) (v : pyval) :
  truthy v = true -> truthy (RouterManager.stamp_provider p v) = true.
Proof.
  destruct v as [| | | | | |d]; try (intros H; exact H).
  intros _. unfold RouterManager.stamp_provider, truthy.
  destruct d as [|[k x] d]; [reflexivity|]. cbn [dict_set].
  destruct (String.eqb "_provider_used" k); reflexivity.
Qed.

(** X4. Whatever the providers answer, [get_route] asks them strictly in the
    effective order and stops at the first success: the providers invoked are
    a prefix of the order; the answer is either [None], and then the whole
    order was asked, or a truthy value (never an empty dictionary). *)
Theorem get_route_asks_a_prefix (q : RouterManager.RouteQuery)
  (preferred : option RoutingProvider) (w : World) :
  let run := RouterManager.run_get_route self q preferred w in
  exists answer rest,
    fst run = Ok answer
    /\ RouterManager.provider_order self preferred
       = (RouterManager.invoked (snd run) ++ rest)%list
    /\ (answer = PNone -> rest = [])
    /\ (answer <> PNone -> truthy answer = true).
Proof.
  cbv zeta. unfold RouterManager.run_get_route, RouterManager.get_route.
  destruct (RouterManager.try_providers self
              (RouterManager.provider_order self preferred) q
              {| RouterManager.world := w; RouterManager.invoked := [] |})
    as [r s'] eqn:E.
  destruct (try_providers_outcome q _ _ _ _ E) as (pre & rest & Ho & Hi & Hr).
  simpl in Hi |- *.
  destruct Hr as [[-> ->]|(pre' & p & v & Hp & Ht & ->)].
  - exists PNone, []. rewrite Hi. split; [reflexivity|]. split; [exact Ho|].
    split; [reflexivity | intros H; now elim H].
  - exists (RouterManager.stamp_provider p v), rest. rewrite Hi.
    split; [reflexivity|]. split; [exact Ho|]. split.
    + intros H. pose proof (stamp_keeps_truthy p v Ht) as Hs. rewrite H in Hs.
      discriminate.
    + intros _. now apply stamp_keeps_truthy.
Qed.

(** X5. The provenance tag is truthful: when [get_route] returns a
    dictionary, its ["_provider_used"] entry holds the name of the provider
    invoked last, even if that provider's answer already carried such an
    entry. *)
Theorem provider_tag_names_last_invoked (q : RouterManager.RouteQuery)
  (preferred : option RoutingProvider) (w : World) (d : list (string * pyval))
  (st : RouterManager.St World) :
  RouterManager.run_get_route self q preferred w = (Ok (PDict d), st) ->
  exists earlier p,
    RouterManager.invoked st = (earlier ++ [p])%list
    /\ dict_lookup "_provider_used" d = Some (PStr (value p)).
Proof.
  intros Hrun. unfold RouterManager.run_get_route, RouterManager.get_route in Hrun.
  destruct (try_providers_outcome q _ _ _ _ Hrun) as (pre & rest & Ho & Hi & Hr).
  simpl in Hi.
  destruct Hr as [[Hr _]|(pre' & p & v & Hp & Ht & Hr)]; [discriminate|].
  exists pre', p. split; [now rewrite Hi, Hp|].
  destruct v as [| | | | | |d0]; simpl in Hr; try discriminate.
  inversion Hr; subst. apply dict_lookup_set.
Qed.

(** X6. An unconfigured provider is never asked: every provider invoked by
    [get_route] is configured, with or without an override. *)
Theorem only_configured_providers_are_invoked (q : RouterManager.RouteQuery)
  (preferred : option RoutingProvider) (w : World) :
  Forall (fun p => is_provider_configured cfg p = true)
         (RouterManager.invoked (snd (RouterManager.run_get_route self q preferred w))).
Proof.
  unfold RouterManager.run_get_route, RouterManager.get_route.
  destruct (RouterManager.try_providers self
              (RouterManager.provider_order self preferred) q
              {| RouterManager.world := w; RouterManager.invoked := [] |})
    as [r s'] eqn:E.
  destruct (try_providers_outcome q _ _ _ _ E) as (pre & rest & Ho & Hi & _).
  simpl in Hi |- *. rewrite Hi. apply Forall_forall. intros p Hin.
  assert (In p (get_fallback_chain cfg)) as Hchain.
  { apply (Permutation_in p (provider_order_permutes_chain preferred)).
    rewrite Ho. apply in_or_app. now left. }
  revert Hchain. rewrite get_fallback_chain_eq, in_app_iff, filter_In.
  intros [H|[_ H]].
  - destruct (is_provider_configured cfg (preferred_provider cfg)) eqn:Epref;
      [|destruct H]. destruct H as [<-|[]]. exact Epref.
  - apply andb_prop in H. tauto.
Qed.

End RouterFacts.

(** X7. The status report hides the credentials: two deployments whose
    providers are configured alike and whose preferred provider is the same
    report the same status, whatever the keys, ids and secrets are. *)
Theorem status_hides_credentials {World : Type} (cfg1 cfg2 : RoutingConfig)
  (c1 c2 c3 c4 : RouterManager.Client World) :
  (forall p, is_provider_configured cfg1 p = is_provider_configured cfg2 p) ->
  preferred_provider cfg1 = preferred_provider cfg2 ->
  RouterManager.get_provider_status (RouterManager.init cfg1 c1 c2 c3 c4)
  = RouterManager.get_provider_status (RouterManager.init cfg2 c1 c2 c3 c4).
Proof.
  intros Hconf Hpref. unfold RouterManager.get_provider_status.
  cbn [RouterManager.config RouterManager.fallback_chain RouterManager.init].
  rewrite !get_fallback_chain_eq. unfold get_available_providers, all_providers.
  cbn [filter map]. rewrite Hpref.
  rewrite (Hconf MAPBOX), (Hconf GOOGLE_MAPS), (Hconf MAPMYINDIA), (Hconf OSRM).
  rewrite (Hconf (preferred_provider cfg2)). reflexivity.
Qed.

(** Two deployments that differ in every secret report the same status. *)
Lemma status_hides_credentials_witness :
  RouterManager.get_provider_status
    (RouterManager.init (Config.init mapbox_preferred_env)
       unreachable_client unconfigured_client unconfigured_client answering_client)
  = RouterManager.get_provider_status
      (RouterManager.init
         (Config.init {| MAPBOX_API_KEY := Some "pk.other";
                         GOOGLE_MAPS_API_KEY := Some "AIza.other";
                         MAPMYINDIA_API_KEY := None;
                         MAPMYINDIA_CLIENT_ID := Some "id-without-secret";
                         MAPMYINDIA_CLIENT_SECRET := None;
                         OSRM_BASE_URL := Some "http://localhost:5000";
                         ROUTING_PROVIDER := Some "MAPBOX" |})
         unreachable_client unconfigured_client unconfigured_client answering_client).
Proof.
  apply (status_hides_credentials (World := nat)).
  - intros p. destruct p; reflexivity.
  - reflexivity.
Defined.

(** The tag of an answer that already carried a forged ["_provider_used"]
    entry: OSRM answered, and the entry names OSRM. *)
Lemma provider_tag_names_last_invoked_witness :
  exists earlier p,
    [OSRM] = (earlier ++ [p])%list
    /\ dict_lookup "_provider_used"
         [("_provider_used", PStr "osrm"); ("routes", PList [PDict []])]
       = Some (PStr (value p)).
Proof.
  apply (provider_tag_names_last_invoked (World := nat)
           (Config.init no_key_env)
           unconfigured_client unconfigured_client unconfigured_client
           (fun _ w => (Ok (PDict [("_provider_used", PStr "mapbox");
                                   ("routes", PList [PDict []])]), S w))
           sample_query None 0
           [("_provider_used", PStr "osrm"); ("routes", PList [PDict []])]
           {| RouterManager.world := 1; RouterManager.invoked := [OSRM] |}).
  reflexivity.
Defined.

(* ===================================================================== *)
(** * Further properties of the provider clients *)
(* ===================================================================== *)

Section MapMyIndiaRequests.
Context {World : Type}.
Variable http : MapMyIndia.http_request -> World -> result MapMyIndia.http_response * World.

(** X8. With an API key, [MapMyIndiaClient.get_route] sends exactly one
    request, the routing request with the coordinates in longitude, latitude
    order, and never the token request; it returns the parsed body when the
    status is 200 and [None] for any other status, an unparsable body or a
    transport failure; the travel mode has no influence. *)
Theorem mapmyindia_key_sends_one_route_request (c : MapMyIndia.MapMyIndiaClient)
  (start_lat start_lon end_lat end_lon : float) (mode : string) (w : World)
  (sent : list MapMyIndia.http_request) :
  truthy_str (MapMyIndia.api_key c) = true ->
  MapMyIndia.is_configured c = true ->
  let request := MapMyIndia.RouteGet (MapMyIndia.api_key c)
                                     start_lon start_lat end_lon end_lat in
  MapMyIndia.get_route http start_lat start_lon end_lat end_lon mode
    {| MapMyIndia.self := c; MapMyIndia.world := w; MapMyIndia.requests := sent |}
  = (Ok match fst (http request w) with
        | Ok resp =>
            if Z.eqb (MapMyIndia.status_code resp) 200
            then match MapMyIndia.json resp with
                 | Ok data => data
                 | Raise _ => PNone
                 end
            else PNone
        | Raise _ => PNone
        end,
     {| MapMyIndia.self := c;
        MapMyIndia.world := snd (http request w);
        MapMyIndia.requests := (sent ++ [request])%list |}).
Proof.
  intros Hkey Hconf request.
  unfold MapMyIndia.get_route, bind at 1, get_state. cbn [MapMyIndia.self].
  rewrite Hconf, Hkey. cbn [negb].
  unfold bind, try_except, MapMyIndia.send, lift, ret.
  cbn [MapMyIndia.self MapMyIndia.world MapMyIndia.requests].
  fold request. destruct (http request w) as [[resp|e] w']; [|reflexivity].
  cbn [fst snd]. destruct (Z.eqb (MapMyIndia.status_code resp) 200); [|reflexivity].
  destruct (MapMyIndia.json resp); reflexivity.
Qed.

(** X9. The token cache of [_get_token] has no expiry: once a call has
    returned a truthy token, the next call returns the same token without
    sending any request and without changing the client, whatever the
    network would answer. *)
Theorem token_is_cached_for_good (s s1 : MapMyIndia.St World) (t : pyval) :
  MapMyIndia._get_token http s = (Ok t, s1) ->
  truthy t = true ->
  MapMyIndia._get_token http s1 = (Ok t, s1).
Proof.
  unfold MapMyIndia._get_token, bind at 1, get_state.
  destruct (truthy_str (MapMyIndia.api_key (MapMyIndia.self s))) eqn:Hkey;
    [unfold ret; intros H; inversion H; subst; discriminate|].
  destruct (negb (truthy_str (MapMyIndia.client_id (MapMyIndia.self s)))
            || negb (truthy_str (MapMyIndia.client_secret (MapMyIndia.self s))))
    eqn:Hcred; [unfold ret; intros H; inversion H; subst; discriminate|].
  destruct (truthy (MapMyIndia.token (MapMyIndia.self s))) eqn:Hcached.
  - unfold ret. intros H Ht. inversion H; subst.
    unfold bind, get_state. now rewrite Hkey, Hcred, Hcached.
  - unfold bind, try_except, MapMyIndia.send, lift, ret, MapMyIndia.set_token, modify.
    destruct (http _ (MapMyIndia.world s)) as [[resp|e] w'];
      [|intros H; inversion H; subst; discriminate].
    destruct (Z.eqb (MapMyIndia.status_code resp) 200);
      [|intros H; inversion H; subst; discriminate].
    destruct (MapMyIndia.json resp) as [data|e];
      [|intros H; inversion H; subst; discriminate].
    destruct (py_get data "access_token" PNone) as [t'|e];
      [|intros H; inversion H; subst; discriminate].
    intros H Ht. inversion H; subst. cbn [MapMyIndia.self MapMyIndia.with_token
      MapMyIndia.api_key MapMyIndia.client_id MapMyIndia.client_secret MapMyIndia.token].
    now rewrite Hkey, Hcred, Ht.
Qed.

(** [_get_token] sends at most one request. *)
Lemma get_token_sends_at_most_one (s : MapMyIndia.St World) :
  exists t s1 sent,
    MapMyIndia._get_token http s = (t, s1)
    /\ MapMyIndia.requests s1 = (MapMyIndia.requests s ++ sent)%list
    /\ (length sent <= 1)%nat.
Proof.
  assert (forall (t : result pyval) (s1 : MapMyIndia.St World) r,
             MapMyIndia.requests s1 = (MapMyIndia.requests s ++ [r])%list ->
             exists t' s1' sent,
               (t, s1) = (t', s1')
               /\ MapMyIndia.requests s1' = (MapMyIndia.requests s ++ sent)%list
               /\ (length sent <= 1)%nat) as Hone.
  { intros t s1 r H. exists t, s1, [r]. split; [reflexivity|].
    split; [exact H | simpl; lia]. }
  assert (forall (t : result pyval),
             exists t' s1' sent,
               (t, s) = (t', s1')
               /\ MapMyIndia.requests s1' = (MapMyIndia.requests s ++ sent)%list
               /\ (length sent <= 1)%nat) as Hnone.
  { intros t. exists t, s, []. split; [reflexivity|].
    split; [now rewrite app_nil_r | simpl; lia]. }
  unfold MapMyIndia._get_token, bind at 1, get_state.
  destruct (truthy_str (MapMyIndia.api_key (MapMyIndia.self s))); [apply Hnone|].
  destruct (negb _ || negb _); [apply Hnone|].
  destruct (truthy (MapMyIndia.token (MapMyIndia.self s))); [apply Hnone|].
  unfold bind, try_except, MapMyIndia.send, lift, ret, MapMyIndia.set_token, modify.
  destruct (http _ (MapMyIndia.world s)) as [[resp|e] w'];
    [|eapply Hone; reflexivity].
  destruct (Z.eqb (MapMyIndia.status_code resp) 200); [|eapply Hone; reflexivity].
  destruct (MapMyIndia.json resp) as [data|e]; [|eapply Hone; reflexivity].
  destruct (py_get data "access_token" PNone) as [t'|e]; eapply Hone; reflexivity.
Qed.

(** X10. [MapMyIndiaClient.get_route] never raises and sends at most one
    request per call; an unconfigured client sends none and returns [None]. *)
Theorem mapmyindia_get_route_discipline
  (start_lat start_lon end_lat end_lon : float) (mode : string)
  (s : MapMyIndia.St World) :
  exists answer s' sent,
    MapMyIndia.get_route http start_lat start_lon end_lat end_lon mode s
    = (Ok answer, s')
    /\ MapMyIndia.requests s' = (MapMyIndia.requests s ++ sent)%list
    /\ (length sent <= 1)%nat
    /\ (MapMyIndia.is_configured (MapMyIndia.self s) = false ->
        answer = PNone /\ s' = s).
Proof.
  unfold MapMyIndia.get_route, bind at 1, get_state.
  destruct (MapMyIndia.is_configured (MapMyIndia.self s)) eqn:Hconf; cbn [negb].
  2: { exists PNone, s, []. unfold ret. rewrite app_nil_r.
       split; [reflexivity|]. split; [reflexivity|]. split; [simpl; lia | auto]. }
  assert (forall (answer : pyval) (s1 : MapMyIndia.St World) r,
             MapMyIndia.requests s1 = (MapMyIndia.requests s ++ [r])%list ->
             exists answer' s' sent,
               (Ok answer, s1) = (Ok answer', s')
               /\ MapMyIndia.requests s' = (MapMyIndia.requests s ++ sent)%list
               /\ (length sent <= 1)%nat
               /\ (true = false -> answer' = PNone /\ s' = s)) as Hone.
  { intros answer s1 r H. exists answer, s1, [r]. split; [reflexivity|].
    split; [exact H|]. split; [simpl; lia | discriminate]. }
  unfold bind at 1, try_except.
  destruct (truthy_str (MapMyIndia.api_key (MapMyIndia.self s))) eqn:Hkey.
  - unfold bind, MapMyIndia.send, lift, ret.
    destruct (http _ (MapMyIndia.world s)) as [[resp|e] w'];
      [|eapply Hone; reflexivity].
    destruct (Z.eqb (MapMyIndia.status_code resp) 200); [|eapply Hone; reflexivity].
    destruct (MapMyIndia.json resp); eapply Hone; reflexivity.
  - destruct (get_token_sends_at_most_one s) as (t & s1 & sent & Htok & Hreq & Hlen).
    unfold bind. rewrite Htok.
    destruct t as [t|e]; [destruct (negb (truthy t))|];
      exists PNone, s1, sent; unfold ret;
      (split; [reflexivity|]); (split; [exact Hreq|]); (split; [exact Hlen | discriminate]).
Qed.

End MapMyIndiaRequests.

(** A client with a cached token: the token endpoint is not asked again. *)
Lemma token_is_cached_for_good_witness :
  MapMyIndia._get_token token_endpoint
    {| MapMyIndia.self := MapMyIndia.with_token (MapMyIndia.init oauth_only_env)
                                                (PStr "tok-1");
       MapMyIndia.world := 1;
       MapMyIndia.requests := [MapMyIndia.TokenPost (Some "client-id")
                                                    (Some "client-secret")] |}
  = (Ok (PStr "tok-1"),
     {| MapMyIndia.self := MapMyIndia.with_token (MapMyIndia.init oauth_only_env)
                                                 (PStr "tok-1");
        MapMyIndia.world := 1;
        MapMyIndia.requests := [MapMyIndia.TokenPost (Some "client-id")
                                                     (Some "client-secret")] |}).
Proof.
  apply (token_is_cached_for_good token_endpoint
           {| MapMyIndia.self := MapMyIndia.init oauth_only_env;
              MapMyIndia.world := 0;
              MapMyIndia.requests := [] |});
    reflexivity.
Defined.

(** A client with an API key asked for a walking route: one routing request,
    longitude first. *)
Lemma mapmyindia_key_sends_one_route_request_witness :
  MapMyIndia.requests
    (snd (MapMyIndia.get_route token_endpoint
            12.9166%float 77.6101%float 12.9716%float 77.5946%float "walk"
            {| MapMyIndia.self :=
                 {| MapMyIndia.api_key := Some "key-1";
                    MapMyIndia.client_id := None;
                    MapMyIndia.client_secret := None;
                    MapMyIndia.is_configured := true;
                    MapMyIndia.token := PNone |};
               MapMyIndia.world := 0;
               MapMyIndia.requests := [] |}))
  = [MapMyIndia.RouteGet (Some "key-1")
       77.6101%float 12.9166%float 77.5946%float 12.9716%float].
Proof.
  rewrite (mapmyindia_key_sends_one_route_request token_endpoint
             {| MapMyIndia.api_key := Some "key-1";
                MapMyIndia.client_id := None;
                MapMyIndia.client_secret := None;
                MapMyIndia.is_configured := true;
                MapMyIndia.token := PNone |}
             12.9166%float 77.6101%float 12.9716%float 77.5946%float "walk" 0 []
             eq_refl eq_refl).
  reflexivity.
Defined.

Section ClientRequests.
Context {World : Type}.
Variable http : Clients.http_request -> World -> result MapMyIndia.http_response * World.

(** A body passes the routes test only if it is a dictionary whose
    ["routes"] entry is truthy. *)
Lemma has_routes_true (data : pyval) :
  Clients.has_routes data = Ok true ->
  exists d routes,
    data = PDict d /\ dict_lookup "routes" d = Some routes /\ truthy routes = true.
Proof.
  unfold Clients.has_routes, py_get, rbind.
  destruct data as [| | | | | |d]; try discriminate.
  destruct (dict_lookup "routes" d) as [routes|] eqn:E; [|discriminate].
  destruct (truthy routes) eqn:Ht; [|discriminate].
  intros _. exists d, routes. auto.
Qed.

(** X11. [MapboxClient.get_route] never raises and sends at most one request,
    the Directions request with the coordinates in longitude, latitude order
    and the profile of the lower-cased mode; without a key it sends nothing
    and returns [None]; an answer other than [None] is always a dictionary
    whose ["routes"] entry is truthy. *)
Theorem mapbox_get_route_discipline (self : Clients.MapboxClient)
  (start_lat start_lon end_lat end_lon : float) (mode : string)
  (s : Clients.St World) :
  let request :=
    Clients.MapboxDirections
      (Clients.profile_of Clients.mapbox_profile_map (lower mode))
      start_lon start_lat end_lon end_lat (Clients.mapbox_key self) in
  exists answer s',
    Clients.mapbox_get_route http self start_lat start_lon end_lat end_lon mode s
    = (Ok answer, s')
    /\ (if Clients.mapbox_is_configured self
        then Clients.requests s' = (Clients.requests s ++ [request])%list
        else s' = s /\ answer = PNone)
    /\ (answer <> PNone ->
        exists d routes,
          answer = PDict d /\ dict_lookup "routes" d = Some routes
          /\ truthy routes = true).
Proof.
  intros request. unfold Clients.mapbox_get_route.
  destruct (Clients.mapbox_is_configured self); cbn [negb].
  2: { exists PNone, s. unfold ret. split; [reflexivity|]. split; [auto|].
       intros H; now elim H. }
  unfold try_except, bind, Clients.send, lift, ret. fold request.
  assert (forall s1 : Clients.St World,
             Clients.requests s1 = (Clients.requests s ++ [request])%list ->
             exists answer s',
               (Ok PNone, s1) = (Ok answer, s')
               /\ Clients.requests s' = (Clients.requests s ++ [request])%list
               /\ (answer <> PNone ->
                   exists d routes,
                     answer = PDict d /\ dict_lookup "routes" d = Some routes
                     /\ truthy routes = true)) as Hnone.
  { intros s1 H. exists PNone, s1. split; [reflexivity|]. split; [exact H|].
    intros H'; now elim H'. }
  destruct (http request (Clients.world s)) as [[resp|e] w'];
    [|apply Hnone; reflexivity].
  destruct (Z.eqb (MapMyIndia.status_code resp) 200); [|apply Hnone; reflexivity].
  destruct (MapMyIndia.json resp) as [data|e]; [|apply Hnone; reflexivity].
  destruct (Clients.has_routes data) as [[|]|e] eqn:Hr;
    [|apply Hnone; reflexivity|apply Hnone; reflexivity].
  eexists data, _. split; [reflexivity|]. split; [reflexivity|].
  intros _. now apply has_routes_true.
Qed.

(** X12. [GoogleMapsClient.get_route] never raises and sends at most one
    request, with origin and destination in latitude, longitude order and
    the mode of the lower-cased travel mode; without a key it sends nothing
    and returns [None]; an answer other than [None] is always a dictionary
    whose ["status"] is ["OK"]. *)
Theorem google_get_route_discipline (self : Clients.GoogleMapsClient)
  (start_lat start_lon end_lat end_lon : float) (mode : string)
  (s : Clients.St World) :
  let request :=
    Clients.GoogleDirections start_lat start_lon end_lat end_lon
      (Clients.profile_of Clients.google_mode_map (lower mode))
      (Clients.google_key self) in
  exists answer s',
    Clients.google_get_route http self start_lat start_lon end_lat end_lon mode s
    = (Ok answer, s')
    /\ (if Clients.google_is_configured self
        then Clients.requests s' = (Clients.requests s ++ [request])%list
        else s' = s /\ answer = PNone)
    /\ (answer <> PNone ->
        exists d, answer = PDict d /\ dict_lookup "status" d = Some (PStr "OK")).
Proof.
  intros request. unfold Clients.google_get_route.
  destruct (Clients.google_is_configured self); cbn [negb].
  2: { exists PNone, s. unfold ret. split; [reflexivity|]. split; [auto|].
       intros H; now elim H. }
  unfold try_except, bind, Clients.send, lift, ret. fold request.
  assert (forall s1 : Clients.St World,
             Clients.requests s1 = (Clients.requests s ++ [request])%list ->
             exists answer s',
               (Ok PNone, s1) = (Ok answer, s')
               /\ Clients.requests s' = (Clients.requests s ++ [request])%list
               /\ (answer <> PNone ->
                   exists d, answer = PDict d
                             /\ dict_lookup "status" d = Some (PStr "OK"))) as Hnone.
  { intros s1 H. exists PNone, s1. split; [reflexivity|]. split; [exact H|].
    intros H'; now elim H'. }
  destruct (http request (Clients.world s)) as [[resp|e] w'];
    [|apply Hnone; reflexivity].
  destruct (Z.eqb (MapMyIndia.status_code resp) 200); [|apply Hnone; reflexivity].
  destruct (MapMyIndia.json resp) as [data|e]; [|apply Hnone; reflexivity].
  destruct (py_get data "status" PNone) as [status|e] eqn:Hs;
    [|apply Hnone; reflexivity].
  destruct (Clients.py_eq_str status "OK") eqn:Hok; [|apply Hnone; reflexivity].
  eexists data, _. split; [reflexivity|]. split; [reflexivity|].
  intros _. unfold py_get in Hs. destruct data as [| | | | | |d]; try discriminate.
  exists d. split; [reflexivity|].
  destruct status as [| | | |t| |]; try discriminate.
  simpl in Hok. apply String.eqb_eq in Hok. subst t.
  destruct (dict_lookup "status" d) as [x|]; inversion Hs; subst; reflexivity.
Qed.

(** X13. [OSRMClient.get_route] needs no credentials: every call sends
    exactly one request, to the class's own base URL, with the profile
    ["foot"] for ["walk"], ["bicycle"] for ["bike"] and ["driving"] for any
    other mode; it returns the parsed body when the status is 200 and [None]
    for any other status, an unparsable body or a transport failure. *)
Theorem osrm_sends_one_request
  (start_lat start_lon end_lat end_lon : float) (mode : string)
  (s : Clients.St World) :
  let request :=
    Clients.OsrmRoute "https://router.project-osrm.org/route/v1"
                      (Clients.osrm_profile mode)
                      start_lon start_lat end_lon end_lat in
  Clients.osrm_get_route http start_lat start_lon end_lat end_lon mode s
  = (Ok match fst (http request (Clients.world s)) with
        | Ok resp =>
            if Z.eqb (MapMyIndia.status_code resp) 200
            then match MapMyIndia.json resp with
                 | Ok data => data
                 | Raise _ => PNone
                 end
            else PNone
        | Raise _ => PNone
        end,
     {| Clients.world := snd (http request (Clients.world s));
        Clients.requests := (Clients.requests s ++ [request])%list |})
  /\ (mode = "walk" -> Clients.osrm_profile mode = "foot")
  /\ (mode = "bike" -> Clients.osrm_profile mode = "bicycle")
  /\ (mode <> "walk" -> mode <> "bike" -> Clients.osrm_profile mode = "driving").
Proof.
  cbv zeta. split; [|split; [|split]].
  - unfold Clients.osrm_get_route, Clients.OSRM_CLIENT_BASE_URL.
    unfold bind, try_except, Clients.send, lift, ret.
    destruct (http _ (Clients.world s)) as [[resp|e] w']; [|reflexivity].
    cbn [fst snd].
    destruct (Z.eqb (MapMyIndia.status_code resp) 200); [|reflexivity].
    destruct (MapMyIndia.json resp); reflexivity.
  - intros ->. reflexivity.
  - intros ->. reflexivity.
  - intros Hw Hb. unfold Clients.osrm_profile.
    apply String.eqb_neq in Hw, Hb. now rewrite Hw, Hb.
Qed.

End ClientRequests.

(** X14. What each provider makes of the four travel modes of the API:
    Mapbox and OSRM route ["transit"] as driving, Google alone has a transit
    mode; every other mode reaches each provider's own profile. *)
Theorem travel_mode_profiles (m : Routing.TravelMode) :
  Clients.profile_of Clients.mapbox_profile_map (lower (Routing.mode_value m))
  = match m with
    | Routing.car | Routing.transit => "driving"
    | Routing.bike => "cycling"
    | Routing.walk => "walking"
    end
  /\ Clients.profile_of Clients.google_mode_map (lower (Routing.mode_value m))
     = match m with
       | Routing.car => "driving"
       | Routing.transit => "transit"
       | Routing.bike => "bicycling"
       | Routing.walk => "walking"
       end
  /\ Clients.osrm_profile (Routing.mode_value m)
     = match m with
       | Routing.car | Routing.transit => "driving"
       | Routing.bike => "bicycle"
       | Routing.walk => "foot"
       end.
Proof. destruct m; repeat split; reflexivity. Qed.

Import ClientProps.

Section GeocoderRequests.
Context {World : Type}.
Variable http : Clients.http_request -> World -> result MapMyIndia.http_response * World.

(** X15. [MapboxGeocoder.geocode] never raises and sends at most one request,
    for the given country and, the place name being ASCII, for the trimmed
    name; without a key it sends nothing and returns [None]; an answer other
    than [None] is always a dictionary with exactly the entries ["lat"],
    ["lon"], ["display"] and ["full_name"], in that order. *)
Theorem geocode_discipline (self : Clients.MapboxGeocoder)
  (place_name country : string) (s : Clients.St World) :
  exists answer s',
    Clients.geocode http self place_name country s = (Ok answer, s')
    /\ (if Clients.geocoder_is_configured self
        then exists query,
               Clients.requests s'
               = (Clients.requests s
                    ++ [Clients.MapboxGeocode query country
                                              (Clients.geocoder_key self)])%list
               /\ (is_ascii place_name = true -> query = strip place_name)
        else s' = s /\ answer = PNone)
    /\ (answer <> PNone ->
        exists lat lon short full,
          answer = PDict [("lat", lat); ("lon", lon);
                          ("display", short); ("full_name", full)]).
Proof.
  destruct (Clients.geocode http self place_name country s) as [r s'] eqn:E.
  destruct (geocode_answer_shape http self place_name country s s' r E)
    as [Hshape Hsent].
  assert (exists answer,
             r = Ok answer
             /\ (answer <> PNone ->
                 exists lat lon short full,
                   answer = PDict [("lat", lat); ("lon", lon);
                                   ("display", short); ("full_name", full)]))
    as (answer & -> & Hanswer).
  { destruct Hshape as [->|(la & lo & sh & fu & ->)]; eexists; split;
      try reflexivity; [intros H; now elim H | eauto]. }
  exists answer, s'. split; [reflexivity|]. split; [|exact Hanswer].
  destruct (Clients.geocoder_is_configured self).
  - exists (strip place_name). split; [exact Hsent | reflexivity].
  - destruct Hsent as [-> [= ->]]. auto.
Qed.

(** X16. A well-formed answer of the geocoding service is read correctly:
    when the status is 200 and the first feature holds the coordinates
    [lon, lat, ...], a configured geocoder returns ["lat"] and ["lon"]
    swapped back from that order; ["full_name"] is the feature's
    ["place_name"], the input if absent, and ["display"] is the feature's
    ["text"], the full name if absent. *)
Theorem geocode_reads_the_first_feature (self : Clients.MapboxGeocoder)
  (place_name country : string) (s : Clients.St World)
  (resp : MapMyIndia.http_response) (w' : World)
  (body feature geometry : list (string * pyval)) (others more : list pyval)
  (lon lat : pyval) :
  Clients.geocoder_is_configured self = true ->
  http (Clients.MapboxGeocode (strip place_name) country (Clients.geocoder_key self))
       (Clients.world s)
  = (Ok resp, w') ->
  MapMyIndia.status_code resp = 200%Z ->
  MapMyIndia.json resp = Ok (PDict body) ->
  dict_lookup "features" body = Some (PList (PDict feature :: others)) ->
  dict_lookup "geometry" feature = Some (PDict geometry) ->
  dict_lookup "coordinates" geometry = Some (PList (lon :: lat :: more)) ->
  fst (Clients.geocode http self place_name country s)
  = Ok (PDict [("lat", lat); ("lon", lon);
               ("display", fst (feature_names place_name feature));
               ("full_name", snd (feature_names place_name feature))]).
Proof.
  intros Hconf Hhttp Hstatus Hjson Hfeatures Hgeometry Hcoords.
  unfold Clients.geocode. rewrite Hconf. cbn [negb].
  unfold try_except, bind, Clients.send, lift, ret.
  rewrite Hhttp, Hstatus, Hjson. cbn [Z.eqb Pos.eqb].
  unfold Clients.has_features, rbind, py_get, py_getitem_key.
  rewrite Hfeatures. cbn [truthy Clients.py_len List.length Nat.ltb Nat.leb].
  unfold Clients.geocode_feature, rbind, py_getitem_key. rewrite Hfeatures.
  cbn [py_getitem_0 py_get]. rewrite Hgeometry. cbn [py_get]. rewrite Hcoords.
  cbn [Clients.py_len List.length Nat.leb Clients.py_getitem_idx nth_error].
  unfold feature_names. cbn [fst snd].
  destruct (dict_lookup "place_name" feature);
    destruct (dict_lookup "text" feature); reflexivity.
Qed.

End GeocoderRequests.

(** The answer for "Hampi": coordinates [76.46, 15.335] become
    lat 15.335, lon 76.46. *)
Lemma geocode_reads_the_first_feature_witness :
  fst (Clients.geocode
         (fun _ w =>
            (Ok {| MapMyIndia.status_code := 200;
                   MapMyIndia.json :=
                     Ok (PDict [("type", PStr "FeatureCollection");
                                ("features",
                                 PList [PDict [("text", PStr "Hampi");
                                               ("place_name", PStr "Hampi, Karnataka, India");
                                               ("geometry",
                                                PDict [("type", PStr "Point");
                                                       ("coordinates",
                                                        PList [PFloat 76.46%float;
                                                               PFloat 15.335%float])])]])]);
                   MapMyIndia.text := "" |}, S w))
         (Clients.geocoder_init (Some "pk.test")) "  hampi " "in"
         {| Clients.world := 0; Clients.requests := [] |})
  = Ok (PDict [("lat", PFloat 15.335%float); ("lon", PFloat 76.46%float);
               ("display", PStr "Hampi");
               ("full_name", PStr "Hampi, Karnataka, India")]).
Proof.
  apply (geocode_reads_the_first_feature
           (fun _ w =>
              (Ok {| MapMyIndia.status_code := 200;
                     MapMyIndia.json :=
                       Ok (PDict [("type", PStr "FeatureCollection");
                                  ("features",
                                   PList [PDict [("text", PStr "Hampi");
                                                 ("place_name", PStr "Hampi, Karnataka, India");
                                                 ("geometry",
                                                  PDict [("type", PStr "Point");
                                                         ("coordinates",
                                                          PList [PFloat 76.46%float;
                                                                 PFloat 15.335%float])])]])]);
                     MapMyIndia.text := "" |}, S w))
           (Clients.geocoder_init (Some "pk.test")) "  hampi " "in"
           {| Clients.world := 0; Clients.requests := [] |}
           _ 1 _ _ _ [] [] (PFloat 76.46%float) (PFloat 15.335%float)
           eq_refl eq_refl eq_refl eq_refl eq_refl eq_refl eq_refl).
Defined.

(* ===================================================================== *)
(** * Further properties of the text-route handlers *)
(* ===================================================================== *)

(** X17. The synthesized waypoints always start at the source and end at the
    destination, with one or two named points between them, and never more
    intermediate coordinates than named points. *)
Theorem waypoints_run_from_source_to_destination (source destination event : string) :
  let '(waypoints, _, intermediates) := _generate_waypoints source destination event in
  hd_error waypoints = Some source
  /\ last waypoints "" = destination
  /\ (length waypoints = 3 \/ length waypoints = 4)
  /\ length intermediates <= length waypoints - 2.
Proof.
  unfold _generate_waypoints.
  repeat match goal with
         | |- context [if ?c then _ else _] => destruct c
         end;
    cbn [app hd_error last length]; repeat split; auto; lia.
Qed.

Lemma dict_lookup_in {V} (k : string) (v : V) (d : list (string * V)) :
  dict_lookup k d = Some v -> In (k, v) d.
Proof.
  induction d as [|[k' v'] d IH]; simpl; [discriminate|].
  destruct (String.eqb k k') eqn:E.
  - apply String.eqb_eq in E. subst. intros H. inversion H. now left.
  - intros H. right. now apply IH.
Qed.

(** X18. A name that contains a gazetteer key, or is contained in one,
    resolves inside the gazetteer without any remote call, whether or not a
    geocoder is configured; a blank name (empty or white space only), being
    contained in every key, resolves to the first entry, BTM Layout. *)
Theorem substring_match_resolves_locally {World : Type} (D : Services World)
  (location_name : string) (w : World) :
  let normalized := strip (lower location_name) in
  ((exists key entry,
       In (key, entry) LOCATION_DB
       /\ (contains normalized key = true \/ contains key normalized = true)) ->
   exists key' entry',
     In (key', entry') LOCATION_DB
     /\ _geocode_location D location_name w = (Ok (location_dict entry'), w))
  /\ (normalized = "" ->
      _geocode_location D location_name w
      = (Ok (location_dict {| loc_lat := 12.9166%float; loc_lon := 77.6101%float;
                              display := "BTM Layout" |}), w)).
Proof.
  cbv zeta. split.
  - intros (key & entry & Hin & Hsub). unfold _geocode_location.
    destruct (dict_lookup (strip (lower location_name)) LOCATION_DB) as [e|] eqn:El.
    + exists (strip (lower location_name)), e. split; [|reflexivity].
      now apply dict_lookup_in.
    + destruct (partial_match (strip (lower location_name))) as [[k v]|] eqn:Ep.
      * exists k, v. split; [|reflexivity].
        unfold partial_match in Ep. now apply find_some in Ep.
      * exfalso. unfold partial_match in Ep.
        pose proof (find_none _ _ Ep (key, entry) Hin) as Hf. cbn [fst] in Hf.
        apply orb_false_iff in Hf. destruct Hf as [H1 H2].
        destruct Hsub as [H|H]; congruence.
  - intros H. unfold _geocode_location. rewrite H. reflexivity.
Qed.

(** The three-letter name "btm" and the blank name both resolve to BTM Layout. *)
Lemma substring_match_resolves_locally_witness :
  (exists key' entry',
      In (key', entry') LOCATION_DB
      /\ _geocode_location (services small_angle_runtime google_manager) "BTM" 0
         = (Ok (location_dict entry'), 0))
  /\ _geocode_location (services small_angle_runtime google_manager) "   " 0
     = (Ok (location_dict {| loc_lat := 12.9166%float; loc_lon := 77.6101%float;
                             display := "BTM Layout" |}), 0).
Proof.
  split.
  - apply (proj1 (substring_match_resolves_locally
                    (services small_angle_runtime google_manager) "BTM" 0)).
    exists "btm layout", {| loc_lat := 12.9166%float; loc_lon := 77.6101%float;
                            display := "BTM Layout" |}.
    split; [simpl; tauto | left; reflexivity].
  - apply (proj2 (substring_match_resolves_locally
                    (services small_angle_runtime google_manager) "   " 0)).
    reflexivity.
Defined.

(** X19. The remote tier of location resolution: for an ASCII name without
    any gazetteer match and with a configured geocoder, the geocoder sends
    one request, for the trimmed name and country ["in"]; its answer is
    returned when it finds the place, and the default coordinate with the
    title-cased input when it finds nothing. *)
Theorem remote_tier_falls_back_to_default {World : Type} (D : Services World)
  (location_name : string) (w : World) :
  is_ascii location_name = true ->
  dict_lookup (strip (lower location_name)) LOCATION_DB = None ->
  partial_match (strip (lower location_name)) = None ->
  mapbox_geocoder_is_configured D = true ->
  exists answer,
    fst (run_geocode D location_name "in" w) = Ok answer
    /\ Clients.requests (snd (run_geocode D location_name "in" w))
       = [Clients.MapboxGeocode (strip location_name) "in"
                                (mapbox_api_key (routing_config D))]
    /\ _geocode_location D location_name w
       = (Ok (if truthy answer then answer
              else PDict [("lat", PFloat 12.9716%float);
                          ("lon", PFloat 77.5946%float);
                          ("display", PStr (title location_name))]),
          Clients.world (snd (run_geocode D location_name "in" w))).
Proof.
  intros _ Hl Hp Hc. unfold _geocode_location. rewrite Hl, Hp, Hc.
  unfold bind, try_except, ret, call_geocoder.
  destruct (run_geocode D location_name "in" w) as [r s'] eqn:E.
  unfold run_geocode in E. apply geocode_answer_shape in E.
  fold (mapbox_geocoder_is_configured D) in E. rewrite Hc in E.
  cbn [Clients.requests app] in E. destruct E as [Hshape Hsent].
  cbn [fst snd].
  destruct Hshape as [->|(la & lo & sh & fu & ->)]; eexists;
    (split; [reflexivity|]); (split; [exact Hsent|]); reflexivity.
Qed.

(** "hampi" with a Mapbox key set and a geocoding service that finds nothing:
    one request is sent and the default is returned. *)
Lemma remote_tier_falls_back_to_default_witness :
  exists answer,
    fst (run_geocode
           (services small_angle_runtime
              (RouterManager.init two_keys_config unreachable_client
                 unconfigured_client unconfigured_client answering_client))
           "hampi" "in" 0) = Ok answer
    /\ Clients.requests
         (snd (run_geocode
                 (services small_angle_runtime
                    (RouterManager.init two_keys_config unreachable_client
                       unconfigured_client unconfigured_client answering_client))
                 "hampi" "in" 0))
       = [Clients.MapboxGeocode "hampi" "in" (Some "pk.test")]
    /\ _geocode_location
         (services small_angle_runtime
            (RouterManager.init two_keys_config unreachable_client
               unconfigured_client unconfigured_client answering_client))
         "hampi" 0
       = (Ok (if truthy answer then answer
              else PDict [("lat", PFloat 12.9716%float);
                          ("lon", PFloat 77.5946%float);
                          ("display", PStr "Hampi")]),
          1).
Proof.
  apply (remote_tier_falls_back_to_default
           (services small_angle_runtime
              (RouterManager.init two_keys_config unreachable_client unconfigured_client
                                  unconfigured_client answering_client))
           "hampi" 0);
    reflexivity.
Defined.

Section TextRouteFacts.
Context {World : Type}.
Variable D : Services World.

(** X20. What can fail a text-route request. No failure of the geocoding
    service or of a routing provider does (a transport error, an error
    status, an unparsable body): both names always resolve and the routing
    block never raises. The request fails only on what an answer holds:
    with [AttributeError] when the display name of a resolved place is no
    string, with the exception of the haversine computation on the resolved
    coordinates, or with [ValidationError] when the response does not fit
    its model. *)
Theorem suggest_text_route_failure_modes (payload : TextRouteRequest) (w : World) :
  exists src dst w1 w2 a b sn dn,
    _geocode_location D (source payload) w = (Ok src, w1)
    /\ _geocode_location D (text_destination payload) w1 = (Ok dst, w2)
    /\ lat_lon src = Ok a /\ lat_lon dst = Ok b
    /\ py_get src "display" (PStr (source payload)) = Ok sn
    /\ py_get dst "display" (PStr (text_destination payload)) = Ok dn
    /\ ((exists resp w', suggest_text_route D payload w = (Ok resp, w'))
        \/ (suggest_text_route D payload w = (Raise AttributeError, w2)
            /\ (is_str sn = false \/ is_str dn = false))
        \/ (exists x,
               suggest_text_route D payload w = (Raise x, w2)
               /\ _haversine_distance_m (runtime D) (fst a) (snd a) (fst b) (snd b)
                  = Raise x)
        \/ (exists w', suggest_text_route D payload w = (Raise ValidationError, w'))).
Proof.
  destruct (route_estimate_outcome D payload w)
    as (src & dst & w1 & w2 & a & b & sn & dn & Hs & Hd & Hsrc & Hdst & Ha & Hb
        & Hsn & Hdn & Hout).
  exists src, dst, w1, w2, a, b, sn, dn.
  repeat (split; [assumption|]).
  unfold suggest_text_route, bind.
  destruct Hout as [[-> Hstr]|[(x & -> & Hx)|(s & d & dm & _ & _ & _ & Hest)]].
  - right. left. split; [reflexivity | exact Hstr].
  - right. right. left. exists x. split; [reflexivity | exact Hx].
  - cbv zeta in Hest. rewrite Hest. unfold finish_text_route.
    match goal with
    | |- context [routing_block D payload ?e ?s] =>
        destruct (routing_block_returns D payload e s) as [[w' l] ->];
        destruct (text_response D e l) as [resp|x] eqn:E;
        [left; eauto|];
        apply (text_response_raises D e l x Hsrc Hdst) in E; subst x
    end.
    right. right. right. eauto.
Qed.

Lemma speed_is_positive (m : TravelMode) (distance_m : float) :
  duration_of distance_m (_estimate_speed_mps m)
  = PrimFloat.div distance_m (_estimate_speed_mps m).
Proof. destruct m; reflexivity. Qed.

(** X21. What a text-route response takes from the local estimate whatever
    the providers answer: the estimate's duration is its event-multiplied
    distance divided by the speed of the mode; the CO2 figure is computed
    from that distance, zero for walk and bike; and the handler either
    raises [ValidationError] or returns a response that carries this CO2
    figure, the synthesized waypoints and the reason unchanged, even when a
    provider's distance and duration replace the estimate. *)
Theorem response_keeps_the_local_narrative (payload : TextRouteRequest)
  (w w1 : World) (e : Estimate) :
  route_estimate D payload w = (Ok e, w1) ->
  e_duration_s e
  = PrimFloat.div (e_distance_m e) (_estimate_speed_mps (text_mode payload))
  /\ co2_kg e = _estimate_co2_kg (runtime D) (e_distance_m e) (text_mode payload)
  /\ (text_mode payload = walk \/ text_mode payload = bike -> co2_kg e = 0%float)
  /\ exists w2,
       suggest_text_route D payload w = (Raise ValidationError, w2)
       \/ exists resp,
            suggest_text_route D payload w = (Ok resp, w2)
            /\ text_estimated_co2_kg resp = co2_kg e
            /\ text_waypoints resp = e_waypoints e
            /\ reason resp = e_reason e
            /\ recommended_route resp = join " → " (e_waypoints e).
Proof.
  intros Hest.
  destruct (estimate_facts D payload w w1 e Hest) as (Hsrc & Hdst & Hdur & Hco2).
  split; [rewrite Hdur; apply speed_is_positive|]. split; [exact Hco2|]. split.
  - rewrite Hco2. intros [->| ->]; reflexivity.
  - unfold suggest_text_route, bind. rewrite Hest. unfold finish_text_route.
    destruct (routing_block_returns D payload e (w1, initial_locals e))
      as [[w2 l] ->].
    exists w2. destruct (text_response D e l) as [resp|x] eqn:E.
    + right. exists resp. split; [reflexivity|].
      destruct (text_response_fields D e l resp E) as (_ & _ & H3 & H4 & H5 & H6 & _).
      auto.
    + left. now rewrite (text_response_raises D e l x Hsrc Hdst E).
Qed.

(** X22. The geometry of a text-route response, for two places with float
    coordinates. The geometry is what the model makes of the one the routing
    block left. When that one is not truthy (every provider failed, or the
    route has no ["geometry"] entry), the response draws the straight path:
    the source, every intermediate point, the destination, and as many mock
    steps, appended after whatever steps a provider supplied. When a
    geometry was obtained, no path is drawn and the steps are the provider's
    alone. *)
Theorem fallback_path_is_drawn_without_geometry (e : Estimate) (l : Locals)
  (resp : TextRouteResponse) (src_lat src_lon dst_lat dst_lon : float) :
  lat_lon (source_coords e) = Ok (PFloat src_lat, PFloat src_lon) ->
  lat_lon (dest_coords e) = Ok (PFloat dst_lat, PFloat dst_lon) ->
  text_response D e l = Ok resp ->
  validate_str (coercions D) (l_geometry l) = Some (geometry resp)
  /\ (truthy (l_geometry l) = false ->
      detailed_geometry resp
      = ([src_lat; src_lon]
           :: map (fun pt => [loc_lat pt; loc_lon pt]) (intermediate_points e)
           ++ [[dst_lat; dst_lon]])%list
      /\ length (steps resp)
         = length (l_steps l) + length (intermediate_points e) + 2
      /\ validate_all (validate_dict (coercions D)) (l_steps l)
         = Some (firstn (length (l_steps l)) (steps resp)))
  /\ (truthy (l_geometry l) = true ->
      detailed_geometry resp = []
      /\ validate_all (validate_dict (coercions D)) (l_steps l) = Some (steps resp)).
Proof.
  intros Hs Hd. unfold text_response, fallback_geometry. rewrite Hs, Hd.
  destruct (truthy (l_geometry l)); cbn [negb rbind fst snd];
    unfold build_response;
    (destruct (validate_str (coercions D) (l_geometry l)) as [g|]; [|discriminate]).
  - cbn [validate_all].
    destruct (validate_all (validate_dict (coercions D)) (l_steps l)) as [dicts|];
      [|discriminate].
    repeat match goal with
           | |- context [match ?v with Some _ => _ | None => _ end] =>
               destruct v; [|discriminate]
           end.
    intros [= <-]. cbn. split; [reflexivity|]. split; [discriminate | auto].
  - destruct (validate_all (validate_all (validate_float (coercions D))) _)
      as [path|] eqn:Epath; [|discriminate].
    destruct (validate_all (validate_dict (coercions D)) _) as [dicts|] eqn:Edicts;
      [|discriminate].
    repeat match goal with
           | |- context [match ?v with Some _ => _ | None => _ end] =>
               destruct v; [|discriminate]
           end.
    intros [= <-]. cbn [geometry detailed_geometry steps].
    split; [reflexivity|]. split; [|discriminate]. intros _.
    apply validate_all_app in Edicts.
    destruct Edicts as (given & mock & Hgiven & Hmock & ->).
    pose proof (validate_all_length _ _ _ Hgiven) as Lgiven.
    pose proof (validate_all_length _ _ _ Hmock) as Lmock.
    split; [|split].
    + change (([PFloat src_lat; PFloat src_lon]
                 :: map (fun pt => [PFloat (loc_lat pt); PFloat (loc_lon pt)])
                        (intermediate_points e))
                ++ [[PFloat dst_lat; PFloat dst_lon]])%list
        with ([[PFloat src_lat; PFloat src_lon]]
                ++ map (fun pt => [PFloat (loc_lat pt); PFloat (loc_lon pt)])
                       (intermediate_points e)
                ++ [[PFloat dst_lat; PFloat dst_lon]])%list in Epath.
      apply validate_all_app in Epath.
      destruct Epath as (p1 & p23 & H1 & H23 & ->).
      apply validate_all_app in H23.
      destruct H23 as (p2 & p3 & H2 & H3 & ->).
      rewrite validate_float_rows in H2.
      cbn in H1, H3. injection H1 as <-. injection H2 as <-. injection H3 as <-.
      reflexivity.
    + rewrite length_app, Lgiven, Lmock, !length_app, length_map. simpl. lia.
    + rewrite <- Lgiven, firstn_app, Nat.sub_diag, firstn_all. simpl.
      now rewrite app_nil_r.
Qed.

(** X27. A route whose geometry is not a string fails the request: when the
    first route of the answer holds [null], a list or an object (a GeoJSON
    geometry) as its geometry, [suggest_text_route] raises
    [ValidationError], whatever the release of the validation library, and
    whatever distance and duration the route carries. *)
Theorem geometry_must_be_a_string (payload : TextRouteRequest) (w w1 : World)
  (e : Estimate) (q : RouterManager.RouteQuery) (answer : pyval)
  (st : RouterManager.St World) (route : list (string * pyval)) :
  route_estimate D payload w = (Ok e, w1) ->
  router_query payload e = Ok q ->
  RouterManager.run_get_route (router_manager D) q None w1 = (Ok answer, st) ->
  first_route answer = Some route ->
  never_a_str (geometry_entry route) = true ->
  suggest_text_route D payload w = (Raise ValidationError, RouterManager.world st).
Proof.
  intros Hest Hq Hrun Hfirst Hnever.
  destruct (estimate_facts D payload w w1 e Hest) as (Hsrc & Hdst & _ & _).
  unfold suggest_text_route, bind. rewrite Hest. unfold finish_text_route.
  destruct (routing_block_route D payload e q w1 (initial_locals e) answer route st
              Hq Hrun Hfirst) as (l & -> & Hg & _).
  destruct (text_response D e l) as [resp|x] eqn:E.
  - exfalso. destruct (text_response_fields D e l resp E) as (_ & _ & _ & _ & _ & _ & H).
    rewrite Hg in H. destruct (geometry_entry route); discriminate.
  - now rewrite (text_response_raises D e l x Hsrc Hdst E).
Qed.

End TextRouteFacts.

(** The rally request against OSRM: the response returns OSRM's distance, yet
    its CO2 figure is the one of the local estimate. *)
Lemma response_keeps_the_local_narrative_witness :
  co2_kg rally_estimate
  = _estimate_co2_kg small_angle_runtime (e_distance_m rally_estimate) car
  /\ exists resp w2,
       suggest_text_route (services small_angle_runtime osrm_manager) rally_request 0
       = (Ok resp, w2)
       /\ text_estimated_co2_kg resp = co2_kg rally_estimate
       /\ text_waypoints resp = ["BTM Layout"; "Dairy Circle"; "Richmond Road"; "MG Road"].
Proof.
  destruct (response_keeps_the_local_narrative
              (services small_angle_runtime osrm_manager) rally_request 0 0
              rally_estimate eq_refl)
    as (_ & Hco2 & _ & w2 & [Hfail|(resp & Hrun & Hc & Hw & _)]).
  - discriminate Hfail.
  - split; [exact Hco2|]. exists resp, w2. split; [exact Hrun|]. split; [exact Hc|].
    exact Hw.
Defined.

(** The rally estimate when every provider has failed: the path runs through
    Dairy Circle and Richmond Circle and four mock steps are given. *)
Lemma fallback_path_is_drawn_without_geometry_witness :
  exists resp,
    text_response (services small_angle_runtime osrm_manager) rally_estimate
                  (initial_locals rally_estimate) = Ok resp
    /\ detailed_geometry resp
       = [[12.9166; 77.6101]; [12.9385; 77.6015]; [12.9600; 77.5969];
          [12.9716; 77.5946]]%float
    /\ length (steps resp) = 4.
Proof.
  eexists. split; [reflexivity|].
  destruct (fallback_path_is_drawn_without_geometry
              (services small_angle_runtime osrm_manager) rally_estimate
              (initial_locals rally_estimate) _
              12.9166%float 77.6101%float 12.9716%float 77.5946%float
              eq_refl eq_refl eq_refl) as (_ & H & _).
  destruct (H eq_refl) as (Hpath & Hlen & _).
  split; [exact Hpath | exact Hlen].
Defined.

(** The rally request against an OSRM that answers with a GeoJSON geometry:
    the route carries a distance and a duration, and the request fails. *)
Lemma geometry_must_be_a_string_witness :
  suggest_text_route (services small_angle_runtime geojson_manager) rally_request 0
  = (Raise ValidationError, 1).
Proof.
  apply (geometry_must_be_a_string
           (services small_angle_runtime geojson_manager) rally_request 0 0
           rally_estimate
           {| RouterManager.start_lat := PFloat 12.9166%float;
              RouterManager.start_lon := PFloat 77.6101%float;
              RouterManager.end_lat := PFloat 12.9716%float;
              RouterManager.end_lon := PFloat 77.5946%float;
              RouterManager.mode := "car" |}
           (PDict [("code", PStr "Ok"); ("routes", PList [PDict geojson_route]);
                   ("_provider_used", PStr "osrm")])
           {| RouterManager.world := 1; RouterManager.invoked := [OSRM] |}
           geojson_route);
    reflexivity.
Defined.

(* ===================================================================== *)
(** * Further properties of the events handler *)
(* ===================================================================== *)

Lemma mock_events_are_active (now : Z) :
  filter (Events.is_active now) (Events._mock_events now) = Events._mock_events now.
Proof.
  unfold Events._mock_events, Events.is_active, Events.hours. cbn [filter Events.starts_at Events.ends_at].
  assert ((now - 1 * 3600000000 <=? now)%Z = true) as -> by (apply Z.leb_le; lia).
  assert ((now <=? now + 5 * 3600000000)%Z = true) as -> by (apply Z.leb_le; lia).
  assert ((now + 2 * 3600000000 - now <=? 3 * 3600000000)%Z = true) as ->
    by (apply Z.leb_le; lia).
  cbn [andb orb]. rewrite orb_true_r. reflexivity.
Qed.

(** X23. [get_nearby_events] answers every query with the same two mock
    events: the incidents call of the MapMyIndia client returns [None]
    whether or not the client is configured, so neither the location nor the
    radius selects anything, and both mock events pass the [active_only]
    filter at any time of the call; no request is sent and the client is
    left as it was. *)
Theorem nearby_events_are_the_mock_events {World : Type}
  (incident_event :
     pyval -> pyval -> pyval -> pyval -> pyval -> Z -> Z -> result Events.MobilityEvent)
  (now : Z) (at_lat at_lon : float) (radius : Z) (active_only : bool)
  (s : MapMyIndia.St World) :
  Events.get_nearby_events incident_event now at_lat at_lon radius active_only s
  = (Ok {| Events.items := Events._mock_events now;
           Events.count := 2;
           Events.center_lat := at_lat;
           Events.center_lon := at_lon;
           Events.radius_km := radius |}, s).
Proof.
  unfold Events.get_nearby_events, MapMyIndia.get_nearby_incidents, bind, get_state.
  destruct (negb (MapMyIndia.is_configured (MapMyIndia.self s)));
    unfold ret; cbn [truthy];
    destruct active_only; rewrite ?mock_events_are_active; reflexivity.
Qed.

(* ===================================================================== *)
(** * Further properties of the gazetteer and the event tables *)
(* ===================================================================== *)

Lemma location_db_in_bounds :
  Forall (fun kv => valid_coordinate {| lat := loc_lat (snd kv); lon := loc_lon (snd kv) |}
                    = true)
         LOCATION_DB.
Proof. unfold LOCATION_DB. repeat constructor. Qed.

(** X24. Without a remote geocoder every name resolves, with no remote call,
    to a coordinate inside the bounds the API puts on coordinates
    (latitude in [-90, 90], longitude in [-180, 180]): a gazetteer entry or
    the default. *)
Theorem local_resolution_stays_in_bounds {World : Type} (D : Services World)
  (location_name : string) (w w' : World) (place : pyval) :
  mapbox_geocoder_is_configured D = false ->
  _geocode_location D location_name w = (Ok place, w') ->
  exists loc,
    place = location_dict loc
    /\ valid_coordinate {| lat := loc_lat loc; lon := loc_lon loc |} = true
    /\ w' = w.
Proof.
  intros Hconf. unfold _geocode_location.
  pose proof location_db_in_bounds as Hdb. rewrite Forall_forall in Hdb.
  destruct (dict_lookup (strip (lower location_name)) LOCATION_DB) as [e|] eqn:El.
  - unfold ret. intros [= <- <-]. exists e.
    split; [reflexivity|]. split; [|reflexivity].
    exact (Hdb _ (dict_lookup_in _ _ _ El)).
  - destruct (partial_match (strip (lower location_name))) as [[k v]|] eqn:Ep.
    + unfold ret. intros [= <- <-]. exists v.
      split; [reflexivity|]. split; [|reflexivity].
      unfold partial_match in Ep. apply find_some in Ep. exact (Hdb _ (proj1 Ep)).
    + rewrite Hconf. unfold bind, ret. intros [= <- <-].
      exists {| loc_lat := 12.9716%float; loc_lon := 77.5946%float;
                display := title location_name |}.
      repeat split.
Qed.

(** "Whitefield" and "nowhere" without a Mapbox key. *)
Lemma local_resolution_stays_in_bounds_witness :
  (exists loc,
      location_dict {| loc_lat := 12.9698%float; loc_lon := 77.7499%float;
                       display := "Whitefield" |} = location_dict loc
      /\ valid_coordinate {| lat := loc_lat loc; lon := loc_lon loc |} = true
      /\ 0 = 0)
  /\ (exists loc,
         location_dict {| loc_lat := 12.9716%float; loc_lon := 77.5946%float;
                          display := "Nowhere" |} = location_dict loc
         /\ valid_coordinate {| lat := loc_lat loc; lon := loc_lon loc |} = true
         /\ 0 = 0).
Proof.
  split.
  - apply (local_resolution_stays_in_bounds
             (services small_angle_runtime osrm_manager) "Whitefield" 0 0);
      reflexivity.
  - apply (local_resolution_stays_in_bounds
             (services small_angle_runtime osrm_manager) "nowhere" 0 0);
      reflexivity.
Defined.

(** X25. The gazetteer round trip: every key is the lower-cased display name
    of its entry, so resolving the display name of an entry, whatever the
    deployment, gives back that very entry. *)
Theorem display_name_resolves_to_its_entry {World : Type} (D : Services World)
  (key : string) (entry : Location) (w : World) :
  In (key, entry) LOCATION_DB ->
  lower (display entry) = key
  /\ _geocode_location D (display entry) w = (Ok (location_dict entry), w).
Proof.
  unfold LOCATION_DB. intros H.
  repeat (destruct H as [H|H]; [inversion H; subst; split; reflexivity|]).
  destruct H.
Qed.

(** The entry of Electronic City. *)
Lemma display_name_resolves_to_its_entry_witness :
  lower "Electronic City" = "electronic city"
  /\ _geocode_location (services small_angle_runtime osrm_manager) "Electronic City" 0
     = (Ok (location_dict {| loc_lat := 12.8456%float; loc_lon := 77.6633%float;
                             display := "Electronic City" |}), 0).
Proof.
  apply (display_name_resolves_to_its_entry
           (services small_angle_runtime osrm_manager) "electronic city"
           {| loc_lat := 12.8456%float; loc_lon := 77.6633%float;
              display := "Electronic City" |} 0).
  simpl. tauto.
Defined.

(** X26. The two event tables agree where the coordinate handler knows the
    event type: for an event whose normalized text is one of the nine types
    [plan_alternate_route] recognises, the multiplier step of
    [suggest_text_route] multiplies the distance by the very factor
    [plan_alternate_route] picks. *)
Theorem recognised_event_types_get_the_same_factor (event : string)
  (distance_m : float) (reason : string) :
  In (strip (lower event))
     ["road_closure"; "accident"; "construction";
      "protest"; "rally"; "parade";
      "concert"; "sports"; "event"] ->
  fst (apply_event_multiplier event distance_m reason)
  = PrimFloat.mul distance_m (fst (event_type_impact (strip (lower event)))).
Proof.
  intros H. unfold apply_event_multiplier.
  destruct (String.eqb event "") eqn:E.
  - apply String.eqb_eq in E. subst event. exfalso.
    simpl in H. intuition discriminate.
  - cbn [negb].
    repeat (destruct H as [H|H]; [rewrite <- H; reflexivity|]).
    destruct H.
Qed.

(** "  Road_Closure " is a road closure for both handlers: factor 1.3. *)
Lemma recognised_event_types_get_the_same_factor_witness :
  fst (apply_event_multiplier "  Road_Closure " 1000%float "r")
  = PrimFloat.mul 1000%float (fst (event_type_impact (strip (lower "  Road_Closure ")))).
Proof.
  apply (recognised_event_types_get_the_same_factor "  Road_Closure " 1000%float "r").
  simpl. tauto.
Defined.
